(** * underworld.mesh._mesh : a shallow embedding

    This development embeds the Python module [underworld/mesh/_mesh.py]
    (classes [FeMesh], [MeshGenerator], [CartesianMeshGenerator],
    [TemplatedMeshGenerator], [FeMesh_Cartesian], [FeMesh_IndexSet]) and
    states the properties of its specification against the embedding.

    Conventions.
    - Python values are the inductive [pyval]; objects live in a heap
      ([gmap addr pyobj]) and carry an attribute dictionary.  A weak
      reference is a value of its own ([VWeakref]); calling it gives the
      object while the heap holds it and [None] afterwards.
    - A raised exception is the [Raise] case of [result]; code that mutates
      objects is written in a state-and-exception monad [M] over the world
      (heap and native state).  The world at the point of a [raise] is
      kept, as Python keeps the assignments made before it.
    - The native library ([libUnderworld]) and the base class
      [StgCompoundComponent] are not part of the module; they appear as a
      Section variable acting on an abstract native state, so they may
      fail but cannot touch the attributes the module assigns.
    - The constructors are modelled for the arguments they name; further
      keyword arguments ([**kwargs]) are taken to be absent.
    - [VInt] and [VStr] stand for the Python types [int] and [str]; the
      [long] and [unicode] of Python 2 are types of their own, which
      [pyval] does not represent. *)

From Stdlib Require Import ZArith Ascii String List Lia.
From stdpp Require Import base option list gmap strings.

Local Open Scope string_scope.

(** ** Python strings *)

Module PyStr.

(** [c.upper()] on one ASCII character. *)
Definition upper_ascii (c : ascii) : ascii :=
  let n := nat_of_ascii c in
  if (97 <=? n)%nat && (n <=? 122)%nat then ascii_of_nat (n - 32) else c.

(** [s.upper()] *)
Fixpoint upper (s : string) : string :=
  match s with
  | EmptyString => EmptyString
  | String c s' => String (upper_ascii c) (upper s')
  end.

(** [sub in s] *)
Fixpoint contains (sub s : string) : bool :=
  String.prefix sub s ||
  match s with
  | EmptyString => false
  | String _ s' => contains sub s'
  end.

(** [s[0:n]] *)
Fixpoint take (n : nat) (s : string) : string :=
  match n, s with
  | S k, String c s' => String c (take k s')
  | _, _ => EmptyString
  end.

(** [s.replace(old, new)]: every non-overlapping occurrence of [old],
    scanning from the left.  [skip] counts the characters of a matched
    occurrence that are still to be dropped. *)
Fixpoint replace_from (old new : string) (skip : nat) (s : string) : string :=
  match s with
  | EmptyString =>
      match old with EmptyString => new | _ => EmptyString end
  | String c s' =>
      match skip with
      | S k => replace_from old new k s'
      | O =>
          if String.prefix old s then
            match String.length old with
            | O => new +:+ String c (replace_from old new 0 s')
            | S k => new +:+ replace_from old new k s'
            end
          else String c (replace_from old new 0 s')
      end
  end.

Definition replace (old new s : string) : string := replace_from old new 0 s.

End PyStr.

(** ** Exceptions and results *)

Inductive exc : Type :=
| TypeError (msg : string)
| ValueError (msg : string)
| IndexError (msg : string)
| KeyError (key : string)
| AttributeError (name : string)
| RuntimeError (msg : string).

Inductive result (A : Type) : Type :=
| Ok (a : A)
| Raise (e : exc).
Arguments Ok {A} a.
Arguments Raise {A} e.

Definition rbind {A B} (r : result A) (k : A -> result B) : result B :=
  match r with
  | Ok a => k a
  | Raise e => Raise e
  end.

Definition is_raise {A} (r : result A) : bool :=
  match r with Raise _ => true | Ok _ => false end.

#[global] Instance result_ret : MRet result := fun A a => Ok a.
#[global] Instance result_bind : MBind result := fun A B k r => rbind r k.

(** [if cond: raise e] *)
Definition raise_if (cond : bool) (e : exc) : result unit :=
  if cond then Raise e else Ok tt.

(** ** Python values *)

Definition addr := nat.

(** An IEEE double: not-a-number, an infinity, or the finite value
    [m * 2^e]. *)
Inductive pyfloat : Type :=
| Fnan
| Finf (neg : bool)
| Ffin (m e : Z).

#[warnings="-register-all"]
Inductive pyval : Type :=
| VNone
| VBool (b : bool)
| VInt (z : Z)
| VFloat (f : pyfloat)
| VStr (s : string)
| VList (l : list pyval)
| VTuple (l : list pyval)
| VRef (a : addr)
| VWeakref (a : addr)
| VFunc (name : string).

(** [isinstance(v, str)] *)
Definition is_str (v : pyval) : bool :=
  match v with VStr _ => true | _ => false end.

(** [isinstance(v, (list, tuple))] *)
Definition is_list_or_tuple (v : pyval) : bool :=
  match v with VList _ | VTuple _ => true | _ => false end.

(** The items of a list or tuple. *)
Definition items_of (v : pyval) : list pyval :=
  match v with VList l | VTuple l => l | _ => [] end.

(** [v == None] *)
Definition is_none (v : pyval) : bool :=
  match v with VNone => true | _ => false end.

(** [v == s] for a string constant [s] *)
Definition py_eq_str (v : pyval) (s : string) : bool :=
  match v with VStr t => String.eqb t s | _ => false end.

(** [len(v)] *)
Definition py_len (v : pyval) : result nat :=
  match v with
  | VList l | VTuple l => Ok (length l)
  | VStr s => Ok (String.length s)
  | _ => Raise (TypeError "object has no len()")
  end.

(** [l[i]] on a sequence *)
Definition py_index {A} (l : list A) (i : nat) : result A :=
  match l !! i with
  | Some x => Ok x
  | None => Raise (IndexError "list index out of range")
  end.

(** [v.upper()] *)
Definition py_upper (v : pyval) : result string :=
  match v with
  | VStr s => Ok (PyStr.upper s)
  | _ => Raise (AttributeError "upper")
  end.

(** ** Element types and the element-type string of [FeMesh_Cartesian] *)

Module ElementTypes.

(** [FeMesh._supportedElementTypes] *)
Definition _supportedElementTypes : list string :=
  ["Q2"; "Q1"; "DQ1"; "DPC1"; "DQ0"].

(** [FeMesh_Cartesian._meshGenerator] *)
Definition _meshGenerator : list string := ["C2Generator"; "CartesianGenerator"].

(** [x in l] for a list of strings *)
Definition str_in (x : string) (l : list string) : bool := bool_decide (x ∈ l).

(** One iteration of the loop of [_strtolist]; the loop state is the pair
    of the local [elementType] and [mlist]. *)
Definition _strtolist_step (st : string * list string) (mesh : string)
  : string * list string :=
  let '(elementType, mlist) := st in
  let mesh := PyStr.upper mesh in
  if PyStr.contains mesh elementType
     && (String.length mesh =? String.length elementType)%nat then
    (PyStr.replace mesh "" elementType, (mlist ++ [mesh])%list)
  else if PyStr.contains mesh (PyStr.take 2 elementType) then
    (PyStr.replace mesh "" elementType, (mlist ++ [mesh])%list)
  else if PyStr.contains ("D" +:+ mesh) elementType then
    (PyStr.replace ("D" +:+ mesh) "" elementType, (mlist ++ ["D" +:+ mesh])%list)
  else if PyStr.contains mesh elementType then
    (PyStr.replace mesh "" elementType, (mlist ++ [mesh])%list)
  else (elementType, mlist).

(** [FeMesh_Cartesian._strtolist] *)
Definition _strtolist (elementType : string) : list string :=
  snd (foldl _strtolist_step (PyStr.upper elementType, []) _supportedElementTypes).

(** The element types as [__new__] and [__init__] see them: a string is
    converted by [_strtolist], a list or tuple is taken as it is. *)
Definition elementType_items (elementType : pyval) : list pyval :=
  match elementType with
  | VStr s => VStr <$> _strtolist s
  | v => items_of v
  end.

(** The loop of [__new__] over the element types. *)
Fixpoint check_elTypes (l : list pyval) : result unit :=
  match l with
  | [] => Ok tt
  | elType :: rest =>
      match elType with
      | VStr s =>
          if str_in (PyStr.upper s) _supportedElementTypes
          then check_elTypes rest
          else Raise (ValueError "'elementType' provided ({}) does not appear to be supported.")
      | _ => Raise (TypeError "Items in provided 'elementType' object must be of type 'str'")
      end
  end.

(** [FeMesh_Cartesian.__new__], up to the call of the parent's [__new__]:
    the result is the [objectsDictOverrule] handed to it. *)
Definition __new__ (elementType : pyval) : result (gmap string string) :=
  (raise_if (negb (is_str elementType || is_list_or_tuple elementType))
     (TypeError "'elementType' object passed in must be of type 'str', 'list' or 'tuple'") ;;
   let elementType := elementType_items elementType in
   raise_if (2 <? length elementType)%nat
     (ValueError "A maximum of two mesh types are currently supported.") ;;
   check_elTypes elementType ;;
   e0 ← py_index elementType 0;
   u0 ← py_upper e0;
   raise_if (negb (str_in u0 (take 2 _supportedElementTypes)))
     (ValueError "Primary elementType must be of type '{}' or '{}'.") ;;
   (if (length elementType =? 2)%nat then
      e1 ← py_index elementType 1;
      u1 ← py_upper e1;
      raise_if (negb (str_in u1 (drop 1 _supportedElementTypes)))
        (ValueError "Secondary elementType must be one of type '{}'.")
    else Ok tt) ;;
   let overruleDict : gmap string string := ∅ in
   let overruleDict :=
     if py_eq_str e0 (default "" (_supportedElementTypes !! 0%nat))
     then <["_gen" := default "" (_meshGenerator !! 0%nat)]> overruleDict
     else overruleDict in
   let overruleDict :=
     if py_eq_str e0 (default "" (_supportedElementTypes !! 1%nat))
     then <["_gen" := default "" (_meshGenerator !! 1%nat)]> overruleDict
     else overruleDict in
   Ok overruleDict).

End ElementTypes.

(** ** Numbers

    [bool] is a subclass of [int], so [isinstance(True, int)] holds and
    [True] compares as 1. *)

(** [isinstance(v, int)] *)
Definition is_int (v : pyval) : bool :=
  match v with VInt _ | VBool _ => true | _ => false end.

(** [isinstance(v, (int, float))] *)
Definition is_int_or_float (v : pyval) : bool :=
  match v with VInt _ | VBool _ | VFloat _ => true | _ => false end.

(** [isinstance(v, bool)] *)
Definition is_bool (v : pyval) : bool :=
  match v with VBool _ => true | _ => false end.

(** The value of an [int] (or [bool]). *)
Definition int_value (v : pyval) : Z :=
  match v with
  | VInt z => z
  | VBool b => if b then 1%Z else 0%Z
  | _ => 0%Z
  end.

(** The numeric value of an [int], [bool] or [float]. *)
Definition num_value (v : pyval) : option pyfloat :=
  match v with
  | VInt z => Some (Ffin z 0)
  | VBool b => Some (Ffin (if b then 1 else 0) 0)
  | VFloat f => Some f
  | _ => None
  end.

(** [a >= b] on numeric values; a comparison with a NaN is false. *)
Definition float_ge (a b : pyfloat) : bool :=
  match a, b with
  | Fnan, _ | _, Fnan => false
  | Finf false, _ => true
  | _, Finf true => true
  | Finf true, _ => false
  | _, Finf false => false
  | Ffin m1 e1, Ffin m2 e2 =>
      let e := Z.min e1 e2 in
      (m2 * 2 ^ (e2 - e) <=? m1 * 2 ^ (e1 - e))%Z
  end.

(** [a >= b]; the constructor only compares items it has checked to be
    numbers, so the last case is never reached there. *)
Definition py_ge (a b : pyval) : result bool :=
  match num_value a, num_value b with
  | Some x, Some y => Ok (float_ge x y)
  | _, _ => Raise (TypeError "unorderable types")
  end.

(** ** Classes and objects *)

Inductive pyclass : Type :=
| FeMesh_cls
| MeshGenerator_cls
| CartesianMeshGenerator_cls
| QuadraticCartesianGenerator_cls
| LinearCartesianGenerator_cls
| TemplatedMeshGenerator_cls
| LinearInnerGenerator_cls
| dQ1Generator_cls
| ConstantGenerator_cls
| FeMesh_Cartesian_cls
| _SpecialSetsDict_cls.

#[global] Instance pyclass_eq_dec : EqDecision pyclass.
Proof. solve_decision. Defined.

(** The method resolution order of each class, restricted to the classes of
    this module (the bases [StgCompoundComponent], [FunctionInput], [dict]
    and [object] are left out). *)
Definition mro (c : pyclass) : list pyclass :=
  match c with
  | FeMesh_cls => [FeMesh_cls]
  | MeshGenerator_cls => [MeshGenerator_cls]
  | CartesianMeshGenerator_cls => [CartesianMeshGenerator_cls; MeshGenerator_cls]
  | QuadraticCartesianGenerator_cls =>
      [QuadraticCartesianGenerator_cls; CartesianMeshGenerator_cls; MeshGenerator_cls]
  | LinearCartesianGenerator_cls =>
      [LinearCartesianGenerator_cls; CartesianMeshGenerator_cls; MeshGenerator_cls]
  | TemplatedMeshGenerator_cls => [TemplatedMeshGenerator_cls; MeshGenerator_cls]
  | LinearInnerGenerator_cls =>
      [LinearInnerGenerator_cls; TemplatedMeshGenerator_cls; MeshGenerator_cls]
  | dQ1Generator_cls =>
      [dQ1Generator_cls; TemplatedMeshGenerator_cls; MeshGenerator_cls]
  | ConstantGenerator_cls =>
      [ConstantGenerator_cls; TemplatedMeshGenerator_cls; MeshGenerator_cls]
  | FeMesh_Cartesian_cls =>
      [FeMesh_Cartesian_cls; FeMesh_cls; CartesianMeshGenerator_cls; MeshGenerator_cls]
  | _SpecialSetsDict_cls => [_SpecialSetsDict_cls]
  end.

(** [issubclass(c, d)] *)
Definition issubclass (c d : pyclass) : bool := bool_decide (d ∈ mro c).

(** An object: its class, its attribute dictionary and, for a [dict]
    subclass, its items. *)
Record pyobj : Type := PyObj {
  ob_class : pyclass;
  ob_attrs : gmap string pyval;
  ob_items : gmap string pyval
}.

(** The world: the heap of Python objects and the state of the native
    library. *)
Record world (N : Type) : Type := World {
  heap : gmap addr pyobj;
  native : N
}.
Arguments World {N} heap native.
Arguments heap {N} w.
Arguments native {N} w.

(** Calls into code outside this module: the parts of
    [StgCompoundComponent] that the classes here inherit, and
    [libUnderworld.StgDomain.Mesh_SetGenerator]. *)
Inductive ncall : Type :=
| Stg__new__ (cls : pyclass) (objectsDictOverrule : gmap string string) (self : addr)
| Stg__init__ (self : addr)
| Stg_setup (self : addr)
| Mesh_SetGenerator (mesh generator : addr).

(** Computations that may raise and that read and write the world. *)
Definition M (N A : Type) : Type := world N -> result A * world N.

#[global] Instance M_ret {N} : MRet (M N) := fun A a w => (Ok a, w).
#[global] Instance M_bind {N} : MBind (M N) := fun A B k m w =>
  match m w with
  | (Ok a, w') => k a w'
  | (Raise e, w') => (Raise e, w')
  end.

(** A computation that does not touch the world. *)
Definition lift {N A} (r : result A) : M N A := fun w => (r, w).

(** [raise e] *)
Definition raise {N A} (e : exc) : M N A := fun w => (Raise e, w).

(** What an observer sees of the object at [a]: its class, the value of an
    attribute, the value stored under a key.  An object is alive while the
    heap holds it. *)
Definition class_of {N} (w : world N) (a : addr) : option pyclass :=
  ob_class <$> heap w !! a.

Definition attr {N} (w : world N) (a : addr) (name : string) : option pyval :=
  heap w !! a ≫= fun o => ob_attrs o !! name.

Definition item {N} (w : world N) (a : addr) (key : string) : option pyval :=
  heap w !! a ≫= fun o => ob_items o !! key.

Definition alive {N} (w : world N) (a : addr) : Prop := is_Some (heap w !! a).

(** [getattr(a, name)] *)
Definition getattr {N} (a : addr) (name : string) : M N pyval := fun w =>
  match heap w !! a with
  | Some o =>
      match ob_attrs o !! name with
      | Some v => (Ok v, w)
      | None => (Raise (AttributeError name), w)
      end
  | None => (Raise (AttributeError name), w)
  end.

(** [hasattr(a, name)] *)
Definition hasattr {N} (a : addr) (name : string) : M N bool := fun w =>
  match heap w !! a with
  | Some o => (Ok (bool_decide (is_Some (ob_attrs o !! name))), w)
  | None => (Ok false, w)
  end.

(** [a.name = v] *)
Definition setattr {N} (a : addr) (name : string) (v : pyval) : M N unit := fun w =>
  match heap w !! a with
  | Some o =>
      (Ok tt,
       World (<[a := PyObj (ob_class o) (<[name := v]> (ob_attrs o)) (ob_items o)]> (heap w))
             (native w))
  | None => (Raise (AttributeError name), w)
  end.

(** [dict.__setitem__(d, key, v)] *)
Definition dict_setitem {N} (d : addr) (key : string) (v : pyval) : M N unit := fun w =>
  match heap w !! d with
  | Some o =>
      (Ok tt,
       World (<[d := PyObj (ob_class o) (ob_attrs o) (<[key := v]> (ob_items o))]> (heap w))
             (native w))
  | None => (Raise (TypeError "object does not support item assignment"), w)
  end.

(** [dict.__getitem__(d, key)] *)
Definition dict_getitem {N} (d : addr) (key : string) : M N pyval := fun w =>
  match heap w !! d with
  | Some o =>
      match ob_items o !! key with
      | Some v => (Ok v, w)
      | None => (Raise (KeyError key), w)
      end
  | None => (Raise (TypeError "object is not subscriptable"), w)
  end.

(** [object.__new__(cls)]: a new object at an address the heap does not
    hold yet. *)
Definition alloc {N} (cls : pyclass) : M N addr := fun w =>
  let a := fresh (dom (heap w)) in
  (Ok a, World (<[a := PyObj cls ∅ ∅]> (heap w)) (native w)).

(** [isinstance(v, cls)] *)
Definition isinstance {N} (w : world N) (v : pyval) (cls : pyclass) : bool :=
  match v with
  | VRef a =>
      match heap w !! a with
      | Some o => issubclass (ob_class o) cls
      | None => false
      end
  | _ => false
  end.

Definition isinstanceM {N} (v : pyval) (cls : pyclass) : M N bool :=
  fun w => (Ok (isinstance w v cls), w).

(** [r()] for a [weakref.ref]: the referent while it is alive, [None]
    afterwards. *)
Definition weakref_call {N} (a : addr) : M N pyval := fun w =>
  match heap w !! a with
  | Some _ => (Ok (VRef a), w)
  | None => (Ok VNone, w)
  end.

(** [v == n] for an integer constant [n] *)
Definition py_eq_int (v : pyval) (n : Z) : bool :=
  match num_value v with
  | Some x => float_ge x (Ffin n 0) && float_ge (Ffin n 0) x
  | None => false
  end.

(** ** [CartesianMeshGenerator]: the checks of the constructor *)

Module CartesianChecks.

(** [for item in elementRes: if not isinstance(item,(int)) or (item < 1): raise] *)
Fixpoint check_elementRes_items (l : list pyval) : result unit :=
  match l with
  | [] => Ok tt
  | item :: rest =>
      if negb (is_int item) || (int_value item <? 1)%Z
      then Raise (TypeError "'elementRes' list must only contain positive integers.")
      else check_elementRes_items rest
  end.

(** [for item in coord: if not isinstance(item,(int,float)): raise] *)
Fixpoint check_coord_items (field : string) (l : list pyval) : result unit :=
  match l with
  | [] => Ok tt
  | item :: rest =>
      if negb (is_int_or_float item)
      then Raise (TypeError (field +:+ " object passed in must only contain objects of type 'int' or 'float'"))
      else check_coord_items field rest
  end.

(** [for item in periodic: if not isinstance(item,(bool)): raise] *)
Fixpoint check_periodic_items (l : list pyval) : result unit :=
  match l with
  | [] => Ok tt
  | item :: rest =>
      if negb (is_bool item)
      then Raise (TypeError "'periodic' list must only contain booleans.")
      else check_periodic_items rest
  end.

(** [for ii in range(0,self.dim): if minCoord[ii] >= maxCoord[ii]: raise],
    over the indices [iis] still to visit. *)
Fixpoint check_min_lt_max (minCoord maxCoord : list pyval) (iis : list nat)
  : result unit :=
  match iis with
  | [] => Ok tt
  | ii :: rest =>
      a ← py_index minCoord ii;
      b ← py_index maxCoord ii;
      c ← py_ge a b;
      if c : bool
      then Raise (ValueError "'minCoord[{}]' must be less than 'maxCoord[{}]'")
      else check_min_lt_max minCoord maxCoord rest
  end.

(** The checks on [elementRes] (lines 263-269). *)
Definition check_elementRes (elementRes : pyval) : result unit :=
  raise_if (negb (is_list_or_tuple elementRes))
    (TypeError "'elementRes' object passed in must be of type 'list' or 'tuple'");;
  check_elementRes_items (items_of elementRes);;
  raise_if (negb (bool_decide (length (items_of elementRes) ∈ [2; 3])))
    (ValueError "For 'elementRes', you must provide a tuple of length 2 or 3 (for respectively a 2d or 3d mesh).").

(** The checks on [minCoord] and on [maxCoord] (lines 272-278, 281-287). *)
Definition check_coord (field : string) (coord elementRes : pyval) : result unit :=
  raise_if (negb (is_list_or_tuple coord))
    (TypeError (field +:+ " object passed in must be of type 'list' or 'tuple'"));;
  check_coord_items field (items_of coord);;
  raise_if (negb (length (items_of coord) =? length (items_of elementRes))%nat)
    (ValueError (field +:+ " tuple length ({}) must be the same as that of 'elementRes' ({}).")).

(** The checks on [periodic] (lines 292-298).  The length test compares
    [len(periodic)] with [len(periodic)], as the source does. *)
Definition check_periodic (periodic : pyval) : result unit :=
  raise_if (negb (is_list_or_tuple periodic))
    (TypeError "'periodic' object passed in must be of type 'list' or 'tuple' in CartesianMeshGenerator");;
  check_periodic_items (items_of periodic);;
  raise_if (negb (length (items_of periodic) =? length (items_of periodic))%nat)
    (ValueError "'periodic' tuple length ({}) must be the same as that of 'elementRes' ({}).").

End CartesianChecks.

(** ** The classes of the module *)

Section Classes.

Context {N : Type}.

(** Code outside the module, acting on the native state only. *)
Variable extern : ncall -> N -> result unit * N.

(** Calling a function object: the functions of [_specialSets_Cartesian]
    and whatever rule a caller registers. *)
Variable call_function : string -> pyval -> M N pyval.

(** A call into that code: only the native state changes. *)
Definition native_call (c : ncall) : M N unit := fun w =>
  let '(r, n) := extern c (native w) in (r, World (heap w) n).

(** [f(arg)] *)
Definition py_call (f arg : pyval) : M N pyval :=
  match f with
  | VFunc name => call_function name arg
  | _ => raise (TypeError "object is not callable")
  end.

(** [cls(...)]: the inherited [StgCompoundComponent.__new__], then
    [__init__]. *)
Definition construct (cls : pyclass) (objectsDictOverrule : gmap string string)
    (init : addr -> M N unit) : M N addr :=
  self ← alloc cls;
  native_call (Stg__new__ cls objectsDictOverrule self);;
  init self;;
  mret self.

(** *** [MeshGenerator] *)

(** [MeshGenerator.dim] *)
Definition MeshGenerator_dim (self : addr) : M N pyval := getattr self "_dim".

(** [v.dim]: only the generator classes have the property. *)
Definition get_dim (v : pyval) : M N pyval :=
  b ← isinstanceM v MeshGenerator_cls;
  match v with
  | VRef a => if b : bool then MeshGenerator_dim a else raise (AttributeError "dim")
  | _ => raise (AttributeError "dim")
  end.

(** *** [FeMesh] *)

(** [FeMesh.generator] (getter) *)
Definition FeMesh_generator (self : addr) : M N pyval :=
  g ← getattr self "_generator";
  match g with
  | VWeakref a => weakref_call a
  | _ => mret g
  end.

(** [FeMesh.generator] (setter) *)
Definition FeMesh_generator_set (self : addr) (generator : pyval) : M N unit :=
  b ← isinstanceM generator MeshGenerator_cls;
  (if b : bool then mret tt
   else raise (TypeError "'generator' object passed in must be of type 'MeshGenerator'"));;
  match generator with
  | VRef g =>
      (if bool_decide (self = g)
       then setattr self "_generator" (VWeakref g)
       else setattr self "_generator" generator);;
      native_call (Mesh_SetGenerator self g)
  | _ => raise (TypeError "'generator' object passed in must be of type 'MeshGenerator'")
  end.

(** [FeMesh.__init__] up to the call of the parent's initialiser
    (lines 62-76). *)
Definition FeMesh_body (self : addr) (elementType generator : pyval) : M N unit :=
  (if is_str elementType then mret tt
   else raise (TypeError "'elementType' object passed in must be of type 'str'"));;
  et ← lift (py_upper elementType);
  (if ElementTypes.str_in et ElementTypes._supportedElementTypes then mret tt
   else raise (ValueError "'elementType' provided ({}) does not appear to be supported."));;
  setattr self "_elementType" (VStr et);;
  generator ←
    (if is_none generator then
       b ← isinstanceM (VRef self) MeshGenerator_cls;
       if b : bool then mret (VRef self)
       else raise (ValueError "No generator provided for mesh.")
     else mret generator);
  FeMesh_generator_set self generator.

(** [FeMesh.__init__]; [super_init] is the next [__init__] in the method
    resolution order of the object's class: the one of
    [CartesianMeshGenerator] for a [FeMesh_Cartesian], the one of
    [StgCompoundComponent] for a plain [FeMesh]. *)
Definition FeMesh___init__ (super_init : M N unit)
    (self : addr) (elementType generator : pyval) : M N unit :=
  FeMesh_body self elementType generator;;
  super_init.

(** [FeMesh.elementType] *)
Definition FeMesh_elementType (self : addr) : M N pyval := getattr self "_elementType".

(** [FeMesh.specialSets]: the dictionary is made on first access, with a
    weak reference to the mesh. *)
Definition FeMesh_specialSets (self : addr) : M N pyval :=
  b ← hasattr self "_specialSets";
  (if b : bool then mret tt
   else
     d ← alloc _SpecialSetsDict_cls;
     setattr d "_femesh" (VWeakref self);;
     setattr self "_specialSets" (VRef d));;
  getattr self "_specialSets".

(** [_SpecialSetsDict.__getitem__] *)
Definition _SpecialSetsDict___getitem__ (self : addr) (index : string) : M N pyval :=
  item ← dict_getitem self index;
  r ← getattr self "_femesh";
  femesh ← match r with
           | VWeakref a => weakref_call a
           | _ => raise (TypeError "object is not callable")
           end;
  py_call item femesh.

(** [mesh.specialSets[name]] *)
Definition specialSets_lookup (mesh : addr) (name : string) : M N pyval :=
  d ← FeMesh_specialSets mesh;
  match d with
  | VRef d => _SpecialSetsDict___getitem__ d name
  | _ => raise (TypeError "object is not subscriptable")
  end.

(** [mesh.specialSets[name] = rule] *)
Definition specialSets_register (mesh : addr) (name : string) (rule : pyval) : M N unit :=
  d ← FeMesh_specialSets mesh;
  match d with
  | VRef d => dict_setitem d name rule
  | _ => raise (TypeError "object does not support item assignment")
  end.

(** *** [CartesianMeshGenerator] *)

(** [CartesianMeshGenerator.__init__] up to the call of the parent's
    initialiser (lines 263-303). *)
Definition CartesianMeshGenerator_body (self : addr)
    (elementRes minCoord maxCoord periodic : pyval) : M N unit :=
  lift (CartesianChecks.check_elementRes elementRes);;
  setattr self "_elementRes" elementRes;;
  lift (CartesianChecks.check_coord "'minCoord'" minCoord elementRes);;
  setattr self "_minCoord" minCoord;;
  lift (CartesianChecks.check_coord "'maxCoord'" maxCoord elementRes);;
  setattr self "_maxCoord" maxCoord;;
  setattr self "_dim" (VInt (Z.of_nat (length (items_of elementRes))));;
  lift (CartesianChecks.check_periodic periodic);;
  setattr self "_periodic" periodic;;
  dim ← MeshGenerator_dim self;
  lift (CartesianChecks.check_min_lt_max (items_of minCoord) (items_of maxCoord)
          (seq 0 (Z.to_nat (int_value dim)))).

(** [CartesianMeshGenerator.__init__] *)
Definition CartesianMeshGenerator___init__ (self : addr)
    (elementRes minCoord maxCoord periodic : pyval) : M N unit :=
  CartesianMeshGenerator_body self elementRes minCoord maxCoord periodic;;
  native_call (Stg__init__ self).

(** [cls(elementRes, minCoord, maxCoord, periodic)] for a Cartesian
    generator class [cls]. *)
Definition CartesianMeshGenerator_new (cls : pyclass)
    (elementRes minCoord maxCoord periodic : pyval) : M N addr :=
  construct cls ∅
    (fun self => CartesianMeshGenerator___init__ self elementRes minCoord maxCoord periodic).

(** *** [TemplatedMeshGenerator] and its subclasses *)

(** [TemplatedMeshGenerator.geometryMesh] *)
Definition TemplatedMeshGenerator_geometryMesh (self : addr) : M N pyval :=
  r ← getattr self "_geometryMeshWeakref";
  match r with
  | VWeakref a => weakref_call a
  | _ => raise (TypeError "object is not callable")
  end.

(** [TemplatedMeshGenerator.__init__] *)
Definition TemplatedMeshGenerator___init__ (self : addr) (geometryMesh : pyval) : M N unit :=
  b ← isinstanceM geometryMesh FeMesh_cls;
  match geometryMesh with
  | VRef gm =>
      (if b : bool then mret tt
       else raise (TypeError "'geometryMesh' object passed in must be of type 'FeMesh'"));;
      setattr self "_geometryMeshWeakref" (VWeakref gm);;
      g ← TemplatedMeshGenerator_geometryMesh self;
      d ← get_dim g;
      setattr self "_dim" d;;
      native_call (Stg__init__ self)
  | _ => raise (TypeError "'geometryMesh' object passed in must be of type 'FeMesh'")
  end.

(** [LinearInnerGenerator.__init__] and [dQ1Generator.__init__]: the same
    check, then the parent's initialiser. *)
Definition checked_TemplatedMeshGenerator___init__ (self : addr) (geometryMesh : pyval)
  : M N unit :=
  b ← isinstanceM geometryMesh FeMesh_cls;
  (if b : bool then mret tt
   else raise (TypeError "'geometryMesh' object passed in must be of type 'FeMesh'"));;
  TemplatedMeshGenerator___init__ self geometryMesh.

Definition dQ1Generator_new (geometryMesh : pyval) : M N addr :=
  construct dQ1Generator_cls ∅
    (fun self => checked_TemplatedMeshGenerator___init__ self geometryMesh).

Definition LinearInnerGenerator_new (geometryMesh : pyval) : M N addr :=
  construct LinearInnerGenerator_cls ∅
    (fun self => checked_TemplatedMeshGenerator___init__ self geometryMesh).

Definition ConstantGenerator_new (geometryMesh : pyval) : M N addr :=
  construct ConstantGenerator_cls ∅
    (fun self => TemplatedMeshGenerator___init__ self geometryMesh).

(** [FeMesh(elementType, generator)] *)
Definition FeMesh_new (elementType generator : pyval) : M N addr :=
  construct FeMesh_cls ∅
    (fun self => FeMesh___init__ (native_call (Stg__init__ self)) self elementType generator).

(** *** [FeMesh_Cartesian] *)

(** [self._supportedElementTypes[i]] *)
Definition supported (i : nat) : string :=
  default "" (ElementTypes._supportedElementTypes !! i).

(** The rules of [_specialSets_Cartesian], as function objects. *)
Definition rule (name : string) : pyval := VFunc ("_specialSets_Cartesian." +:+ name).

(** The block of [FeMesh_Cartesian.__init__] that builds the sub-mesh
    (lines 562-577); [elementType] is the list of element types. *)
Definition FeMesh_Cartesian_secondary (self : addr) (elementType : list pyval)
    (elementRes minCoord maxCoord periodic : pyval) : M N unit :=
  setattr self "_secondaryMesh" VNone;;
  (if (length elementType =? 2)%nat then
     e1 ← lift (py_index elementType 1);
     t ← lift (py_upper e1);
     genSecondary ←
       (if String.eqb t (supported 1) then
          CartesianMeshGenerator_new LinearCartesianGenerator_cls
            elementRes minCoord maxCoord periodic
        else if String.eqb t (supported 2) then dQ1Generator_new (VRef self)
        else if String.eqb t (supported 3) then LinearInnerGenerator_new (VRef self)
        else if String.eqb t (supported 4) then ConstantGenerator_new (VRef self)
        else raise (ValueError "The secondary mesh must be of type '{}': '{}' was passed in. Tested against '{}'"));
     m ← FeMesh_new (VStr t) (VRef genSecondary);
     setattr self "_secondaryMesh" (VRef m)
   else mret tt).

(** The block of [FeMesh_Cartesian.__init__] that adds the special sets
    (lines 579-600).  The lines that would remove the walls of a periodic
    axis are commented out in the source, so nothing is removed here. *)
Definition FeMesh_Cartesian_specialSets (self : addr) : M N unit :=
  specialSets_register self "MaxI_VertexSet" (rule "MaxI_VertexSet");;
  specialSets_register self "MinI_VertexSet" (rule "MinI_VertexSet");;
  specialSets_register self "MaxJ_VertexSet" (rule "MaxJ_VertexSet");;
  specialSets_register self "MinJ_VertexSet" (rule "MinJ_VertexSet");;
  dim ← MeshGenerator_dim self;
  (if py_eq_int dim 3 then
     specialSets_register self "MaxK_VertexSet" (rule "MaxK_VertexSet");;
     specialSets_register self "MinK_VertexSet" (rule "MinK_VertexSet")
   else mret tt);;
  specialSets_register self "AllWalls" (rule "AllWalls");;
  specialSets_register self "Empty" (rule "Empty").

(** [FeMesh_Cartesian.__init__] *)
Definition FeMesh_Cartesian___init__ (self : addr)
    (elementType elementRes minCoord maxCoord periodic : pyval) : M N unit :=
  periodic ←
    (if is_none periodic then
       n ← lift (py_len elementRes);
       mret (if (n =? 3)%nat
             then VList [VBool false; VBool false; VBool false]
             else VList [VBool false; VBool false])
     else mret periodic);
  let elementType := ElementTypes.elementType_items elementType in
  e0 ← lift (py_index elementType 0);
  FeMesh___init__
    (CartesianMeshGenerator___init__ self elementRes minCoord maxCoord periodic)
    self e0 VNone;;
  native_call (Stg_setup self);;
  FeMesh_Cartesian_secondary self elementType elementRes minCoord maxCoord periodic;;
  FeMesh_Cartesian_specialSets self.

(** [FeMesh_Cartesian(elementType, elementRes, minCoord, maxCoord, periodic)]:
    [__new__], then [__init__] on the new object. *)
Definition FeMesh_Cartesian_new
    (elementType elementRes minCoord maxCoord periodic : pyval) : M N addr :=
  overruleDict ← lift (ElementTypes.__new__ elementType);
  construct FeMesh_Cartesian_cls overruleDict
    (fun self =>
       FeMesh_Cartesian___init__ self elementType elementRes minCoord maxCoord periodic).

(** [FeMesh_Cartesian.subMesh] *)
Definition FeMesh_Cartesian_subMesh (self : addr) : M N pyval :=
  getattr self "_secondaryMesh".

End Classes.

(** ** [FeMesh_IndexSet] *)

Module IndexSet.

(** A mesh as an index set sees it: the native mesh [_cself] behind the
    Python object. *)
Record mesh : Type := Mesh { _cself : nat }.

(** An index set: its topological index, the mesh it was taken from
    ([object]) and its indices. *)
Record FeMesh_IndexSet : Type := IndexSet {
  topologicalIndex : Z;
  object : mesh;
  indices : gset nat
}.

Inductive setop : Type := Union | Intersect | Difference.

Section Compat.

(** [ObjectifiedIndexSet._checkCompatWith], of [underworld.container]. *)
Variable parent__checkCompatWith : FeMesh_IndexSet -> FeMesh_IndexSet -> result unit.

(** [FeMesh_IndexSet._checkCompatWith] *)
Definition _checkCompatWith (self other : FeMesh_IndexSet) : result unit :=
  parent__checkCompatWith self other;;
  raise_if (negb (topologicalIndex self =? topologicalIndex other)%Z)
    (TypeError "This operation is illegal. The topologicalIndex for these sets do not correspond.");;
  raise_if (negb (_cself (object self) =? _cself (object other))%nat)
    (TypeError "This operation is illegal. The meshes associated with these IndexSets appear to be different.").

Definition apply_setop (op : setop) (a b : gset nat) : gset nat :=
  match op with
  | Union => a ∪ b
  | Intersect => a ∩ b
  | Difference => a ∖ b
  end.

(** Modelled from the spec: the set operations of [underworld.container]
    (union, intersection, difference), which are not part of this
    module.  Each one checks compatibility first and fails when the
    check fails; otherwise the result is on the same mesh and level. *)
Definition combine (op : setop) (self other : FeMesh_IndexSet) : result FeMesh_IndexSet :=
  _checkCompatWith self other;;
  Ok (IndexSet (topologicalIndex self) (object self)
        (apply_setop op (indices self) (indices other))).

End Compat.

End IndexSet.

(** ** The regular grid of a Cartesian generator *)

Module CartesianGrid.

(** Modelled from the spec: the generation algorithm of the native
    Cartesian generator, which [FeMesh.nodesGlobal] queries through
    [Mesh_GetGlobalSize] and which is not part of this module.  Along an
    axis there are [resolution + 1] nodes, or [resolution] nodes when the
    axis is periodic. *)
Definition axis_nodes (resolution : nat) (periodic : bool) : nat :=
  if periodic then resolution else S resolution.

(** Modelled from the spec: the vertices of the tensor-product grid over
    the per-axis node counts, each given by its index along every axis,
    listed in the order of the global vertex index. *)
Fixpoint grid_vertices (counts : list nat) : list (list nat) :=
  match counts with
  | [] => [[]]
  | n :: rest => i ← seq 0 n; (cons i) <$> grid_vertices rest
  end.

(** Modelled from the spec: the global vertex count of a Cartesian mesh,
    the number of vertices of its grid. *)
Definition nodesGlobal (elementRes : list nat) (periodic : list bool) : nat :=
  length (grid_vertices (zip_with axis_nodes elementRes periodic)).

(** The product over the axes of [resolution + (0 if periodic else 1)]. *)
Definition node_product (elementRes : list nat) (periodic : list bool) : nat :=
  foldr Nat.mul 1 (zip_with (fun r (p : bool) => r + (if p then 0 else 1)) elementRes periodic).

End CartesianGrid.

(** ** The grammar the specification asks for *)

Module ElementTypeGrammar.

(** The tokens of an element-type string in the wording of the
    specification: the pieces between ["/"] separators, read from left
    to right. *)
Fixpoint split_slash (s : string) : list string :=
  match s with
  | EmptyString => [EmptyString]
  | String c s' =>
      if Ascii.eqb c "/"%char then EmptyString :: split_slash s'
      else match split_slash s' with
           | [] => [String c EmptyString]
           | t :: ts => String c t :: ts
           end
  end.

Definition spec_tokens (s : string) : list string :=
  PyStr.upper <$> split_slash s.


(** What [_strtolist] can return for a list [types] of type names: for
    each name in turn nothing, the name, or ["D"] followed by the name. *)
Inductive picks : list string -> list string -> Prop :=
| picks_nil : picks [] []
| picks_skip m ms l : picks ms l -> picks (m :: ms) l
| picks_name m ms l : picks ms l -> picks (m :: ms) (m :: l)
| picks_dname m ms l : picks ms l -> picks (m :: ms) (("D" +:+ m) :: l).



End ElementTypeGrammar.

(** ** A native library whose calls all succeed, for concrete runs *)

Definition extern_ok : ncall -> unit -> result unit * unit := fun _ n => (Ok tt, n).

Definition empty_world : world unit := World ∅ tt.

(** ** Configurations the specification calls invalid *)

(** An [elementRes] entry that is not an integer, or not positive. *)
Definition bad_entry (item : pyval) : Prop :=
  is_int item = false \/ (int_value item < 1)%Z.

Inductive bad_config (elementRes minCoord maxCoord : pyval) : Prop :=
| bad_elementRes_entry item :
    item ∈ items_of elementRes -> bad_entry item ->
    bad_config elementRes minCoord maxCoord
| bad_elementRes_length :
    length (items_of elementRes) <> 2 -> length (items_of elementRes) <> 3 ->
    bad_config elementRes minCoord maxCoord
| bad_minCoord_length :
    length (items_of minCoord) <> length (items_of elementRes) ->
    bad_config elementRes minCoord maxCoord
| bad_maxCoord_length :
    length (items_of maxCoord) <> length (items_of elementRes) ->
    bad_config elementRes minCoord maxCoord
| bad_min_ge_max i a b :
    items_of minCoord !! i = Some a -> items_of maxCoord !! i = Some b ->
    py_ge a b = Ok true ->
    bad_config elementRes minCoord maxCoord.

(** All the checks of [CartesianMeshGenerator.__init__], in the order of
    the source. *)
Definition cartesian_checks (elementRes minCoord maxCoord periodic : pyval) : result unit :=
  CartesianChecks.check_elementRes elementRes;;
  CartesianChecks.check_coord "'minCoord'" minCoord elementRes;;
  CartesianChecks.check_coord "'maxCoord'" maxCoord elementRes;;
  CartesianChecks.check_periodic periodic;;
  CartesianChecks.check_min_lt_max (items_of minCoord) (items_of maxCoord)
    (seq 0 (length (items_of elementRes))).

(** The errors the constructor raises on its own account. *)
Definition is_config_error (e : exc) : bool :=
  match e with
  | TypeError _ | ValueError _ => true
  | _ => false
  end.

(** ** How a step changes the heap *)

(** Every object but [a] is as before. *)
Definition same_others {N} (a : addr) (w w' : world N) : Prop :=
  forall b, b <> a -> heap w' !! b = heap w !! b.

(** The object at [a] keeps its class, its items and every attribute that
    is not in [names]. *)
Definition same_attrs_except {N} (a : addr) (names : list string) (w w' : world N) : Prop :=
  class_of w' a = class_of w a
  /\ (forall n, n ∉ names -> attr w' a n = attr w a n)
  /\ (forall k, item w' a k = item w a k).

(** A step that only assigns attributes [names] of the object at [a]. *)
Definition updates {N} (a : addr) (names : list string) (w w' : world N) : Prop :=
  same_others a w w' /\ same_attrs_except a names w w'.

(** A step that leaves the objects of [w] alone (it may add new ones). *)
Definition extends {N} (w w' : world N) : Prop :=
  forall b, alive w b -> heap w' !! b = heap w !! b.

(** A computation that leaves the native state and every object but [a]
    as they are, whatever its outcome. *)
Definition touches_only {N A} (a : addr) (m : M N A) : Prop :=
  forall w r w', m w = (r, w') ->
    native w' = native w /\ forall b, b <> a -> heap w' !! b = heap w !! b.

(** A computation that leaves every object but [a] as it is, whatever its
    outcome (it may call the native library). *)
Definition heap_only {N A} (a : addr) (m : M N A) : Prop :=
  forall w r w', m w = (r, w') -> forall b, b <> a -> heap w' !! b = heap w !! b.

(** A computation that always raises, and leaves every object but [a] as it
    is when it does. *)
Definition fails_within {N A} (a : addr) (m : M N A) : Prop :=
  forall w, exists e w', m w = (Raise e, w') /\ forall b, b <> a -> heap w' !! b = heap w !! b.

(** ** The generator of a sub-mesh *)

(** The generator [g] of the sub-mesh of element type [t], as the
    constructor of the mesh at [self] builds it: a linear Cartesian
    generator with the geometry of the mesh for Q1, a generator templated
    on the mesh (held by weak reference) for DQ1, DPC1 and DQ0. *)
Definition secondary_generator {N} (w : world N) (self g : addr) (t : string)
    (elementRes minCoord maxCoord periodic : pyval) : Prop :=
  (t = "Q1"
   /\ class_of w g = Some LinearCartesianGenerator_cls
   /\ attr w g "_elementRes" = Some elementRes
   /\ attr w g "_minCoord" = Some minCoord
   /\ attr w g "_maxCoord" = Some maxCoord
   /\ attr w g "_periodic" = Some periodic
   /\ attr w g "_geometryMeshWeakref" = None)
  \/ (t = "DQ1"
      /\ class_of w g = Some dQ1Generator_cls
      /\ attr w g "_geometryMeshWeakref" = Some (VWeakref self))
  \/ (t = "DPC1"
      /\ class_of w g = Some LinearInnerGenerator_cls
      /\ attr w g "_geometryMeshWeakref" = Some (VWeakref self))
  \/ (t = "DQ0"
      /\ class_of w g = Some ConstantGenerator_cls
      /\ attr w g "_geometryMeshWeakref" = Some (VWeakref self)).

(** The [periodic] argument after the default of [FeMesh_Cartesian.__init__]. *)
Definition periodic_or_default (periodic elementRes : pyval) : pyval :=
  if is_none periodic then
    if (length (items_of elementRes) =? 3)%nat
    then VList [VBool false; VBool false; VBool false]
    else VList [VBool false; VBool false]
  else periodic.

(** The rules a Cartesian mesh registers: the walls of the I and J axes,
    those of the K axis in three dimensions, all the walls, and the empty
    set. *)
Definition Cartesian_rules (three_d : bool) : gmap string pyval :=
  let walls : gmap string pyval :=
    <["MinJ_VertexSet" := rule "MinJ_VertexSet"]>
      (<["MaxJ_VertexSet" := rule "MaxJ_VertexSet"]>
        (<["MinI_VertexSet" := rule "MinI_VertexSet"]>
          {["MaxI_VertexSet" := rule "MaxI_VertexSet"]})) in
  <["Empty" := rule "Empty"]>
    (<["AllWalls" := rule "AllWalls"]>
      (if three_d
       then <["MinK_VertexSet" := rule "MinK_VertexSet"]>
              (<["MaxK_VertexSet" := rule "MaxK_VertexSet"]> walls)
       else walls)).

(** ** The rest of the module: accessors, [_add_to_stg_dict], index sets *)

(** [v[i]] *)
Definition py_getitem (v : pyval) (i : nat) : result pyval :=
  match v with
  | VList l | VTuple l => py_index l i
  | VStr s =>
      match String.get i s with
      | Some c => Ok (VStr (String c EmptyString))
      | None => Raise (IndexError "string index out of range")
      end
  | _ => Raise (TypeError "object is not subscriptable")
  end.

(** [v in (0,1,2,3)]: membership is by [==], so [True] and [1.0] are in. *)
Definition in_0123 (v : pyval) : bool :=
  existsb (py_eq_int v) [0; 1; 2; 3]%Z.

Section Accessors.

Context {N : Type}.

(** The name of a native component of an object ([self._gen.name],
    [self._femesh.name], [mesh._cself.name]); the components are made by
    [StgCompoundComponent.__new__], outside the module. *)
Variable component_name : addr -> string -> string.

(** [CartesianMeshGenerator.elementRes] *)
Definition CartesianMeshGenerator_elementRes (self : addr) : M N pyval :=
  getattr self "_elementRes".

(** [CartesianMeshGenerator.minCoord] *)
Definition CartesianMeshGenerator_minCoord (self : addr) : M N pyval :=
  getattr self "_minCoord".

(** [CartesianMeshGenerator.maxCoord] *)
Definition CartesianMeshGenerator_maxCoord (self : addr) : M N pyval :=
  getattr self "_maxCoord".

(** [CartesianMeshGenerator.periodic] *)
Definition CartesianMeshGenerator_periodic (self : addr) : M N pyval :=
  getattr self "_periodic".

(** [componentDictionary[name][key] = v], the value [v] being already
    evaluated: the inner dictionary is looked up, then assigned to. *)
Definition subdict_set (componentDictionary : addr) (name key : string) (v : pyval)
  : M N unit :=
  d ← dict_getitem componentDictionary name;
  match d with
  | VRef a => dict_setitem a key v
  | _ => raise (TypeError "object does not support item assignment")
  end.

(** [FeMesh._add_to_stg_dict]; [parent] is the inherited method, next in
    the method resolution order. *)
Definition FeMesh__add_to_stg_dict (parent : M N unit) (self componentDictionary : addr)
  : M N unit :=
  parent;;
  v ← getattr self "_elementType";
  subdict_set componentDictionary (component_name self "_femesh") "elementType" v.

(** [CartesianMeshGenerator._add_to_stg_dict] *)
Definition CartesianMeshGenerator__add_to_stg_dict (parent : M N unit)
    (self componentDictionary : addr) : M N unit :=
  parent;;
  let name := component_name self "_gen" in
  v ← getattr self "_elementRes"; subdict_set componentDictionary name "size" v;;
  v ← getattr self "_minCoord"; subdict_set componentDictionary name "minCoord" v;;
  v ← getattr self "_maxCoord"; subdict_set componentDictionary name "maxCoord" v;;
  v ← getattr self "_dim"; subdict_set componentDictionary name "dim" v;;
  p ← getattr self "_periodic";
  v ← lift (py_getitem p 0); subdict_set componentDictionary name "periodic_x" v;;
  p ← getattr self "_periodic";
  v ← lift (py_getitem p 1); subdict_set componentDictionary name "periodic_y" v;;
  dim ← getattr self "_dim";
  if py_eq_int dim 3 then
    p ← getattr self "_periodic";
    v ← lift (py_getitem p 2); subdict_set componentDictionary name "periodic_z" v
  else mret tt.

(** [TemplatedMeshGenerator._add_to_stg_dict]; on [None], which the
    property returns once the geometry mesh is gone, [_cself] is missing. *)
Definition TemplatedMeshGenerator__add_to_stg_dict (parent : M N unit)
    (self componentDictionary : addr) : M N unit :=
  parent;;
  g ← TemplatedMeshGenerator_geometryMesh self;
  match g with
  | VRef gm =>
      subdict_set componentDictionary (component_name self "_gen") "elementMesh"
        (VStr (component_name gm "_cself"))
  | _ => raise (AttributeError "_cself")
  end.

(** [FeMesh_IndexSet.__init__]; [parent_init] is the initialiser of
    [ObjectifiedIndexSet], of [underworld.container]. *)
Definition FeMesh_IndexSet___init__ (parent_init : M N unit) (self : addr)
    (object topologicalIndex : pyval) : M N unit :=
  (if in_0123 topologicalIndex then mret tt
   else raise (ValueError "Topological index must be within [0,3]."));;
  b ← isinstanceM object FeMesh_cls;
  (if b : bool then mret tt
   else raise (TypeError "'object' parameter must be of (sub)type 'FeMesh'."));;
  setattr self "_toplogicalIndex" topologicalIndex;;
  parent_init.

(** [FeMesh_IndexSet.topologicalIndex] *)
Definition FeMesh_IndexSet_topologicalIndex (self : addr) : M N pyval :=
  getattr self "_toplogicalIndex".

End Accessors.

(** ** Configurations the constructor accepts *)

(** An entry of [elementRes] the constructor accepts: an [int] (or [bool])
    that is at least 1. *)
Definition good_entry (item : pyval) : Prop :=
  is_int item = true /\ (1 <= int_value item)%Z.

(** The arguments [CartesianMeshGenerator.__init__] lets through, read off
    its checks: lists or tuples; positive integers in [elementRes], which
    has length 2 or 3; numbers in [minCoord] and [maxCoord], which have the
    length of [elementRes]; booleans in [periodic], of any length; and on
    no axis [minCoord[i] >= maxCoord[i]]. *)
Record valid_config (elementRes minCoord maxCoord periodic : pyval) : Prop := {
  vc_res_seq : is_list_or_tuple elementRes = true;
  vc_res_items : Forall good_entry (items_of elementRes);
  vc_res_len : length (items_of elementRes) = 2 \/ length (items_of elementRes) = 3;
  vc_min_seq : is_list_or_tuple minCoord = true;
  vc_min_items : Forall (fun v => is_int_or_float v = true) (items_of minCoord);
  vc_min_len : length (items_of minCoord) = length (items_of elementRes);
  vc_max_seq : is_list_or_tuple maxCoord = true;
  vc_max_items : Forall (fun v => is_int_or_float v = true) (items_of maxCoord);
  vc_max_len : length (items_of maxCoord) = length (items_of elementRes);
  vc_per_seq : is_list_or_tuple periodic = true;
  vc_per_items : Forall (fun v => is_bool v = true) (items_of periodic);
  vc_min_lt_max : forall i a b,
    items_of minCoord !! i = Some a -> items_of maxCoord !! i = Some b ->
    py_ge a b = Ok false
}.

(** The element-type lists [FeMesh_Cartesian.__new__] lets through when it
    is given a list or tuple: one or two strings, the first Q2 or Q1 and
    the second none of Q2, all compared in upper case. *)
Definition accepted_items (l : list pyval) : bool :=
  match l with
  | [VStr t0] => ElementTypes.str_in (PyStr.upper t0) ["Q2"; "Q1"]
  | [VStr t0; VStr t1] =>
      ElementTypes.str_in (PyStr.upper t0) ["Q2"; "Q1"]
      && ElementTypes.str_in (PyStr.upper t1) ["Q1"; "DQ1"; "DPC1"; "DQ0"]
  | _ => false
  end.

(** The entry [__new__] puts in [objectsDictOverrule] for the element
    types [l] (lines 509-514): the first one is compared with "Q2" and
    "Q1" as it is written, not in upper case. *)
Definition gen_entry (l : list pyval) : option string :=
  match l with
  | VStr t0 :: _ =>
      if String.eqb t0 "Q2" then Some "C2Generator"
      else if String.eqb t0 "Q1" then Some "CartesianGenerator"
      else None
  | _ => None
  end.

Definition gen_dict (l : list pyval) : gmap string string :=
  match gen_entry l with
  | Some g => {["_gen" := g]}
  | None => ∅
  end.

(** * Properties *)

(** ** Element-type strings *)

Section ElementTypeFacts.

Import ElementTypes ElementTypeGrammar.

Lemma strtolist_loop_picks (types : list string) :
  forall (e : string) (ml : list string),
    exists l, snd (foldl _strtolist_step (e, ml) types) = (ml ++ l)%list
              /\ picks (PyStr.upper <$> types) l.
Proof.
  induction types as [|m types IH]; intros e ml; cbn [foldl fmap list_fmap].
  - exists []. split; [by rewrite app_nil_r | constructor].
  - unfold _strtolist_step at 2.
    repeat match goal with
           | |- context [if ?c then _ else _] => destruct c
           end;
      match goal with
      | |- context [foldl _ (?e', (ml ++ [?t])%list) _] =>
          destruct (IH e' (ml ++ [t])%list) as (l & -> & Hl);
          exists (t :: l); split; [by rewrite <- app_assoc | by constructor]
      | |- _ =>
          destruct (IH e ml) as (l & -> & Hl);
          exists l; split; [done | by constructor]
      end.
Qed.

Lemma strtolist_picks (s : string) : picks _supportedElementTypes (_strtolist s).
Proof.
  destruct (strtolist_loop_picks _supportedElementTypes (PyStr.upper s) [])
    as (l & Hl & Hp).
  unfold _strtolist. rewrite Hl. exact Hp.
Qed.










End ElementTypeFacts.



(** The unknown token is dropped: the parse of ["Q1/FOO"] is that of ["Q1"]. *)
Example strtolist_drops_unknown :
  ElementTypes._strtolist "Q1/FOO" = ["Q1"].
Proof. reflexivity. Qed.

(** The order of the string is not kept: ["dQ0/Q1"] gives Q1 first. *)
Example strtolist_not_left_to_right :
  ElementTypeGrammar.spec_tokens "dQ0/Q1" = ["DQ0"; "Q1"]
  /\ ElementTypes._strtolist "dQ0/Q1" = ["Q1"; "DQ0"].
Proof. split; reflexivity. Qed.

(** ** Index sets *)

Section IndexSetFacts.

Import IndexSet.

Variable parent : FeMesh_IndexSet -> FeMesh_IndexSet -> result unit.

Lemma checkCompat_differ (A B : FeMesh_IndexSet) :
  topologicalIndex A <> topologicalIndex B \/ object A <> object B ->
  is_raise (_checkCompatWith parent A B) = true.
Proof.
  intros Hd. unfold _checkCompatWith.
  destruct (parent A B) as [[]|e]; [|done]. cbn.
  destruct (Z.eqb_spec (topologicalIndex A) (topologicalIndex B)) as [Ht|Ht]; [|done].
  cbn.
  destruct (Nat.eqb_spec (_cself (object A)) (_cself (object B))) as [Hm|Hm]; [|done].
  destruct Hd as [Hd|Hd]; [done|].
  destruct (object A), (object B). cbn in Hm. congruence.
Qed.

Lemma checkCompat_ok (A B : FeMesh_IndexSet) :
  _checkCompatWith parent A B = Ok tt ->
  topologicalIndex A = topologicalIndex B /\ object A = object B.
Proof.
  unfold _checkCompatWith.
  destruct (parent A B) as [[]|e]; [|done]. cbn.
  destruct (Z.eqb_spec (topologicalIndex A) (topologicalIndex B)) as [Ht|Ht]; [|done].
  cbn.
  destruct (Nat.eqb_spec (_cself (object A)) (_cself (object B))) as [Hm|Hm]; [|done].
  intros _. split; [done|].
  destruct (object A), (object B). cbn in Hm. congruence.
Qed.

End IndexSetFacts.

(** C1.  Whatever the parent's check does, [_checkCompatWith] raises when
    the topological indices differ or the meshes differ, and so does each
    of union, intersection and difference; a combination that returns a set
    was made of two sets of the same topological index on the same mesh. *)
Theorem combine_needs_same_level_and_mesh
    (parent : IndexSet.FeMesh_IndexSet -> IndexSet.FeMesh_IndexSet -> result unit)
    (op : IndexSet.setop) (A B : IndexSet.FeMesh_IndexSet) :
  (IndexSet.topologicalIndex A <> IndexSet.topologicalIndex B
   \/ IndexSet.object A <> IndexSet.object B ->
   is_raise (IndexSet._checkCompatWith parent A B) = true
   /\ is_raise (IndexSet.combine parent op A B) = true)
  /\ (forall C, IndexSet.combine parent op A B = Ok C ->
        IndexSet.topologicalIndex A = IndexSet.topologicalIndex B
        /\ IndexSet.object A = IndexSet.object B).
Proof.
  split.
  - intros Hd. pose proof (checkCompat_differ parent A B Hd) as Hr.
    split; [done|]. unfold IndexSet.combine.
    destruct (IndexSet._checkCompatWith parent A B); done.
  - intros C HC. apply (checkCompat_ok parent). unfold IndexSet.combine in HC.
    destruct (IndexSet._checkCompatWith parent A B) as [[]|]; done.
Qed.

Lemma combine_needs_same_level_and_mesh_witness :
  let ok := fun _ _ : IndexSet.FeMesh_IndexSet => Ok tt in
  let A := IndexSet.IndexSet 0 (IndexSet.Mesh 1) {[0; 1]} in
  let B := IndexSet.IndexSet 1 (IndexSet.Mesh 1) {[1; 2]} in
  let B' := IndexSet.IndexSet 0 (IndexSet.Mesh 1) {[1; 2]} in
  is_raise (IndexSet.combine ok IndexSet.Union A B) = true
  /\ IndexSet.topologicalIndex A = IndexSet.topologicalIndex B'
  /\ IndexSet.object A = IndexSet.object B'.
Proof.
  intros ok A B B'. split.
  - apply (proj1 (combine_needs_same_level_and_mesh ok IndexSet.Union A B)).
    left. cbn. lia.
  - apply (proj2 (combine_needs_same_level_and_mesh ok IndexSet.Union A B')
             (IndexSet.IndexSet 0 (IndexSet.Mesh 1) ({[0; 1]} ∪ {[1; 2]}))).
    reflexivity.
Defined.

(** ** The regular grid *)

Section GridFacts.

Import CartesianGrid.

Lemma length_bind_const {A B} (f : A -> list B) (k : nat) (l : list A) :
  (forall x, length (f x) = k) -> length (l ≫= f) = length l * k.
Proof.
  intros Hf. induction l as [|x l IH]; [done|].
  cbn. rewrite length_app, Hf, IH. done.
Qed.

Lemma length_grid_vertices (counts : list nat) :
  length (grid_vertices counts) = foldr Nat.mul 1 counts.
Proof.
  induction counts as [|n rest IH]; [done|].
  cbn [grid_vertices foldr].
  rewrite (length_bind_const _ (length (grid_vertices rest))).
  - by rewrite length_seq, IH.
  - intros x. by rewrite length_fmap.
Qed.

Lemma axis_nodes_product (elementRes : list nat) (periodic : list bool) :
  foldr Nat.mul 1 (zip_with axis_nodes elementRes periodic)
  = node_product elementRes periodic.
Proof.
  unfold node_product.
  revert periodic. induction elementRes as [|r rs IH]; intros [|p ps]; try done.
  cbn. rewrite IH. destruct p; cbn; lia.
Qed.

End GridFacts.

(** C2.  The number of vertices of the grid is the product over the axes of
    [resolution + 1], or of [resolution] along a periodic axis; the
    non-periodic grid of resolution (2,2) has 9 vertices. *)
Theorem nodesGlobal_is_product (elementRes : list nat) (periodic : list bool) :
  CartesianGrid.nodesGlobal elementRes periodic
  = CartesianGrid.node_product elementRes periodic
  /\ CartesianGrid.nodesGlobal [2; 2] [false; false] = 9.
Proof.
  split; [|reflexivity].
  unfold CartesianGrid.nodesGlobal.
  by rewrite length_grid_vertices, axis_nodes_product.
Qed.

(** ** The constructor of [CartesianMeshGenerator] *)

(** C3 (the code departs from it).  A list of three periodicity flags goes
    through the checks of a two-dimensional generator: the length test
    compares [len(periodic)] with itself. *)
Theorem periodic_length_unchecked :
  let periodic := VList [VBool true; VBool false; VBool false] in
  let run :=
    CartesianMeshGenerator_new extern_ok LinearCartesianGenerator_cls
      (VTuple [VInt 2; VInt 2])
      (VTuple [VFloat (Ffin 0 0); VFloat (Ffin 0 0)])
      (VTuple [VFloat (Ffin 1 0); VFloat (Ffin 1 0)])
      periodic empty_world in
  CartesianChecks.check_periodic periodic = Ok tt
  /\ fst run = Ok 0
  /\ attr (snd run) 0 "_periodic" = Some periodic
  /\ attr (snd run) 0 "_dim" = Some (VInt 2).
Proof. vm_compute. done. Qed.

(** ** Running computations *)

(** [name_fresh H] proves that a given attribute name differs from [n] when
    [H] says that [n] is not in a list that holds the name. *)
Ltac name_fresh H :=
  let E := fresh in
  intros E; apply H; rewrite <- E, !elem_of_cons; tauto.

Section MonadFacts.

Context {N : Type}.

Lemma bind_run {A B} (m : M N A) (k : A -> M N B) (w : world N) :
  (m ≫= k) w = match m w with
               | (Ok a, w') => k a w'
               | (Raise e, w') => (Raise e, w')
               end.
Proof. reflexivity. Qed.

Lemma ret_run {A} (a : A) (w : world N) : (mret a : M N A) w = (Ok a, w).
Proof. reflexivity. Qed.

Lemma raise_run {A} (e : exc) (w : world N) : (raise e : M N A) w = (Raise e, w).
Proof. reflexivity. Qed.

Lemma lift_run {A} (r : result A) (w : world N) : (lift r : M N A) w = (r, w).
Proof. reflexivity. Qed.

Lemma alloc_run (cls : pyclass) (w : world N) :
  alloc cls w
  = (Ok (fresh (dom (heap w))),
     World (<[fresh (dom (heap w)) := PyObj cls ∅ ∅]> (heap w)) (native w)).
Proof. reflexivity. Qed.

Lemma setattr_run (a : addr) (name : string) (v : pyval) (w : world N) (o : pyobj) :
  heap w !! a = Some o ->
  setattr a name v w
  = (Ok tt, World (<[a := PyObj (ob_class o) (<[name := v]> (ob_attrs o)) (ob_items o)]> (heap w))
                  (native w)).
Proof. intros H. unfold setattr. by rewrite H. Qed.

Lemma getattr_run (a : addr) (name : string) (w : world N) (v : pyval) :
  attr w a name = Some v -> getattr a name w = (Ok v, w).
Proof.
  unfold attr, getattr. destruct (heap w !! a) as [o|]; [|done]. cbn.
  by intros ->.
Qed.

Lemma attr_insert_eq (h : gmap addr pyobj) (n : N) (a : addr) (o : pyobj) (name : string) :
  attr (World (<[a := o]> h) n) a name = ob_attrs o !! name.
Proof. unfold attr. cbn. by rewrite lookup_insert_eq. Qed.

Lemma touches_only_bind (a : addr) {A B} (m : M N A) (k : A -> M N B) :
  touches_only a m -> (forall x, touches_only a (k x)) -> touches_only a (m ≫= k).
Proof.
  intros Hm Hk w r w'. rewrite bind_run.
  destruct (m w) as [[x|e] w1] eqn:E1; intros E2.
  - destruct (Hm _ _ _ E1) as [Hn1 Hh1]. destruct (Hk x _ _ _ E2) as [Hn2 Hh2].
    split; [congruence|]. intros b Hb. rewrite Hh2, Hh1; done.
  - inversion E2; subst. eauto.
Qed.

Lemma touches_only_lift (a : addr) {A} (r : result A) : touches_only a (lift r : M N A).
Proof. intros w r' w' [= _ <-]. done. Qed.

Lemma touches_only_setattr (a : addr) (name : string) (v : pyval) :
  touches_only a (setattr (N:=N) a name v).
Proof.
  intros w r w'. unfold setattr. destruct (heap w !! a) as [o|]; intros [= _ <-]; [|done].
  split; [done|]. intros b Hb. cbn. by rewrite lookup_insert_ne.
Qed.

Lemma touches_only_getattr (a b : addr) (name : string) :
  touches_only a (getattr (N:=N) b name).
Proof.
  intros w r w'. unfold getattr.
  destruct (heap w !! b) as [o|]; [destruct (ob_attrs o !! name)|]; intros [= _ <-]; done.
Qed.

End MonadFacts.

(** ** The checks of the Cartesian generator *)

Section CartesianFacts.

Import CartesianChecks.

Context {N : Type} (extern : ncall -> N -> result unit * N).

Lemma native_call_heap (c : ncall) (w w' : world N) (r : result unit) :
  native_call extern c w = (r, w') -> heap w' = heap w.
Proof.
  unfold native_call. destruct (extern c (native w)) as [r' n]. by intros [= _ <-].
Qed.

Lemma body_touches_only (self : addr) (elementRes minCoord maxCoord periodic : pyval) :
  touches_only (N:=N) self
    (CartesianMeshGenerator_body self elementRes minCoord maxCoord periodic).
Proof.
  unfold CartesianMeshGenerator_body, MeshGenerator_dim.
  repeat first [ apply touches_only_bind; [|intros ?]
               | apply touches_only_lift
               | apply touches_only_setattr
               | apply touches_only_getattr ].
Qed.

Lemma body_result_dead (self : addr) (elementRes minCoord maxCoord periodic : pyval)
    (w : world N) :
  heap w !! self = None ->
  is_raise (fst (CartesianMeshGenerator_body self elementRes minCoord maxCoord periodic w))
  = true.
Proof.
  intros Ho. unfold CartesianMeshGenerator_body, lift.
  rewrite !bind_run.
  destruct (check_elementRes elementRes) as [[]|]; [|done].
  unfold setattr at 1. by rewrite Ho.
Qed.

Lemma body_result_alive (self : addr) (elementRes minCoord maxCoord periodic : pyval)
    (w : world N) :
  alive w self ->
  fst (CartesianMeshGenerator_body self elementRes minCoord maxCoord periodic w)
  = cartesian_checks elementRes minCoord maxCoord periodic.
Proof.
  intros [o Ho]. unfold CartesianMeshGenerator_body, cartesian_checks.
  unfold MeshGenerator_dim, lift.
  rewrite bind_run.
  destruct (check_elementRes elementRes) as [[]|]; [|done]. cbn [mbind result_bind rbind].
  rewrite bind_run, (setattr_run _ _ _ _ _ Ho), bind_run.
  destruct (check_coord _ minCoord elementRes) as [[]|]; [|done]. cbn [mbind result_bind rbind].
  rewrite bind_run. erewrite setattr_run by apply lookup_insert_eq.
  rewrite bind_run.
  destruct (check_coord _ maxCoord elementRes) as [[]|]; [|done]. cbn [mbind result_bind rbind].
  rewrite bind_run. erewrite setattr_run by apply lookup_insert_eq.
  rewrite bind_run. erewrite setattr_run by apply lookup_insert_eq.
  rewrite bind_run.
  destruct (check_periodic periodic) as [[]|]; [|done]. cbn [mbind result_bind rbind].
  rewrite bind_run. erewrite setattr_run by apply lookup_insert_eq.
  rewrite bind_run. erewrite getattr_run; last first.
  { rewrite attr_insert_eq. cbn. rewrite lookup_insert_ne by done. apply lookup_insert_eq. }
  cbn. by rewrite Nat2Z.id.
Qed.

Lemma check_items_bad (l : list pyval) (item : pyval) :
  item ∈ l -> bad_entry item -> is_raise (check_elementRes_items l) = true.
Proof.
  intros Hin Hbad. induction Hin as [x l|x y l Hin IH]; cbn.
  - destruct Hbad as [->|Hlt]; [done|].
    destruct (Z.ltb_spec (int_value x) 1); [|lia]. by rewrite orb_true_r.
  - destruct (negb (is_int y) || (int_value y <? 1)%Z); auto.
Qed.

Lemma check_min_lt_max_bad (mn mx : list pyval) (i : nat) (a b : pyval) :
  mn !! i = Some a -> mx !! i = Some b -> py_ge a b = Ok true ->
  forall n k, k <= i < k + n -> is_raise (check_min_lt_max mn mx (seq k n)) = true.
Proof.
  intros Ha Hb Hge n. induction n as [|n IH]; intros k Hk; [lia|].
  cbn [seq check_min_lt_max].
  destruct (decide (k = i)) as [->|Hne].
  - unfold py_index. rewrite Ha, Hb. cbn. by rewrite Hge.
  - destruct (py_index mn k) as [x|]; [|done]. cbn.
    destruct (py_index mx k) as [y|]; [|done]. cbn.
    destruct (py_ge x y) as [[]|]; [done| |done]. cbn.
    apply IH. lia.
Qed.

Lemma cartesian_checks_bad (elementRes minCoord maxCoord periodic : pyval) :
  bad_config elementRes minCoord maxCoord ->
  is_raise (cartesian_checks elementRes minCoord maxCoord periodic) = true.
Proof.
  intros Hbad. unfold cartesian_checks.
  assert (Hres : forall r : result unit,
             (check_elementRes elementRes = Ok tt ->
              is_list_or_tuple elementRes = true ->
              check_elementRes_items (items_of elementRes) = Ok tt ->
              (length (items_of elementRes) = 2 \/ length (items_of elementRes) = 3) ->
              is_raise r = true) ->
             is_raise (check_elementRes elementRes;; r) = true).
  { intros r Hr. destruct (check_elementRes elementRes) as [[]|] eqn:E; [|done].
    cbn. apply Hr; [done|..]; unfold check_elementRes in E;
      destruct (is_list_or_tuple elementRes); try done; cbn in E;
      destruct (check_elementRes_items (items_of elementRes)) as [[]|]; try done;
      cbn in E; case_bool_decide as Hl; try done.
    apply elem_of_cons in Hl as [Hl|Hl]; [by left|].
    apply list_elem_of_singleton in Hl. by right. }
  apply Hres. intros _ Hlt Hitems Hlen.
  assert (Hcoord : forall field coord (r : result unit),
             (length (items_of coord) = length (items_of elementRes) -> is_raise r = true) ->
             is_raise (check_coord field coord elementRes;; r) = true).
  { intros field coord r Hr. unfold check_coord.
    destruct (is_list_or_tuple coord); [|done]. cbn.
    destruct (check_coord_items field (items_of coord)) as [[]|]; [|done]. cbn.
    destruct (Nat.eqb_spec (length (items_of coord)) (length (items_of elementRes)));
      [|done]. cbn. by apply Hr. }
  apply Hcoord. intros Hmin. apply Hcoord. intros Hmax.
  destruct Hbad as [item Hin Hb| H2 H3 | Hl | Hl | i a b Ha Hb Hge].
  - pose proof (check_items_bad _ _ Hin Hb) as Hr. by rewrite Hitems in Hr.
  - lia.
  - done.
  - done.
  - destruct (check_periodic periodic) as [[]|]; [|done]. cbn.
    apply (check_min_lt_max_bad _ _ i a b Ha Hb Hge).
    apply lookup_lt_Some in Ha. lia.
Qed.

End CartesianFacts.

Section CartesianErrors.

Import CartesianChecks.

Lemma check_items_kind (l : list pyval) (e : exc) :
  check_elementRes_items l = Raise e -> is_config_error e = true.
Proof.
  induction l as [|x l IH]; cbn; [done|].
  destruct (negb (is_int x) || (int_value x <? 1)%Z); [by intros [= <-]|done].
Qed.

Lemma check_coord_items_kind (field : string) (l : list pyval) (e : exc) :
  check_coord_items field l = Raise e -> is_config_error e = true.
Proof.
  induction l as [|x l IH]; cbn; [done|].
  destruct (negb (is_int_or_float x)); [by intros [= <-]|done].
Qed.

Lemma check_coord_items_num (field : string) (l : list pyval) :
  check_coord_items field l = Ok tt ->
  forall i x, l !! i = Some x -> is_Some (num_value x).
Proof.
  induction l as [|y l IH]; cbn; [done|].
  destruct (is_int_or_float y) eqn:E; [|done]. cbn.
  intros Hl [|i] x; cbn.
  - intros [= <-]. destruct y; try done; eauto.
  - by apply IH.
Qed.

Lemma check_periodic_items_kind (l : list pyval) (e : exc) :
  check_periodic_items l = Raise e -> is_config_error e = true.
Proof.
  induction l as [|x l IH]; cbn; [done|].
  destruct (negb (is_bool x)); [by intros [= <-]|done].
Qed.

Lemma check_min_lt_max_kind (mn mx : list pyval) (e : exc) :
  (forall i x, mn !! i = Some x -> is_Some (num_value x)) ->
  (forall i x, mx !! i = Some x -> is_Some (num_value x)) ->
  forall n k, k + n <= length mn -> k + n <= length mx ->
    check_min_lt_max mn mx (seq k n) = Raise e -> is_config_error e = true.
Proof.
  intros Hmn Hmx n. induction n as [|n IH]; intros k H1 H2; [done|].
  cbn [seq check_min_lt_max]. unfold py_index.
  destruct (lookup_lt_is_Some_2 mn k ltac:(lia)) as [a Ha].
  destruct (lookup_lt_is_Some_2 mx k ltac:(lia)) as [b Hb].
  rewrite Ha, Hb. cbn. unfold py_ge.
  destruct (Hmn _ _ Ha) as [x ->]. destruct (Hmx _ _ Hb) as [y ->]. cbn.
  destruct (float_ge x y); [by intros [= <-]|].
  apply IH; lia.
Qed.

Lemma cartesian_checks_kind (elementRes minCoord maxCoord periodic : pyval) (e : exc) :
  cartesian_checks elementRes minCoord maxCoord periodic = Raise e ->
  is_config_error e = true.
Proof.
  unfold cartesian_checks, check_elementRes, check_coord, check_periodic.
  destruct (is_list_or_tuple elementRes); [|by intros [= <-]]. cbn.
  destruct (check_elementRes_items _) as [[]|e1] eqn:E1;
    [|intros [= <-]; by eapply check_items_kind]. cbn.
  case_bool_decide; [|by intros [= <-]]. cbn.
  destruct (is_list_or_tuple minCoord); [|by intros [= <-]]. cbn.
  destruct (check_coord_items _ (items_of minCoord)) as [[]|e2] eqn:E2;
    [|intros [= <-]; by eapply check_coord_items_kind]. cbn.
  destruct (Nat.eqb_spec (length (items_of minCoord)) (length (items_of elementRes)))
    as [Hmin|]; [|by intros [= <-]]. cbn.
  destruct (is_list_or_tuple maxCoord); [|by intros [= <-]]. cbn.
  destruct (check_coord_items _ (items_of maxCoord)) as [[]|e3] eqn:E3;
    [|intros [= <-]; by eapply check_coord_items_kind]. cbn.
  destruct (Nat.eqb_spec (length (items_of maxCoord)) (length (items_of elementRes)))
    as [Hmax|]; [|by intros [= <-]]. cbn.
  destruct (is_list_or_tuple periodic); [|by intros [= <-]]. cbn.
  destruct (check_periodic_items _) as [[]|e4] eqn:E4;
    [|intros [= <-]; by eapply check_periodic_items_kind]. cbn.
  rewrite Nat.eqb_refl. cbn.
  apply check_min_lt_max_kind; try lia.
  - by eapply check_coord_items_num.
  - by eapply check_coord_items_num.
Qed.

End CartesianErrors.


(** ** The generator of a mesh *)

Section GeneratorFacts.

Context {N : Type} (extern : ncall -> N -> result unit * N).

Lemma isinstance_alive (w : world N) (a : addr) (cls : pyclass) :
  isinstance w (VRef a) cls = true -> alive w a.
Proof. unfold isinstance, alive. destruct (heap w !! a); [eauto|done]. Qed.

Lemma isinstance_ref (w : world N) (v : pyval) (cls : pyclass) :
  isinstance w v cls = true -> exists a, v = VRef a.
Proof. destruct v; try done. eauto. Qed.

(** The getter on a mesh whose [_generator] is [g], or a weak reference
    to the mesh itself. *)
Lemma generator_get_strong (self a : addr) (w : world N) :
  attr w self "_generator" = Some (VRef a) ->
  FeMesh_generator self w = (Ok (VRef a), w).
Proof.
  intros H. unfold FeMesh_generator. rewrite bind_run.
  by rewrite (getattr_run _ _ _ _ H).
Qed.

Lemma generator_get_weak_self (self : addr) (w : world N) :
  attr w self "_generator" = Some (VWeakref self) ->
  FeMesh_generator self w = (Ok (VRef self), w).
Proof.
  intros H. unfold FeMesh_generator. rewrite bind_run.
  rewrite (getattr_run _ _ _ _ H). unfold weakref_call.
  unfold attr in H. by destruct (heap w !! self).
Qed.

(** The setter, run on a generator object [g]. *)
Lemma generator_set_run (self g : addr) (w : world N) (o : pyobj) :
  isinstance w (VRef g) MeshGenerator_cls = true ->
  heap w !! self = Some o ->
  FeMesh_generator_set extern self (VRef g) w
  = (fst (extern (Mesh_SetGenerator self g) (native w)),
     World (<[self := PyObj (ob_class o)
                        (<["_generator" := if bool_decide (self = g)
                                           then VWeakref g else VRef g]> (ob_attrs o))
                        (ob_items o)]> (heap w))
           (snd (extern (Mesh_SetGenerator self g) (native w)))).
Proof.
  intros Hi Ho. unfold FeMesh_generator_set, isinstanceM.
  rewrite bind_run. cbn beta iota. rewrite Hi.
  rewrite bind_run, ret_run, bind_run.
  destruct (bool_decide (self = g)); rewrite (setattr_run _ _ _ _ _ Ho);
    unfold native_call; cbn [native heap];
    by destruct (extern _ (native w)) as [[[]|] ?].
Qed.

Lemma generator_set_not_generator (self : addr) (g : pyval) (w : world N) :
  isinstance w g MeshGenerator_cls = false ->
  FeMesh_generator_set extern self g w
  = (Raise (TypeError "'generator' object passed in must be of type 'MeshGenerator'"), w).
Proof.
  intros Hi. unfold FeMesh_generator_set, isinstanceM.
  rewrite bind_run. cbn beta iota. rewrite Hi. by rewrite bind_run, raise_run.
Qed.

Lemma generator_set_then_get (self g : addr) (w : world N) r w' :
  isinstance w (VRef g) MeshGenerator_cls = true ->
  alive w self ->
  FeMesh_generator_set extern self (VRef g) w = (r, w') ->
  FeMesh_generator self w' = (Ok (VRef g), w')
  /\ attr w' self "_generator"
     = Some (if bool_decide (self = g) then VWeakref g else VRef g).
Proof.
  intros Hi [o Ho]. rewrite (generator_set_run _ _ _ _ Hi Ho). intros [= _ <-].
  assert (Ha : attr (World (<[self := PyObj (ob_class o)
                        (<["_generator" := if bool_decide (self = g)
                                           then VWeakref g else VRef g]> (ob_attrs o))
                        (ob_items o)]> (heap w))
           (snd (extern (Mesh_SetGenerator self g) (native w)))) self "_generator"
          = Some (if bool_decide (self = g) then VWeakref g else VRef g)).
  { rewrite attr_insert_eq. cbn. apply lookup_insert_eq. }
  split; [|done]. case_bool_decide as Hsg.
  - subst g. by apply generator_get_weak_self.
  - by apply generator_get_strong.
Qed.

End GeneratorFacts.

(** C10.  Assigning a value that is not a [MeshGenerator] raises a
    [TypeError] and changes nothing.  Assigning a generator [g] to a live
    mesh stores a weak reference when [g] is the mesh itself and [g]
    otherwise, and the property then returns [g], whether or not the native
    call that follows the assignment raises. *)
Theorem generator_set_get {N : Type} (extern : ncall -> N -> result unit * N)
    (self : addr) (g : pyval) (w : world N) :
  (isinstance w g MeshGenerator_cls = false ->
   exists msg, FeMesh_generator_set extern self g w = (Raise (TypeError msg), w))
  /\ (isinstance w g MeshGenerator_cls = true -> alive w self ->
      forall r w', FeMesh_generator_set extern self g w = (r, w') ->
        FeMesh_generator self w' = (Ok g, w')
        /\ (g = VRef self -> attr w' self "_generator" = Some (VWeakref self))
        /\ (g <> VRef self -> attr w' self "_generator" = Some g)).
Proof.
  split.
  - intros Hi. eexists. by apply generator_set_not_generator.
  - intros Hi Hal r w' Hrun.
    destruct (isinstance_ref _ _ _ Hi) as [a ->].
    destruct (generator_set_then_get extern _ _ _ _ _ Hi Hal Hrun) as [Hget Hattr].
    split; [done|]. split.
    + intros [= ->]. by rewrite bool_decide_eq_true_2 in Hattr.
    + intros Hne. rewrite bool_decide_eq_false_2 in Hattr; [done|]. congruence.
Qed.

(** A mesh that is its own generator at address 0 and a separate generator
    at address 1. *)
Lemma generator_set_get_witness :
  let w : world unit :=
    World (<[1 := PyObj LinearCartesianGenerator_cls ∅ ∅]>
             (<[0 := PyObj FeMesh_Cartesian_cls ∅ ∅]> ∅)) tt in
  (forall r w', FeMesh_generator_set extern_ok 0 (VRef 0) w = (r, w') ->
     FeMesh_generator 0 w' = (Ok (VRef 0), w')
     /\ (VRef 0 = VRef 0 -> attr w' 0 "_generator" = Some (VWeakref 0))
     /\ (VRef 0 <> VRef 0 -> attr w' 0 "_generator" = Some (VRef 0)))
  /\ (forall r w', FeMesh_generator_set extern_ok 0 (VRef 1) w = (r, w') ->
     FeMesh_generator 0 w' = (Ok (VRef 1), w')
     /\ (VRef 1 = VRef 0 -> attr w' 0 "_generator" = Some (VWeakref 0))
     /\ (VRef 1 <> VRef 0 -> attr w' 0 "_generator" = Some (VRef 1)))
  /\ exists msg, FeMesh_generator_set extern_ok 0 (VStr "Q1") w = (Raise (TypeError msg), w).
Proof.
  intros w. split; [|split].
  - apply (proj2 (generator_set_get extern_ok 0 (VRef 0) w)).
    + reflexivity.
    + exists (PyObj FeMesh_Cartesian_cls ∅ ∅). reflexivity.
  - apply (proj2 (generator_set_get extern_ok 0 (VRef 1) w)).
    + reflexivity.
    + exists (PyObj FeMesh_Cartesian_cls ∅ ∅). reflexivity.
  - apply (proj1 (generator_set_get extern_ok 0 (VStr "Q1") w)). reflexivity.
Defined.

(** ** The initialiser of [FeMesh] *)

Section FeMeshFacts.

Context {N : Type} (extern : ncall -> N -> result unit * N).

Lemma isinstance_setattr (w : world N) (a : addr) (o : pyobj)
    (attrs items : gmap string pyval) (n : N) (v : pyval) (cls : pyclass) :
  heap w !! a = Some o ->
  isinstance (World (<[a := PyObj (ob_class o) attrs items]> (heap w)) n) v cls
  = isinstance w v cls.
Proof.
  intros Ho. destruct v as [| | | | | | |b| |]; try done. cbn.
  destruct (decide (a = b)) as [->|Hne].
  - by rewrite lookup_insert_eq, Ho.
  - by rewrite lookup_insert_ne.
Qed.

Lemma FeMesh_body_not_str (self : addr) (elementType generator : pyval) (w : world N) :
  is_str elementType = false ->
  FeMesh_body extern self elementType generator w
  = (Raise (TypeError "'elementType' object passed in must be of type 'str'"), w).
Proof.
  intros Hs. unfold FeMesh_body. rewrite bind_run, Hs. by rewrite raise_run.
Qed.

Lemma FeMesh_body_unsupported (self : addr) (s : string) (generator : pyval) (w : world N) :
  ElementTypes.str_in (PyStr.upper s) ElementTypes._supportedElementTypes = false ->
  FeMesh_body extern self (VStr s) generator w
  = (Raise (ValueError "'elementType' provided ({}) does not appear to be supported."), w).
Proof.
  intros Hs. unfold FeMesh_body. cbn [is_str py_upper].
  rewrite bind_run, ret_run, bind_run, lift_run, bind_run, Hs. by rewrite raise_run.
Qed.

(** With a supported element type the body stores it and goes on to the
    generator. *)
Lemma FeMesh_body_supported (self : addr) (s : string) (generator : pyval)
    (w : world N) (o : pyobj) :
  ElementTypes.str_in (PyStr.upper s) ElementTypes._supportedElementTypes = true ->
  heap w !! self = Some o ->
  FeMesh_body extern self (VStr s) generator w
  = ((if is_none generator then
        b ← isinstanceM (VRef self) MeshGenerator_cls;
        if b : bool then mret (VRef self)
        else raise (ValueError "No generator provided for mesh.")
      else mret generator) ≫= FeMesh_generator_set extern self)
      (World (<[self := PyObj (ob_class o)
                          (<["_elementType" := VStr (PyStr.upper s)]> (ob_attrs o))
                          (ob_items o)]> (heap w))
             (native w)).
Proof.
  intros Hs Ho. unfold FeMesh_body. cbn [is_str py_upper].
  rewrite bind_run, ret_run, bind_run, lift_run, bind_run, Hs, ret_run, bind_run.
  by rewrite (setattr_run _ _ _ _ _ Ho).
Qed.

End FeMeshFacts.

(** C5.  An element type that is not a string, or whose upper-case form is
    not one of Q2, Q1, DQ1, DPC1, DQ0, makes the initialiser raise (a
    [TypeError], respectively the [ValueError] for an unsupported type) and
    leaves the world as it was.  With a supported type and no generator, a
    mesh that is not a [MeshGenerator] raises the [ValueError] for a missing
    generator; a mesh that is one is initialised exactly as if it had been
    passed as the generator, and after lines 62-76 its [generator] property
    returns the mesh itself. *)
Theorem FeMesh_init_checks {N : Type} (extern : ncall -> N -> result unit * N)
    (super_init : M N unit) (self : addr) (elementType generator : pyval) (w : world N) :
  ((forall s, elementType = VStr s ->
      ElementTypes.str_in (PyStr.upper s) ElementTypes._supportedElementTypes = false) ->
   exists e,
     FeMesh___init__ extern super_init self elementType generator w = (Raise e, w)
     /\ (is_str elementType = false ->
         e = TypeError "'elementType' object passed in must be of type 'str'")
     /\ (is_str elementType = true ->
         e = ValueError "'elementType' provided ({}) does not appear to be supported."))
  /\ (forall s, elementType = VStr s ->
        ElementTypes.str_in (PyStr.upper s) ElementTypes._supportedElementTypes = true ->
        generator = VNone -> alive w self ->
        isinstance w (VRef self) MeshGenerator_cls = false ->
        exists w',
          FeMesh___init__ extern super_init self elementType generator w
          = (Raise (ValueError "No generator provided for mesh."), w'))
  /\ (forall s, elementType = VStr s ->
        ElementTypes.str_in (PyStr.upper s) ElementTypes._supportedElementTypes = true ->
        isinstance w (VRef self) MeshGenerator_cls = true ->
        FeMesh___init__ extern super_init self elementType VNone w
        = FeMesh___init__ extern super_init self elementType (VRef self) w
        /\ forall r w1, FeMesh_body extern self elementType VNone w = (r, w1) ->
             FeMesh_generator self w1 = (Ok (VRef self), w1)).
Proof.
  split; [|split].
  - intros Hs. unfold FeMesh___init__. rewrite bind_run.
    destruct (is_str elementType) eqn:E.
    + destruct elementType; try done.
      rewrite FeMesh_body_unsupported by eauto. eexists. split; [done|]. split; done.
    + rewrite FeMesh_body_not_str by done. eexists. split; [done|]. split; done.
  - intros s -> Hs -> [o Ho] Hi. unfold FeMesh___init__. rewrite bind_run.
    rewrite (FeMesh_body_supported _ _ _ _ _ _ Hs Ho). cbn [is_none].
    rewrite !bind_run. unfold isinstanceM at 1. cbn beta iota.
    rewrite (isinstance_setattr _ _ _ _ _ _ _ _ Ho), Hi, raise_run. eauto.
  - intros s -> Hs Hi.
    destruct (isinstance_alive _ _ _ Hi) as [o Ho].
    assert (Hbody : FeMesh_body extern self (VStr s) VNone w
                    = FeMesh_body extern self (VStr s) (VRef self) w).
    { rewrite !(FeMesh_body_supported _ _ _ _ _ _ Hs Ho). cbn [is_none].
      rewrite !bind_run. unfold isinstanceM at 1. cbn beta iota.
      by rewrite (isinstance_setattr _ _ _ _ _ _ _ _ Ho), Hi, !ret_run. }
    split.
    + unfold FeMesh___init__. by rewrite !bind_run, Hbody.
    + intros r w1. rewrite Hbody, (FeMesh_body_supported _ _ _ _ _ _ Hs Ho). cbn [is_none].
      rewrite bind_run, ret_run. intros Hrun.
      eapply generator_set_then_get in Hrun as [Hget _]; [done| |].
      * by rewrite (isinstance_setattr _ _ _ _ _ _ _ _ Ho).
      * eexists. cbn. apply lookup_insert_eq.
Qed.

(** A plain mesh at address 0, a Cartesian mesh (its own generator) at 1. *)
Lemma FeMesh_init_checks_witness :
  let w : world unit :=
    World (<[1 := PyObj FeMesh_Cartesian_cls ∅ ∅]> (<[0 := PyObj FeMesh_cls ∅ ∅]> ∅)) tt in
  let super_init : M unit unit := mret tt in
  (exists e, FeMesh___init__ extern_ok super_init 0 (VStr "Q3") VNone w = (Raise e, w)
             /\ (is_str (VStr "Q3") = false ->
                 e = TypeError "'elementType' object passed in must be of type 'str'")
             /\ (is_str (VStr "Q3") = true ->
                 e = ValueError "'elementType' provided ({}) does not appear to be supported."))
  /\ (exists w', FeMesh___init__ extern_ok super_init 0 (VStr "q1") VNone w
                 = (Raise (ValueError "No generator provided for mesh."), w'))
  /\ (FeMesh___init__ extern_ok super_init 1 (VStr "q1") VNone w
      = FeMesh___init__ extern_ok super_init 1 (VStr "q1") (VRef 1) w
      /\ forall r w1, FeMesh_body extern_ok 1 (VStr "q1") VNone w = (r, w1) ->
           FeMesh_generator 1 w1 = (Ok (VRef 1), w1)).
Proof.
  intros w super_init. split; [|split].
  - apply (proj1 (FeMesh_init_checks extern_ok super_init 0 (VStr "Q3") VNone w)).
    intros s [= <-]. reflexivity.
  - apply (proj1 (proj2 (FeMesh_init_checks extern_ok super_init 0 (VStr "q1") VNone w))
             "q1"); try reflexivity.
    exists (PyObj FeMesh_cls ∅ ∅). reflexivity.
  - apply (proj2 (proj2 (FeMesh_init_checks extern_ok super_init 1 (VStr "q1") VNone w))
             "q1"); reflexivity.
Defined.

(** ** Constructions that must fail *)

Section FailureFacts.

Context {N : Type} (extern : ncall -> N -> result unit * N).

Lemma heap_only_bind (a : addr) {A B} (m : M N A) (k : A -> M N B) :
heap_only a m -> (forall x, heap_only a (k x)) -> heap_only a (m ≫= k).
Proof.
intros Hm Hk w r w'. rewrite bind_run.
destruct (m w) as [[x|e] w1] eqn:E1; intros E2 b Hb.
- rewrite (Hk x _ _ _ E2 b Hb). by apply (Hm _ _ _ E1).
- inversion E2; subst. by apply (Hm _ _ _ E1).
Qed.

Lemma heap_only_same {A} (a : addr) (m : M N A) :
(forall w r w', m w = (r, w') -> heap w' = heap w) -> heap_only a m.
Proof. intros H w r w' E b _. by rewrite (H _ _ _ E). Qed.

Lemma heap_only_lift (a : addr) {A} (r : result A) : heap_only a (lift r : M N A).
Proof. apply heap_only_same. by intros w r' w' [= _ <-]. Qed.

Lemma heap_only_ret (a : addr) {A} (x : A) : heap_only a (mret x : M N A).
Proof. apply heap_only_same. by intros w r' w' [= _ <-]. Qed.

Lemma heap_only_raise (a : addr) {A} (e : exc) : heap_only a (raise e : M N A).
Proof. apply heap_only_same. by intros w r' w' [= _ <-]. Qed.

Lemma heap_only_isinstanceM (a : addr) (v : pyval) (cls : pyclass) :
heap_only a (isinstanceM (N:=N) v cls).
Proof. apply heap_only_same. by intros w r' w' [= _ <-]. Qed.

Lemma heap_only_native_call (a : addr) (c : ncall) : heap_only a (native_call extern c).
Proof. apply heap_only_same. intros w r w'. apply native_call_heap. Qed.

Lemma heap_only_touches (a : addr) {A} (m : M N A) : touches_only a m -> heap_only a m.
Proof. intros H w r w' E. by destruct (H _ _ _ E). Qed.

Lemma heap_only_generator_set (self : addr) (generator : pyval) :
heap_only self (FeMesh_generator_set extern self generator).
Proof.
unfold FeMesh_generator_set.
apply heap_only_bind; [apply heap_only_isinstanceM|]. intros b.
apply heap_only_bind.
{ destruct b; [apply heap_only_ret|apply heap_only_raise]. }
intros _. destruct generator; try apply heap_only_raise.
apply heap_only_bind; [|intros _; apply heap_only_native_call].
case_bool_decide; apply heap_only_touches, touches_only_setattr.
Qed.

Lemma heap_only_FeMesh_body (self : addr) (elementType generator : pyval) :
heap_only self (FeMesh_body extern self elementType generator).
Proof.
unfold FeMesh_body.
apply heap_only_bind.
{ destruct (is_str elementType); [apply heap_only_ret|apply heap_only_raise]. }
intros _. apply heap_only_bind; [apply heap_only_lift|]. intros et.
apply heap_only_bind.
{ destruct (ElementTypes.str_in _ _); [apply heap_only_ret|apply heap_only_raise]. }
intros _. apply heap_only_bind; [apply heap_only_touches, touches_only_setattr|].
intros _. apply heap_only_bind; [|intros g; apply heap_only_generator_set].
destruct (is_none generator); [|apply heap_only_ret].
apply heap_only_bind; [apply heap_only_isinstanceM|].
intros b. destruct b; [apply heap_only_ret|apply heap_only_raise].
Qed.

Lemma fails_within_bind_head (a : addr) {A B} (m : M N A) (k : A -> M N B) :
fails_within a m -> fails_within a (m ≫= k).
Proof.
intros Hm w. destruct (Hm w) as (e & w' & E & Hh).
exists e, w'. by rewrite bind_run, E.
Qed.

Lemma fails_within_bind_tail (a : addr) {A B} (m : M N A) (k : A -> M N B) :
heap_only a m -> (forall x, fails_within a (k x)) -> fails_within a (m ≫= k).
Proof.
intros Hm Hk w. rewrite bind_run.
destruct (m w) as [[x|e] w1] eqn:E.
- destruct (Hk x w1) as (e & w' & -> & Hh). exists e, w'. split; [done|].
  intros b Hb. rewrite Hh by done. by apply (Hm _ _ _ E).
- exists e, w1. split; [done|]. by apply (Hm _ _ _ E).
Qed.

(** The initialiser of a Cartesian generator on an invalid configuration. *)
Lemma Cartesian_init_fails (self : addr) (elementRes minCoord maxCoord periodic : pyval)
  (w : world N) :
bad_config elementRes minCoord maxCoord ->
exists e w',
  CartesianMeshGenerator___init__ extern self elementRes minCoord maxCoord periodic w
  = (Raise e, w')
  /\ native w' = native w
  /\ (forall b, b <> self -> heap w' !! b = heap w !! b)
  /\ (alive w self -> is_config_error e = true).
Proof.
intros Hbad. unfold CartesianMeshGenerator___init__. rewrite bind_run.
destruct (CartesianMeshGenerator_body self elementRes minCoord maxCoord periodic w)
  as [r w1] eqn:E.
destruct (body_touches_only self elementRes minCoord maxCoord periodic _ _ _ E)
  as [Hn Hh].
assert (Hr : is_raise r = true
             /\ (alive w self -> forall e, r = Raise e -> is_config_error e = true)).
{ destruct (heap w !! self) as [o|] eqn:Ho.
  - pose proof (body_result_alive self elementRes minCoord maxCoord periodic w
                  (ex_intro _ o Ho)) as Hf.
    rewrite E in Hf. cbn in Hf. subst r. split.
    + by apply cartesian_checks_bad.
    + intros _ e. apply cartesian_checks_kind.
  - pose proof (body_result_dead self elementRes minCoord maxCoord periodic w Ho) as Hf.
    rewrite E in Hf. split; [done|]. intros [? ?]. congruence. }
destruct Hr as [Hr Hk]. destruct r as [[]|e]; [done|].
exists e, w1. eauto.
Qed.

(** A constructor whose initialiser always fails returns no object and
  leaves the objects of before alone. *)
Lemma construct_fails (cls : pyclass) (ov : gmap string string) (init : addr -> M N unit)
  (w : world N) :
(forall a, fails_within a (init a)) ->
exists e w', construct extern cls ov init w = (Raise e, w')
             /\ forall b, alive w b -> heap w' !! b = heap w !! b.
Proof.
intros Hinit. unfold construct.
rewrite bind_run, alloc_run. cbn beta iota. rewrite bind_run.
assert (Hfresh : forall b, alive w b -> b <> fresh (dom (heap w))).
{ intros b Hb ->. apply elem_of_dom in Hb. by apply is_fresh in Hb. }
destruct (native_call extern _ _) as [[[]|e] w1] eqn:En;
  apply native_call_heap in En; cbn [heap] in En.
- rewrite bind_run.
  destruct (Hinit (fresh (dom (heap w))) w1) as (e & w' & -> & Hh).
  exists e, w'. split; [done|]. intros b Hb.
  rewrite Hh, En by auto. apply lookup_insert_ne. by apply not_eq_sym, Hfresh.
- exists e, w1. split; [done|]. intros b Hb.
  rewrite En. apply lookup_insert_ne. by apply not_eq_sym, Hfresh.
Qed.

Lemma FeMesh_Cartesian_init_fails (self : addr)
  (elementType elementRes minCoord maxCoord periodic : pyval) :
bad_config elementRes minCoord maxCoord ->
fails_within self
  (FeMesh_Cartesian___init__ extern self elementType elementRes minCoord maxCoord periodic).
Proof.
intros Hbad. unfold FeMesh_Cartesian___init__.
apply fails_within_bind_tail.
{ destruct (is_none periodic); [|apply heap_only_ret].
  apply heap_only_bind; [apply heap_only_lift|]. intros n. apply heap_only_ret. }
intros periodic'. cbn zeta.
apply fails_within_bind_tail; [apply heap_only_lift|]. intros e0.
apply fails_within_bind_head. unfold FeMesh___init__.
apply fails_within_bind_tail; [apply heap_only_FeMesh_body|]. intros _ w.
destruct (Cartesian_init_fails self elementRes minCoord maxCoord periodic' w Hbad)
  as (e & w' & E & _ & Hh & _).
eauto.
Qed.

End FailureFacts.

(** C4.  When [elementRes] has an entry that is not a positive integer, or
    is not of length 2 or 3, or [minCoord] or [maxCoord] is not of its
    length, or [minCoord[i] >= maxCoord[i]] for some [i], the initialiser
    raises before it reaches the parent's initialiser: the native state and
    every other object are as before, and on a live object the exception is
    a [TypeError] or a [ValueError] of the constructor.  The constructor
    call of a generator class, and that of [FeMesh_Cartesian], then return
    no object, and the objects that existed before are untouched. *)
Theorem invalid_config_rejected {N : Type} (extern : ncall -> N -> result unit * N)
    (elementRes minCoord maxCoord periodic : pyval) :
  bad_config elementRes minCoord maxCoord ->
  (forall self w, exists e w',
      CartesianMeshGenerator___init__ extern self elementRes minCoord maxCoord periodic w
      = (Raise e, w')
      /\ native w' = native w
      /\ (forall b, b <> self -> heap w' !! b = heap w !! b)
      /\ (alive w self -> is_config_error e = true))
  /\ (forall cls w, exists e w',
        CartesianMeshGenerator_new extern cls elementRes minCoord maxCoord periodic w
        = (Raise e, w')
        /\ forall b, alive w b -> heap w' !! b = heap w !! b)
  /\ (forall elementType w, exists e w',
        FeMesh_Cartesian_new extern elementType elementRes minCoord maxCoord periodic w
        = (Raise e, w')
        /\ forall b, alive w b -> heap w' !! b = heap w !! b).
Proof.
  intros Hbad. split; [|split].
  - intros self w. by apply Cartesian_init_fails.
  - intros cls w. unfold CartesianMeshGenerator_new. apply construct_fails.
    intros a w1.
    destruct (Cartesian_init_fails extern a elementRes minCoord maxCoord periodic w1 Hbad)
      as (e & w' & E & _ & Hh & _).
    eauto.
  - intros elementType w. unfold FeMesh_Cartesian_new. rewrite bind_run, lift_run.
    destruct (ElementTypes.__new__ elementType) as [ov|e]; [|by eauto].
    apply construct_fails. intros a. by apply FeMesh_Cartesian_init_fails.
Qed.

Lemma invalid_config_rejected_witness :
  exists e w',
    CartesianMeshGenerator_new extern_ok LinearCartesianGenerator_cls
      (VTuple [VInt 2; VInt 0])
      (VTuple [VFloat (Ffin 0 0); VFloat (Ffin 0 0)])
      (VTuple [VFloat (Ffin 1 0); VFloat (Ffin 1 0)])
      (VList [VBool false; VBool false]) empty_world
    = (Raise e, w')
    /\ forall b, alive empty_world b -> heap w' !! b = heap empty_world !! b.
Proof.
  refine (proj1 (proj2 (invalid_config_rejected extern_ok
                   (VTuple [VInt 2; VInt 0])
                   (VTuple [VFloat (Ffin 0 0); VFloat (Ffin 0 0)])
                   (VTuple [VFloat (Ffin 1 0); VFloat (Ffin 1 0)])
                   (VList [VBool false; VBool false]) _)) _ _).
  apply (bad_elementRes_entry _ _ _ (VInt 0)).
  - cbn. apply list_elem_of_further, list_elem_of_here.
  - right. cbn. lia.
Defined.

(** ** The special sets of a mesh *)

Section SpecialSetsFacts.

Context {N : Type} (call_function : string -> pyval -> M N pyval).

Lemma hasattr_run (a : addr) (name : string) (w : world N) (v : pyval) :
  attr w a name = Some v -> hasattr a name w = (Ok true, w).
Proof.
  unfold attr, hasattr. destruct (heap w !! a) as [o|]; [|done]. cbn.
  intros ->. by rewrite bool_decide_eq_true_2.
Qed.

Lemma dict_getitem_run (d : addr) (key : string) (w : world N) (v : pyval) :
  item w d key = Some v -> dict_getitem d key w = (Ok v, w).
Proof.
  unfold item, dict_getitem. destruct (heap w !! d) as [o|]; [|done]. cbn.
  by intros ->.
Qed.

Lemma dict_setitem_run (d : addr) (key : string) (v : pyval) (w : world N) (o : pyobj) :
  heap w !! d = Some o ->
  dict_setitem d key v w
  = (Ok tt, World (<[d := PyObj (ob_class o) (ob_attrs o) (<[key := v]> (ob_items o))]> (heap w))
                  (native w)).
Proof. intros H. unfold dict_setitem. by rewrite H. Qed.

Lemma attr_alive (w : world N) (a : addr) (name : string) (v : pyval) :
  attr w a name = Some v -> alive w a.
Proof. unfold attr, alive. destruct (heap w !! a); [eauto|done]. Qed.

Lemma weakref_call_alive (a : addr) (w : world N) :
  alive w a -> weakref_call a w = (Ok (VRef a), w).
Proof. intros [o Ho]. unfold weakref_call. by rewrite Ho. Qed.

(** The property on a mesh that already has its dictionary. *)
Lemma specialSets_run (mesh : addr) (d : pyval) (w : world N) :
  attr w mesh "_specialSets" = Some d ->
  FeMesh_specialSets mesh w = (Ok d, w).
Proof.
  intros Hd. unfold FeMesh_specialSets.
  rewrite bind_run, (hasattr_run _ _ _ _ Hd), bind_run, ret_run.
  by apply getattr_run.
Qed.

Lemma getitem_run (mesh d : addr) (name f : string) (w : world N) :
  attr w d "_femesh" = Some (VWeakref mesh) ->
  alive w mesh ->
  item w d name = Some (VFunc f) ->
  _SpecialSetsDict___getitem__ call_function d name w
  = call_function f (VRef mesh) w.
Proof.
  intros Hm Hal Hf. unfold _SpecialSetsDict___getitem__.
  rewrite bind_run, (dict_getitem_run _ _ _ _ Hf).
  rewrite bind_run, (getattr_run _ _ _ _ Hm).
  by rewrite bind_run, (weakref_call_alive _ _ Hal).
Qed.

Lemma attr_dict_setitem (h : gmap addr pyobj) (n n' : N) (d a : addr) (o : pyobj)
    (items : gmap string pyval) (name : string) :
  h !! d = Some o ->
  attr (World (<[d := PyObj (ob_class o) (ob_attrs o) items]> h) n') a name
  = attr (World h n) a name.
Proof.
  intros Ho. unfold attr. cbn. destruct (decide (d = a)) as [->|Hne].
  - by rewrite lookup_insert_eq, Ho.
  - by rewrite lookup_insert_ne.
Qed.

End SpecialSetsFacts.

(** C8.  On a mesh whose registry holds a rule [f] under [name], the lookup
    [mesh.specialSets[name]] is the call of [f] on the mesh in the world of
    the lookup.  Registering a rule stores it without calling anything and
    leaves the native state alone; whatever the native state has become when
    the name is looked up, the result is the rule's result in that state. *)
Theorem specialSets_lookup_calls_rule {N : Type}
    (call_function : string -> pyval -> M N pyval)
    (mesh d : addr) (name : string) (w : world N) :
  attr w mesh "_specialSets" = Some (VRef d) ->
  attr w d "_femesh" = Some (VWeakref mesh) ->
  (forall f, item w d name = Some (VFunc f) ->
     specialSets_lookup call_function mesh name w = call_function f (VRef mesh) w)
  /\ (forall f, exists w1,
        specialSets_register mesh name (VFunc f) w = (Ok tt, w1)
        /\ native w1 = native w
        /\ forall n',
             specialSets_lookup call_function mesh name (World (heap w1) n')
             = call_function f (VRef mesh) (World (heap w1) n')).
Proof.
  intros Hd Hm. split.
  - intros f Hf. unfold specialSets_lookup.
    rewrite bind_run, (specialSets_run _ _ _ Hd).
    apply getitem_run; [done| |done]. by eapply attr_alive.
  - intros f. unfold specialSets_register.
    rewrite bind_run, (specialSets_run _ _ _ Hd).
    destruct (attr_alive _ _ _ _ Hm) as [od Hod].
    rewrite (dict_setitem_run _ _ _ _ _ Hod).
    eexists. split; [done|]. split; [done|]. intros n'. cbn [heap].
    destruct w as [h n]. cbn [heap native] in *.
    unfold specialSets_lookup. rewrite bind_run.
    erewrite specialSets_run; last first.
    { rewrite (attr_dict_setitem h n n' _ _ _ _ _ Hod). exact Hd. }
    apply getitem_run.
    + rewrite (attr_dict_setitem h n n' _ _ _ _ _ Hod). exact Hm.
    + apply attr_alive in Hd as [om Hom]. unfold alive. cbn.
      destruct (decide (d = mesh)) as [->|Hne].
      * rewrite lookup_insert_eq. eauto.
      * rewrite lookup_insert_ne by done. eauto.
    + unfold item. cbn. rewrite lookup_insert_eq. cbn. apply lookup_insert_eq.
Qed.

(** A rule that reads the native state (here a number standing for the
    geometry): the lookup returns the number current at the lookup. *)
Lemma specialSets_lookup_calls_rule_witness :
  let call_function : string -> pyval -> M Z pyval :=
    fun _ _ w => (Ok (VInt (native w)), w) in
  let h : gmap addr pyobj :=
    <[1 := PyObj _SpecialSetsDict_cls {["_femesh" := VWeakref 0]} {["Walls" := VFunc "walls"]}]>
      (<[0 := PyObj FeMesh_cls {["_specialSets" := VRef 1]} ∅]> ∅) in
  specialSets_lookup call_function 0 "Walls" (World h 5%Z) = (Ok (VInt 5), World h 5%Z)
  /\ specialSets_lookup call_function 0 "Walls" (World h 7%Z) = (Ok (VInt 7), World h 7%Z).
Proof.
  intros call_function h. split.
  - apply (proj1 (specialSets_lookup_calls_rule call_function 0 1 "Walls" (World h 5%Z)
                    eq_refl eq_refl) "walls"). reflexivity.
  - apply (proj1 (specialSets_lookup_calls_rule call_function 0 1 "Walls" (World h 7%Z)
                    eq_refl eq_refl) "walls"). reflexivity.
Defined.

(** ** Steps of a successful run *)

Section StepFacts.

Context {N : Type} (extern : ncall -> N -> result unit * N).

Lemma bind_ok {A B} (m : M N A) (k : A -> M N B) (w w' : world N) (b : B) :
  (m ≫= k) w = (Ok b, w') ->
  exists a w1, m w = (Ok a, w1) /\ k a w1 = (Ok b, w').
Proof.
  rewrite bind_run. destruct (m w) as [[a|e] w1]; [eauto|done].
Qed.

Lemma py_index_lookup {A} (l : list A) (i : nat) (x : A) :
  py_index l i = Ok x -> l !! i = Some x.
Proof. unfold py_index. destruct (l !! i); [by intros [= ->]|done]. Qed.

Lemma lift_ok {A} (r : result A) (w w' : world N) (a : A) :
  lift r w = (Ok a, w') -> r = Ok a /\ w' = w.
Proof. by intros [= -> ->]. Qed.

Lemma ret_ok {A} (x a : A) (w w' : world N) :
  (mret x : M N A) w = (Ok a, w') -> a = x /\ w' = w.
Proof. by intros [= -> ->]. Qed.

Lemma updates_refl (a : addr) (names : list string) (w : world N) :
  updates a names w w.
Proof. repeat split. Qed.

Lemma updates_heap_eq (a : addr) (names : list string) (w w' : world N) :
  heap w' = heap w -> updates a names w w'.
Proof.
  intros H. unfold updates, same_others, same_attrs_except, class_of, attr, item.
  rewrite H. done.
Qed.

Lemma updates_trans (a : addr) (ns1 ns2 : list string) (w w1 w2 : world N) :
  updates a ns1 w w1 -> updates a ns2 w1 w2 -> updates a (ns1 ++ ns2) w w2.
Proof.
  intros [Ho1 (Hc1 & Ha1 & Hi1)] [Ho2 (Hc2 & Ha2 & Hi2)]. repeat split.
  - intros b Hb. rewrite Ho2, Ho1; done.
  - congruence.
  - intros n Hn. rewrite Ha2, Ha1; [done|intros E; apply Hn, elem_of_app; auto..].
  - intros k. by rewrite Hi2, Hi1.
Qed.

Lemma updates_weaken (a : addr) (ns ns' : list string) (w w' : world N) :
  ns ⊆ ns' -> updates a ns w w' -> updates a ns' w w'.
Proof.
  intros Hsub [Ho (Hc & Ha & Hi)]. repeat split; try done.
  intros n Hn. apply Ha. intros E. by apply Hn, Hsub.
Qed.

Lemma updates_other (a b : addr) (names : list string) (w w' : world N) :
  b <> a -> updates a names w w' -> heap w' !! b = heap w !! b.
Proof. intros Hb [Ho _]. by apply Ho. Qed.

Lemma updates_alive (a b : addr) (names : list string) (w w' : world N) :
  updates a names w w' -> alive w b -> alive w' b.
Proof.
  intros [Ho (Hc & _)] Hal. destruct (decide (b = a)) as [->|Hne].
  - unfold alive, class_of in *. destruct Hal as [o Ho']. rewrite Ho' in Hc.
    destruct (heap w' !! a); [eauto|done].
  - unfold alive. by rewrite Ho.
Qed.

Lemma updates_extends (a : addr) (names : list string) (w w' : world N) :
  ~ alive w a -> updates a names w w' -> extends w w'.
Proof.
  intros Hna [Ho _] b Hb. apply Ho. intros ->. done.
Qed.

Lemma extends_updates_fresh (a : addr) (names : list string) (w w1 w' : world N) :
  ~ alive w a -> extends w w1 -> updates a names w1 w' -> extends w w'.
Proof.
  intros Hna He [Ho _] b Hb. rewrite Ho, He; [done..|]. by intros ->.
Qed.

Lemma extends_refl (w : world N) : extends w w.
Proof. by intros b Hb. Qed.

Lemma extends_trans (w w1 w2 : world N) :
  extends w w1 -> extends w1 w2 -> extends w w2.
Proof.
  intros H1 H2 b Hb. rewrite H2, H1; [done..|].
  unfold alive. rewrite H1; done.
Qed.

Lemma extends_alive (w w' : world N) (b : addr) :
  extends w w' -> alive w b -> alive w' b.
Proof. intros H Hb. unfold alive. by rewrite H. Qed.

Lemma extends_attr (w w' : world N) (b : addr) (n : string) :
  extends w w' -> alive w b -> attr w' b n = attr w b n.
Proof. intros H Hb. unfold attr. by rewrite H. Qed.

Lemma extends_class (w w' : world N) (b : addr) :
  extends w w' -> alive w b -> class_of w' b = class_of w b.
Proof. intros H Hb. unfold class_of. by rewrite H. Qed.

Lemma class_alive (w : world N) (a : addr) (c : pyclass) :
  class_of w a = Some c -> alive w a.
Proof. unfold class_of, alive. destruct (heap w !! a); [eauto|done]. Qed.

Lemma setattr_ok (a : addr) (name : string) (v : pyval) (w w' : world N) :
  setattr a name v w = (Ok tt, w') ->
  updates a [name] w w' /\ attr w' a name = Some v /\ native w' = native w.
Proof.
  unfold setattr. destruct (heap w !! a) as [o|] eqn:Ho; [|done].
  intros [= <-]. split; [|split; [|done]].
  - split; [|split; [|split]].
    + intros b Hb. cbn. by rewrite lookup_insert_ne.
    + unfold class_of. cbn. by rewrite lookup_insert_eq, Ho.
    + intros n Hn. unfold attr. cbn. rewrite lookup_insert_eq, Ho. cbn.
      apply lookup_insert_ne. intros <-. apply Hn. by left.
    + intros k. unfold item. cbn. by rewrite lookup_insert_eq, Ho.
  - rewrite attr_insert_eq. cbn. apply lookup_insert_eq.
Qed.

Lemma getattr_ok (a : addr) (name : string) (w w' : world N) (v : pyval) :
  getattr a name w = (Ok v, w') -> w' = w /\ attr w a name = Some v.
Proof.
  unfold getattr, attr. destruct (heap w !! a) as [o|]; [|done]. cbn.
  destruct (ob_attrs o !! name); [|done]. by intros [= -> ->].
Qed.

Lemma isinstanceM_ok (v : pyval) (cls : pyclass) (w w' : world N) (b : bool) :
  isinstanceM v cls w = (Ok b, w') -> w' = w /\ b = isinstance w v cls.
Proof. by intros [= <- <-]. Qed.

Lemma alloc_ok (cls : pyclass) (w w' : world N) (a : addr) :
  alloc cls w = (Ok a, w') ->
  ~ alive w a /\ extends w w' /\ class_of w' a = Some cls
  /\ (forall n, attr w' a n = None) /\ (forall k, item w' a k = None).
Proof.
  unfold alloc. intros [= <- <-].
  assert (Hf : ~ alive w (fresh (dom (heap w)))).
  { intros Hal. apply elem_of_dom in Hal. by apply is_fresh in Hal. }
  split; [done|]. split; [|split; [|split]].
  - intros b Hb. cbn. rewrite lookup_insert_ne; [done|]. by intros <-.
  - unfold class_of. cbn. by rewrite lookup_insert_eq.
  - intros n. by rewrite attr_insert_eq.
  - intros k. unfold item. cbn. by rewrite lookup_insert_eq.
Qed.

(** A constructor call that returns: the object is new, [init] ran on it
    after the allocation, and the objects of before are those the
    initialiser started from. *)
Lemma construct_ok (cls : pyclass) (ov : gmap string string) (init : addr -> M N unit)
    (w w' : world N) (a : addr) :
  construct extern cls ov init w = (Ok a, w') ->
  exists w1, ~ alive w a /\ extends w w1 /\ class_of w1 a = Some cls
             /\ (forall n, attr w1 a n = None) /\ (forall k, item w1 a k = None)
             /\ init a w1 = (Ok tt, w').
Proof.
  unfold construct. intros H.
  apply bind_ok in H as (a' & w1 & Hal & H).
  apply bind_ok in H as ([] & w2 & Hn & H).
  apply bind_ok in H as ([] & w3 & Hi & H).
  apply ret_ok in H as [-> ->].
  apply alloc_ok in Hal as (Hf & He & Hc & Ha & Hk).
  apply native_call_heap in Hn.
  exists w2. unfold extends, class_of, attr, item, alive in *. rewrite Hn. done.
Qed.

End StepFacts.

(** ** What the initialisers leave behind when they return *)

Section InitFacts.

Import CartesianChecks.

Context {N : Type} (extern : ncall -> N -> result unit * N).

(** Replacing the attributes of the object at [a]. *)
Lemma updates_insert (a : addr) (names : list string) (w w' : world N) (o : pyobj)
    (attrs' : gmap string pyval) :
  heap w !! a = Some o ->
  heap w' = <[a := PyObj (ob_class o) attrs' (ob_items o)]> (heap w) ->
  (forall n, n ∉ names -> attrs' !! n = ob_attrs o !! n) ->
  updates a names w w'.
Proof.
  intros Ho Hh Hn. unfold updates, same_others, same_attrs_except, class_of, attr, item.
  rewrite Hh. split; [|split; [|split]].
  - intros b Hb. by rewrite lookup_insert_ne.
  - by rewrite lookup_insert_eq, Ho.
  - intros n Hnn. rewrite lookup_insert_eq, Ho. cbn. by apply Hn.
  - intros k. by rewrite lookup_insert_eq, Ho.
Qed.

Lemma attr_of_insert (a : addr) (w' : world N) (h : gmap addr pyobj) (o : pyobj)
    (name : string) :
  heap w' = <[a := o]> h -> attr w' a name = ob_attrs o !! name.
Proof. intros Hh. unfold attr. by rewrite Hh, lookup_insert_eq. Qed.

Lemma setattr_inv (a : addr) (name : string) (v : pyval) (w w' : world N) :
  setattr a name v w = (Ok tt, w') ->
  exists o, heap w !! a = Some o
            /\ w' = World (<[a := PyObj (ob_class o) (<[name := v]> (ob_attrs o)) (ob_items o)]>
                             (heap w)) (native w).
Proof.
  unfold setattr. destruct (heap w !! a) as [o|]; [|done]. intros [= <-]. eauto.
Qed.

(** The body of the Cartesian initialiser on a live object whose
    arguments pass the checks. *)
Lemma body_run_ok (self : addr) (elementRes minCoord maxCoord periodic : pyval)
    (w : world N) (o : pyobj) :
  heap w !! self = Some o ->
  cartesian_checks elementRes minCoord maxCoord periodic = Ok tt ->
  CartesianMeshGenerator_body self elementRes minCoord maxCoord periodic w
  = (Ok tt,
     World (<[self := PyObj (ob_class o)
               (<["_periodic" := periodic]>
                 (<["_dim" := VInt (Z.of_nat (length (items_of elementRes)))]>
                   (<["_maxCoord" := maxCoord]>
                     (<["_minCoord" := minCoord]>
                       (<["_elementRes" := elementRes]> (ob_attrs o))))))
               (ob_items o)]> (heap w))
           (native w)).
Proof.
  intros Ho Hchk. unfold cartesian_checks in Hchk.
  unfold CartesianMeshGenerator_body, MeshGenerator_dim.
  rewrite bind_run, lift_run.
  destruct (check_elementRes elementRes) as [[]|]; [|done]. cbn in Hchk.
  rewrite bind_run, (setattr_run _ _ _ _ _ Ho), bind_run, lift_run.
  destruct (check_coord _ minCoord elementRes) as [[]|]; [|done]. cbn in Hchk.
  rewrite bind_run. erewrite setattr_run by apply lookup_insert_eq.
  rewrite bind_run, lift_run.
  destruct (check_coord _ maxCoord elementRes) as [[]|]; [|done]. cbn in Hchk.
  rewrite bind_run. erewrite setattr_run by apply lookup_insert_eq.
  rewrite bind_run. erewrite setattr_run by apply lookup_insert_eq.
  rewrite bind_run, lift_run.
  destruct (check_periodic periodic) as [[]|]; [|done]. cbn in Hchk.
  rewrite bind_run. erewrite setattr_run by apply lookup_insert_eq.
  rewrite bind_run. erewrite getattr_run; last first.
  { rewrite attr_insert_eq. cbn. rewrite lookup_insert_ne by done. apply lookup_insert_eq. }
  rewrite lift_run. cbn [int_value ob_class ob_attrs ob_items heap native].
  rewrite Nat2Z.id, Hchk. rewrite !insert_insert_eq. done.
Qed.

Lemma CartesianMeshGenerator_init_ok (self : addr)
    (elementRes minCoord maxCoord periodic : pyval) (w w' : world N) :
  CartesianMeshGenerator___init__ extern self elementRes minCoord maxCoord periodic w
  = (Ok tt, w') ->
  updates self ["_elementRes"; "_minCoord"; "_maxCoord"; "_dim"; "_periodic"] w w'
  /\ attr w' self "_elementRes" = Some elementRes
  /\ attr w' self "_minCoord" = Some minCoord
  /\ attr w' self "_maxCoord" = Some maxCoord
  /\ attr w' self "_periodic" = Some periodic
  /\ attr w' self "_dim" = Some (VInt (Z.of_nat (length (items_of elementRes))))
  /\ cartesian_checks elementRes minCoord maxCoord periodic = Ok tt.
Proof.
  unfold CartesianMeshGenerator___init__. intros H.
  apply bind_ok in H as ([] & w1 & Hb & Hn).
  apply native_call_heap in Hn.
  destruct (heap w !! self) as [o|] eqn:Ho.
  - pose proof (body_result_alive self elementRes minCoord maxCoord periodic w
                  (ex_intro _ o Ho)) as Hf.
    rewrite Hb in Hf. cbn in Hf. symmetry in Hf.
    rewrite (body_run_ok _ _ _ _ _ _ _ Ho Hf) in Hb. injection Hb as <-.
    cbn [heap] in Hn.
    split; [|repeat split; try done;
             rewrite (attr_of_insert _ _ _ _ _ Hn); cbn; by simplify_map_eq].
    eapply updates_insert; [done..|].
    intros n Hnn. rewrite !lookup_insert_ne; [done|name_fresh Hnn..].
  - pose proof (body_result_dead self elementRes minCoord maxCoord periodic w Ho) as Hf.
    by rewrite Hb in Hf.
Qed.

Lemma FeMesh_body_ok (self : addr) (elementType generator : pyval) (w w' : world N) :
  FeMesh_body extern self elementType generator w = (Ok tt, w') ->
  exists s g,
    elementType = VStr s
    /\ ElementTypes.str_in (PyStr.upper s) ElementTypes._supportedElementTypes = true
    /\ (generator = VRef g \/ generator = VNone /\ g = self)
    /\ isinstance w (VRef g) MeshGenerator_cls = true
    /\ updates self ["_elementType"; "_generator"] w w'
    /\ attr w' self "_elementType" = Some (VStr (PyStr.upper s))
    /\ attr w' self "_generator"
       = Some (if bool_decide (self = g) then VWeakref g else VRef g).
Proof.
  intros H.
  destruct (is_str elementType) eqn:Es;
    [|by rewrite FeMesh_body_not_str in H].
  destruct elementType as [| | | |s| | | | |]; try done. clear Es.
  destruct (ElementTypes.str_in (PyStr.upper s) ElementTypes._supportedElementTypes) eqn:Hs;
    [|by rewrite FeMesh_body_unsupported in H].
  destruct (heap w !! self) as [o|] eqn:Ho; last first.
  { unfold FeMesh_body in H. cbn [is_str py_upper] in H.
    rewrite bind_run, ret_run, bind_run, lift_run, bind_run, Hs, ret_run, bind_run in H.
    unfold setattr in H. by rewrite Ho in H. }
  rewrite (FeMesh_body_supported _ _ _ _ _ _ Hs Ho) in H.
  apply bind_ok in H as (gen & w1 & Hg & H).
  assert (Hgen : exists g, gen = VRef g
                           /\ (generator = VRef g \/ generator = VNone /\ g = self)
                           /\ isinstance w (VRef g) MeshGenerator_cls = true
                           /\ w1 = World (<[self := PyObj (ob_class o)
                                   (<["_elementType" := VStr (PyStr.upper s)]> (ob_attrs o))
                                   (ob_items o)]> (heap w)) (native w)).
  { destruct (is_none generator) eqn:En.
    - destruct generator; try done.
      apply bind_ok in Hg as (b & w2 & Hb & Hg).
      apply isinstanceM_ok in Hb as [-> ->].
      rewrite (isinstance_setattr _ _ _ _ _ _ _ _ Ho) in Hg.
      destruct (isinstance w (VRef self) MeshGenerator_cls) eqn:Hi; [|done].
      apply ret_ok in Hg as [-> ->]. exists self. eauto 10.
    - apply ret_ok in Hg as [-> ->].
      destruct (isinstance (World (<[self := PyObj (ob_class o)
                                   (<["_elementType" := VStr (PyStr.upper s)]> (ob_attrs o))
                                   (ob_items o)]> (heap w)) (native w))
                  generator MeshGenerator_cls) eqn:Hi;
        [|by rewrite generator_set_not_generator in H].
      destruct (isinstance_ref _ _ _ Hi) as [g ->].
      rewrite (isinstance_setattr _ _ _ _ _ _ _ _ Ho) in Hi. exists g. eauto 10. }
  destruct Hgen as (g & -> & Hor & Hi & ->).
  erewrite generator_set_run in H; [| |cbn; apply lookup_insert_eq];
    [|by rewrite (isinstance_setattr _ _ _ _ _ _ _ _ Ho)].
  cbn [ob_class ob_attrs ob_items heap native] in H. rewrite insert_insert_eq in H.
  injection H as _ <-.
  exists s, g. split; [done|]. split; [done|]. split; [done|]. split; [done|].
  split; [|split].
  - eapply updates_insert; [done..|].
    intros n Hnn. rewrite !lookup_insert_ne; [done|name_fresh Hnn..].
  - rewrite attr_insert_eq. cbn. by simplify_map_eq.
  - rewrite attr_insert_eq. cbn. by simplify_map_eq.
Qed.

End InitFacts.

Section ConstructorFacts.

Context {N : Type} (extern : ncall -> N -> result unit * N).

Lemma TemplatedMeshGenerator_init_ok (self gm : addr) (w w' : world N) :
  TemplatedMeshGenerator___init__ extern self (VRef gm) w = (Ok tt, w') ->
  isinstance w (VRef gm) FeMesh_cls = true
  /\ updates self ["_geometryMeshWeakref"; "_dim"] w w'
  /\ attr w' self "_geometryMeshWeakref" = Some (VWeakref gm)
  /\ (gm <> self -> exists d, attr w gm "_dim" = Some d /\ attr w' self "_dim" = Some d).
Proof.
  unfold TemplatedMeshGenerator___init__. intros H.
  apply bind_ok in H as (b & w1 & Hb & H). apply isinstanceM_ok in Hb as [-> ->].
  apply bind_ok in H as ([] & w1 & Hc & H).
  destruct (isinstance w (VRef gm) FeMesh_cls) eqn:Hi; [|done].
  apply ret_ok in Hc as [_ ->].
  apply bind_ok in H as ([] & w1 & Hs1 & H).
  apply setattr_inv in Hs1 as (o & Ho & ->).
  apply bind_ok in H as (g & w2 & Hg & H).
  unfold TemplatedMeshGenerator_geometryMesh in Hg.
  apply bind_ok in Hg as (r & w3 & Hr & Hg).
  apply getattr_ok in Hr as [-> Hr].
  rewrite attr_insert_eq in Hr. cbn in Hr. rewrite lookup_insert_eq in Hr.
  injection Hr as <-.
  unfold weakref_call in Hg. cbn [heap] in Hg.
  assert (Hgm : exists ogm, heap w !! gm = Some ogm).
  { unfold isinstance in Hi. destruct (heap w !! gm); [eauto|done]. }
  destruct Hgm as [ogm Hogm].
  assert (Hg' : g = VRef gm /\ w2 = World (<[self := PyObj (ob_class o)
                  (<["_geometryMeshWeakref" := VWeakref gm]> (ob_attrs o)) (ob_items o)]>
                  (heap w)) (native w)).
  { destruct (decide (self = gm)) as [->|Hne].
    - rewrite lookup_insert_eq in Hg. by injection Hg as <- <-.
    - rewrite lookup_insert_ne, Hogm in Hg by done. by injection Hg as <- <-. }
  destruct Hg' as [-> ->]. clear Hg.
  apply bind_ok in H as (d & w2 & Hd & H).
  unfold get_dim in Hd. apply bind_ok in Hd as (b & w3 & Hb & Hd).
  apply isinstanceM_ok in Hb as [-> ->].
  destruct (isinstance _ (VRef gm) MeshGenerator_cls); [|done].
  apply getattr_ok in Hd as [-> Hd].
  apply bind_ok in H as ([] & w2 & Hs2 & H).
  apply setattr_inv in Hs2 as (o2 & Ho2 & ->).
  cbn [heap native] in Ho2. rewrite lookup_insert_eq in Ho2. injection Ho2 as <-.
  apply native_call_heap in H. cbn [heap ob_class ob_attrs ob_items] in H.
  rewrite insert_insert_eq in H.
  split; [done|]. split; [|split].
  - eapply updates_insert; [done..|].
    intros n Hnn. rewrite !lookup_insert_ne; [done|name_fresh Hnn..].
  - rewrite (attr_of_insert _ _ _ _ _ H). cbn. by simplify_map_eq.
  - intros Hne. exists d. split.
    + unfold attr in Hd |- *. cbn in Hd. by rewrite lookup_insert_ne in Hd.
    + rewrite (attr_of_insert _ _ _ _ _ H). cbn. by simplify_map_eq.
Qed.

Lemma checked_TemplatedMeshGenerator_init_ok (self gm : addr) (w w' : world N) :
  checked_TemplatedMeshGenerator___init__ extern self (VRef gm) w = (Ok tt, w') ->
  TemplatedMeshGenerator___init__ extern self (VRef gm) w = (Ok tt, w').
Proof.
  unfold checked_TemplatedMeshGenerator___init__. intros H.
  apply bind_ok in H as (b & w1 & Hb & H). apply isinstanceM_ok in Hb as [-> ->].
  apply bind_ok in H as ([] & w1 & Hc & H).
  destruct (isinstance w (VRef gm) FeMesh_cls); [|done].
  by apply ret_ok in Hc as [_ ->].
Qed.

(** A templated generator built on the live mesh [gm]. *)
Lemma templated_new_ok (cls : pyclass) (init : addr -> pyval -> M N unit)
    (gm : addr) (w w' : world N) (g : addr) :
  (forall a w1 w2, init a (VRef gm) w1 = (Ok tt, w2) ->
     TemplatedMeshGenerator___init__ extern a (VRef gm) w1 = (Ok tt, w2)) ->
  alive w gm ->
  construct extern cls ∅ (fun self => init self (VRef gm)) w = (Ok g, w') ->
  ~ alive w g /\ extends w w'
  /\ class_of w' g = Some cls
  /\ attr w' g "_geometryMeshWeakref" = Some (VWeakref gm)
  /\ exists d, attr w gm "_dim" = Some d /\ attr w' g "_dim" = Some d.
Proof.
  intros Hinit Hgm H.
  apply construct_ok in H as (w1 & Hf & He & Hc & _ & _ & H).
  apply Hinit, TemplatedMeshGenerator_init_ok in H as (Hi & Hu & Ha & Hd).
  assert (Hne : gm <> g) by (by intros ->).
  split; [done|]. split; [|split; [|split]].
  - by eapply extends_updates_fresh.
  - destruct Hu as [_ (Hcl & _)]. congruence.
  - done.
  - destruct (Hd Hne) as (d & Hd1 & Hd2). exists d. split; [|done].
    by rewrite <- (extends_attr _ _ _ _ He Hgm).
Qed.

Lemma CartesianMeshGenerator_new_ok (cls : pyclass)
    (elementRes minCoord maxCoord periodic : pyval) (w w' : world N) (g : addr) :
  CartesianMeshGenerator_new extern cls elementRes minCoord maxCoord periodic w = (Ok g, w') ->
  ~ alive w g /\ extends w w'
  /\ class_of w' g = Some cls
  /\ attr w' g "_elementRes" = Some elementRes
  /\ attr w' g "_minCoord" = Some minCoord
  /\ attr w' g "_maxCoord" = Some maxCoord
  /\ attr w' g "_periodic" = Some periodic
  /\ attr w' g "_dim" = Some (VInt (Z.of_nat (length (items_of elementRes))))
  /\ attr w' g "_geometryMeshWeakref" = None.
Proof.
  unfold CartesianMeshGenerator_new. intros H.
  apply construct_ok in H as (w1 & Hf & He & Hc & Hnone & _ & H).
  apply CartesianMeshGenerator_init_ok in H as (Hu & H1 & H2 & H3 & H4 & H5 & _).
  split; [done|]. split; [by eapply extends_updates_fresh|].
  destruct Hu as [_ (Hcl & Hat & _)].
  split; [congruence|]. repeat (split; [done|]).
  rewrite Hat, Hnone; [done|].
  rewrite !elem_of_cons, elem_of_nil. intros H. repeat destruct H as [H|H]; done.
Qed.

Lemma upper_ascii_idem (c : ascii) :
  PyStr.upper_ascii (PyStr.upper_ascii c) = PyStr.upper_ascii c.
Proof. by destruct c as [[] [] [] [] [] [] [] []]. Qed.

Lemma upper_idem (s : string) : PyStr.upper (PyStr.upper s) = PyStr.upper s.
Proof. induction s as [|c s IH]; [done|]. cbn. by rewrite upper_ascii_idem, IH. Qed.

(** A mesh built on the live generator [g]. *)
Lemma FeMesh_new_ok (t : string) (g : addr) (w w' : world N) (m : addr) :
  alive w g ->
  FeMesh_new extern (VStr t) (VRef g) w = (Ok m, w') ->
  ~ alive w m /\ extends w w'
  /\ class_of w' m = Some FeMesh_cls
  /\ attr w' m "_elementType" = Some (VStr (PyStr.upper t))
  /\ attr w' m "_generator" = Some (VRef g)
  /\ isinstance w (VRef g) MeshGenerator_cls = true.
Proof.
  unfold FeMesh_new, FeMesh___init__. intros Hg H.
  apply construct_ok in H as (w1 & Hf & He & Hc & _ & _ & H).
  apply bind_ok in H as ([] & w2 & Hb & Hn).
  apply native_call_heap in Hn.
  apply FeMesh_body_ok in Hb as (s & g' & [= <-] & Hs & Hor & Hi & Hu & Ha1 & Ha2).
  destruct Hor as [[= <-]|[? _]]; [|done].
  assert (Hne : m <> g) by (by intros ->).
  rewrite bool_decide_eq_false_2 in Ha2 by done.
  split; [done|]. split; [|split; [|split; [|split]]].
  - eapply extends_updates_fresh; [done..|].
    eapply updates_trans; [done|]. by apply (updates_heap_eq _ []).
  - destruct Hu as [_ (Hcl & _)]. unfold class_of in *. rewrite Hn. congruence.
  - unfold attr in *. by rewrite Hn.
  - unfold attr in *. by rewrite Hn.
  - unfold isinstance in *. by rewrite He in Hi.
Qed.

End ConstructorFacts.


(** ** Registering the special sets *)

Section RegistrationFacts.

Context {N : Type}.

(** The first access makes the dictionary. *)
Lemma specialSets_run_first (self : addr) (w : world N) (o : pyobj) :
  heap w !! self = Some o ->
  ob_attrs o !! "_specialSets" = None ->
  let d := fresh (dom (heap w)) in
  FeMesh_specialSets self w
  = (Ok (VRef d),
     World (<[self := PyObj (ob_class o) (<["_specialSets" := VRef d]> (ob_attrs o))
                        (ob_items o)]>
              (<[d := PyObj _SpecialSetsDict_cls {["_femesh" := VWeakref self]} ∅]> (heap w)))
           (native w)).
Proof.
  intros Ho Hs d.
  assert (Hd : heap w !! d = None).
  { apply not_elem_of_dom. apply is_fresh. }
  assert (Hne : d <> self) by (intros E; rewrite E in Hd; congruence).
  unfold FeMesh_specialSets.
  rewrite bind_run. unfold hasattr. rewrite Ho, Hs.
  rewrite bool_decide_eq_false_2 by (by intros [? ?]).
  rewrite bind_run, bind_run, alloc_run. fold d. cbn beta iota.
  rewrite bind_run. erewrite setattr_run by apply lookup_insert_eq. cbn beta iota.
  erewrite setattr_run; last first.
  { cbn. rewrite !lookup_insert_ne by done. exact Ho. }
  cbn beta iota.
  erewrite getattr_run; last first.
  { rewrite attr_insert_eq. cbn. apply lookup_insert_eq. }
  cbn [heap native ob_class ob_attrs ob_items].
  rewrite insert_insert_eq, insert_empty. done.
Qed.

(** The first registration makes the dictionary. *)
Lemma register_first (self : addr) (key : string) (v : pyval) (w : world N) (o : pyobj) :
  heap w !! self = Some o ->
  ob_attrs o !! "_specialSets" = None ->
  let d := fresh (dom (heap w)) in
  specialSets_register self key v w
  = (Ok tt,
     World (<[d := PyObj _SpecialSetsDict_cls {["_femesh" := VWeakref self]} {[key := v]}]>
              (<[self := PyObj (ob_class o) (<["_specialSets" := VRef d]> (ob_attrs o))
                           (ob_items o)]> (heap w)))
           (native w)).
Proof.
  intros Ho Hs d.
  assert (Hd : heap w !! d = None).
  { apply not_elem_of_dom. apply is_fresh. }
  assert (Hne : d <> self) by (intros E; rewrite E in Hd; congruence).
  unfold specialSets_register.
  rewrite bind_run, (specialSets_run_first _ _ _ Ho Hs). fold d.
  erewrite dict_setitem_run; last first.
  { cbn. rewrite lookup_insert_ne by done. apply lookup_insert_eq. }
  cbn [heap native ob_class ob_attrs ob_items].
  rewrite (insert_insert_ne _ self d) by done.
  rewrite insert_insert_eq, insert_empty. done.
Qed.

(** Later registrations add to it. *)
Lemma register_next (self d : addr) (key : string) (v : pyval) (w : world N) (od : pyobj) :
  attr w self "_specialSets" = Some (VRef d) ->
  heap w !! d = Some od ->
  specialSets_register self key v w
  = (Ok tt,
     World (<[d := PyObj (ob_class od) (ob_attrs od) (<[key := v]> (ob_items od))]> (heap w))
           (native w)).
Proof.
  intros Hs Hd. unfold specialSets_register.
  rewrite bind_run, (specialSets_run _ _ _ Hs).
  by apply dict_setitem_run.
Qed.

(** The items of the dictionary once the special sets of a Cartesian mesh
    of dimension [dim] are registered. *)
Lemma specialSets_block_run (self : addr) (w : world N) (o : pyobj) (dim : pyval) :
  heap w !! self = Some o ->
  ob_attrs o !! "_specialSets" = None ->
  ob_attrs o !! "_dim" = Some dim ->
  let d := fresh (dom (heap w)) in
  let walls : gmap string pyval :=
    <["MinJ_VertexSet" := rule "MinJ_VertexSet"]>
      (<["MaxJ_VertexSet" := rule "MaxJ_VertexSet"]>
        (<["MinI_VertexSet" := rule "MinI_VertexSet"]>
          {["MaxI_VertexSet" := rule "MaxI_VertexSet"]})) in
  let walls3 : gmap string pyval :=
    if py_eq_int dim 3
    then <["MinK_VertexSet" := rule "MinK_VertexSet"]>
           (<["MaxK_VertexSet" := rule "MaxK_VertexSet"]> walls)
    else walls in
  FeMesh_Cartesian_specialSets self w
  = (Ok tt,
     World (<[d := PyObj _SpecialSetsDict_cls {["_femesh" := VWeakref self]}
                     (<["Empty" := rule "Empty"]> (<["AllWalls" := rule "AllWalls"]> walls3))]>
              (<[self := PyObj (ob_class o) (<["_specialSets" := VRef d]> (ob_attrs o))
                           (ob_items o)]> (heap w)))
           (native w)).
Proof.
  intros Ho Hs Hdim d walls walls3.
  assert (Hd : heap w !! d = None).
  { apply not_elem_of_dom. apply is_fresh. }
  assert (Hne : d <> self) by (intros E; rewrite E in Hd; congruence).
  assert (Hnext : forall key v items (h : gmap addr pyobj) (n : N) (oself : pyobj),
             ob_attrs oself !! "_specialSets" = Some (VRef d) ->
             specialSets_register self key v
               (World (<[d := PyObj _SpecialSetsDict_cls {["_femesh" := VWeakref self]} items]>
                         (<[self := oself]> h)) n)
             = (Ok tt,
                World (<[d := PyObj _SpecialSetsDict_cls {["_femesh" := VWeakref self]}
                                (<[key := v]> items)]> (<[self := oself]> h)) n)).
  { intros key v items h n oself Hos.
    erewrite register_next; [| |cbn; apply lookup_insert_eq].
    - cbn [heap native ob_class ob_attrs ob_items]. by rewrite insert_insert_eq.
    - unfold attr. cbn. rewrite lookup_insert_ne by done.
      rewrite lookup_insert_eq. exact Hos. }
  unfold FeMesh_Cartesian_specialSets, MeshGenerator_dim.
  rewrite bind_run, (register_first _ _ _ _ _ Ho Hs). fold d. cbn beta iota.
  rewrite bind_run, Hnext by apply lookup_insert_eq. cbn beta iota.
  rewrite bind_run, Hnext by apply lookup_insert_eq. cbn beta iota.
  rewrite bind_run, Hnext by apply lookup_insert_eq. cbn beta iota.
  rewrite bind_run. erewrite getattr_run; last first.
  { unfold attr. cbn. rewrite lookup_insert_ne by done. rewrite lookup_insert_eq. cbn.
    rewrite lookup_insert_ne by done. exact Hdim. }
  cbn beta iota. rewrite bind_run.
  subst walls3. destruct (py_eq_int dim 3).
  - rewrite bind_run, Hnext by apply lookup_insert_eq. cbn beta iota.
    rewrite Hnext by apply lookup_insert_eq. cbn beta iota.
    rewrite bind_run, Hnext by apply lookup_insert_eq. cbn beta iota.
    by rewrite Hnext by apply lookup_insert_eq.
  - rewrite ret_run.
    rewrite bind_run, Hnext by apply lookup_insert_eq. cbn beta iota.
    by rewrite Hnext by apply lookup_insert_eq.
Qed.

(** The same, as an observer of the heap sees it. *)
Lemma specialSets_block_ok (self : addr) (w : world N) (dim : pyval) :
  alive w self ->
  attr w self "_specialSets" = None ->
  attr w self "_dim" = Some dim ->
  exists d w',
    FeMesh_Cartesian_specialSets self w = (Ok tt, w')
    /\ ~ alive w d /\ d <> self
    /\ (forall b, alive w b -> b <> self -> heap w' !! b = heap w !! b)
    /\ same_attrs_except self ["_specialSets"] w w'
    /\ attr w' self "_specialSets" = Some (VRef d)
    /\ class_of w' d = Some _SpecialSetsDict_cls
    /\ attr w' d "_femesh" = Some (VWeakref self)
    /\ (forall k, item w' d k = Cartesian_rules (py_eq_int dim 3) !! k).
Proof.
  intros [o Ho] Hs Hdim. unfold attr in Hs, Hdim. rewrite Ho in Hs, Hdim. cbn in Hs, Hdim.
  set (d := fresh (dom (heap w))).
  assert (Hd : heap w !! d = None).
  { apply not_elem_of_dom. apply is_fresh. }
  assert (Hne : d <> self) by (intros E; rewrite E in Hd; congruence).
  exists d. eexists. split; [by apply (specialSets_block_run _ _ _ _ Ho Hs Hdim)|].
  fold d. split; [by intros [? ?]; congruence|]. split; [done|].
  split; [|split; [|split; [|split; [|split]]]].
  - intros b [ob Hb] Hbs. cbn. rewrite !lookup_insert_ne; [done..|]. congruence.
  - unfold same_attrs_except, class_of, attr, item. cbn.
    rewrite lookup_insert_ne, lookup_insert_eq, Ho by done. cbn.
    split; [done|]. split; [|done].
    intros n Hn. apply lookup_insert_ne. intros <-. apply Hn. by left.
  - unfold attr. cbn. rewrite lookup_insert_ne, lookup_insert_eq by done. cbn.
    apply lookup_insert_eq.
  - unfold class_of. cbn. by rewrite lookup_insert_eq.
  - unfold attr. cbn. by rewrite lookup_insert_eq.
  - intros k. unfold item. cbn. rewrite lookup_insert_eq. cbn.
    unfold Cartesian_rules. by destruct (py_eq_int dim 3).
Qed.

End RegistrationFacts.

(** ** The constructor of [FeMesh_Cartesian] *)

Section CartesianMeshFacts.

Context {N : Type} (extern : ncall -> N -> result unit * N).

Lemma extends_item (w w' : world N) (b : addr) (k : string) :
  extends w w' -> alive w b -> item w' b k = item w b k.
Proof. intros H Hb. unfold item. by rewrite H. Qed.

Lemma secondary_generator_heap (w w' : world N) (self g : addr) (t : string)
    (elementRes minCoord maxCoord periodic : pyval) :
  heap w' !! g = heap w !! g ->
  secondary_generator w self g t elementRes minCoord maxCoord periodic ->
  secondary_generator w' self g t elementRes minCoord maxCoord periodic.
Proof.
  intros Hh. unfold secondary_generator, class_of, attr. by rewrite Hh.
Qed.

(** The initialisation of the primary mesh: [FeMesh.__init__] followed, by
    the method resolution order, by [CartesianMeshGenerator.__init__]. *)
Lemma primary_init_ok (self : addr) (e0 elementRes minCoord maxCoord periodic : pyval)
    (w w' : world N) :
  FeMesh___init__ extern
    (CartesianMeshGenerator___init__ extern self elementRes minCoord maxCoord periodic)
    self e0 VNone w = (Ok tt, w') ->
  updates self ["_elementType"; "_generator"; "_elementRes"; "_minCoord"; "_maxCoord";
                "_dim"; "_periodic"] w w'
  /\ alive w self
  /\ attr w' self "_dim" = Some (VInt (Z.of_nat (length (items_of elementRes))))
  /\ cartesian_checks elementRes minCoord maxCoord periodic = Ok tt.
Proof.
  unfold FeMesh___init__. intros H.
  apply bind_ok in H as ([] & w1 & Hb & H).
  apply FeMesh_body_ok in Hb as (s & g & _ & _ & _ & Hi & Hu1 & _ & _).
  apply CartesianMeshGenerator_init_ok in H as (Hu2 & _ & _ & _ & _ & Hdim & Hchk).
  split; [by apply (updates_trans _ _ _ _ _ _ Hu1 Hu2)|].
  split; [|done].
  destruct Hu1 as [_ (Hc & _)]. 
  destruct (heap w !! self) as [o|] eqn:Ho; [by exists o|].
  exfalso. destruct Hu2 as [_ (Hc2 & _)].
  unfold attr in Hdim. unfold class_of in *. rewrite Ho in Hc. cbn in Hc.
  destruct (heap w1 !! self); [done|]. cbn in Hc2.
  destruct (heap w' !! self); done.
Qed.

(** The block that builds the sub-mesh, when it returns. *)
Lemma secondary_block_ok (self : addr) (l : list pyval)
    (elementRes minCoord maxCoord periodic : pyval) (w w' : world N) :
  FeMesh_Cartesian_secondary extern self l elementRes minCoord maxCoord periodic w
  = (Ok tt, w') ->
  (forall b, alive w b -> b <> self -> heap w' !! b = heap w !! b)
  /\ same_attrs_except self ["_secondaryMesh"] w w'
  /\ (length l <> 2 -> attr w' self "_secondaryMesh" = Some VNone)
  /\ (length l = 2 ->
      exists e1 t m g,
        l !! 1 = Some e1 /\ py_upper e1 = Ok t
        /\ attr w' self "_secondaryMesh" = Some (VRef m)
        /\ m <> self /\ g <> self /\ ~ alive w m /\ ~ alive w g
        /\ class_of w' m = Some FeMesh_cls
        /\ attr w' m "_elementType" = Some (VStr t)
        /\ attr w' m "_generator" = Some (VRef g)
        /\ secondary_generator w' self g t elementRes minCoord maxCoord periodic).
Proof.
  unfold FeMesh_Cartesian_secondary. intros H.
  apply bind_ok in H as ([] & w1 & Hs1 & H).
  apply setattr_ok in Hs1 as (Hu1 & Ha1 & _).
  assert (Hself1 : alive w1 self) by (by eapply attr_alive).
  assert (Hself : alive w self).
  { destruct Hu1 as [_ (Hc & _)]. unfold alive, class_of in *.
    destruct Hself1 as [o1 Ho1]. rewrite Ho1 in Hc.
    destruct (heap w !! self); [eauto|done]. }
  destruct (Nat.eqb_spec (length l) 2) as [Hlen|Hlen].
  - apply bind_ok in H as (e1 & w2 & He1 & H). apply lift_ok in He1 as [He1 ->].
    apply bind_ok in H as (t & w2 & Ht & H). apply lift_ok in Ht as [Ht ->].
    apply bind_ok in H as (g & w2 & Hg & H).
    apply bind_ok in H as (m & w3 & Hm & H).
    apply setattr_ok in H as (Hu3 & Ha3 & _).
    assert (Hgen : ~ alive w1 g /\ extends w1 w2
                   /\ secondary_generator w2 self g t elementRes minCoord maxCoord periodic).
    { unfold supported in Hg. cbn in Hg.
      destruct (String.eqb_spec t "Q1") as [->|_].
      { apply CartesianMeshGenerator_new_ok in Hg
          as (Hf & He & Hc & Hr1 & Hr2 & Hr3 & Hr4 & _ & Hr5).
        split; [done|]. split; [done|]. left. done. }
      destruct (String.eqb_spec t "DQ1") as [->|_].
      { eapply (templated_new_ok extern _ (checked_TemplatedMeshGenerator___init__ extern))
          in Hg as (Hf & He & Hc & Hr & _);
          [|intros ? ? ?; apply checked_TemplatedMeshGenerator_init_ok|done].
        split; [done|]. split; [done|]. right. left. done. }
      destruct (String.eqb_spec t "DPC1") as [->|_].
      { eapply (templated_new_ok extern _ (checked_TemplatedMeshGenerator___init__ extern))
          in Hg as (Hf & He & Hc & Hr & _);
          [|intros ? ? ?; apply checked_TemplatedMeshGenerator_init_ok|done].
        split; [done|]. split; [done|]. right. right. left. done. }
      destruct (String.eqb_spec t "DQ0") as [->|_]; [|done].
      eapply (templated_new_ok extern _ (TemplatedMeshGenerator___init__ extern))
        in Hg as (Hf & He & Hc & Hr & _); [|by intros|done].
      split; [done|]. split; [done|]. right. right. right. done. }
    destruct Hgen as (Hfg & He2 & Hsg).
    assert (Hg2 : alive w2 g).
    { destruct Hsg as [(_ & Hc & _)|[(_ & Hc & _)|[(_ & Hc & _)|(_ & Hc & _)]]];
        by eapply class_alive. }
    apply FeMesh_new_ok in Hm as (Hfm & He3 & Hcm & Hem & Hgm & _); [|done].
    assert (Hself2 : alive w2 self) by (by eapply extends_alive).
    assert (Hself3 : alive w3 self) by (by eapply extends_alive).
    assert (Hms : m <> self) by (by intros ->).
    assert (Hgs : g <> self) by (by intros ->).
    assert (Hup : PyStr.upper t = t).
    { destruct e1; try done. injection Ht as <-. apply upper_idem. }
    rewrite Hup in Hem.
    split; [|split; [|split]].
    + intros b Hb Hbs.
      rewrite (updates_other _ _ _ _ _ Hbs Hu3).
      assert (Hb1 : alive w1 b) by (by eapply updates_alive).
      rewrite He3 by (by eapply extends_alive).
      rewrite He2 by done. by apply (updates_other _ _ _ _ _ Hbs Hu1).
    + destruct Hu1 as [_ (Hc1 & Hat1 & Hi1)]. destruct Hu3 as [_ (Hc3 & Hat3 & Hi3)].
      split; [|split].
      * rewrite Hc3, (extends_class _ _ _ He3 Hself2), (extends_class _ _ _ He2 Hself1).
        done.
      * intros n Hn.
        rewrite Hat3, (extends_attr _ _ _ _ He3 Hself2), (extends_attr _ _ _ _ He2 Hself1);
          auto.
      * intros k.
        rewrite Hi3, (extends_item _ _ _ _ He3 Hself2), (extends_item _ _ _ _ He2 Hself1).
        done.
    + done.
    + intros _. exists e1, t, m, g.
      assert (Hm' : heap w' !! m = heap w3 !! m) by (by apply (updates_other _ _ _ _ _ Hms Hu3)).
      assert (Hg' : heap w' !! g = heap w2 !! g).
      { rewrite (updates_other _ _ _ _ _ Hgs Hu3). by apply He3. }
      split; [by apply py_index_lookup|]. split; [done|]. split; [done|].
      split; [done|]. split; [done|].
      split. { intros Hal. apply Hfm. eapply extends_alive; [done|].
               by eapply updates_alive. }
      split. { intros Hal. apply Hfg. by eapply updates_alive. }
      unfold class_of, attr in *. rewrite Hm'.
      split; [done|]. split; [done|]. split; [done|].
      by eapply secondary_generator_heap.
  - apply ret_ok in H as [_ ->].
    split; [|split; [|split]].
    + intros b _ Hb. by apply (updates_other _ _ _ _ _ Hb Hu1).
    + by destruct Hu1.
    + done.
    + done.
Qed.

Lemma py_eq_int_dim (n : nat) : py_eq_int (VInt (Z.of_nat n)) 3 = (n =? 3)%nat.
Proof.
  unfold py_eq_int. cbn. rewrite !Z.mul_1_r.
  destruct (Nat.eqb_spec n 3) as [->|Hn]; [done|].
  apply andb_false_iff.
  destruct (Z.leb_spec 3 (Z.of_nat n)); [|by left].
  right. apply Z.leb_gt. lia.
Qed.

(** What a successful construction of a Cartesian mesh leaves in the
    heap. *)
Lemma FeMesh_Cartesian_new_ok (elementType elementRes minCoord maxCoord periodic : pyval)
    (w w' : world N) (self : addr) :
  FeMesh_Cartesian_new extern elementType elementRes minCoord maxCoord periodic w
  = (Ok self, w') ->
  let l := ElementTypes.elementType_items elementType in
  let periodic' := periodic_or_default periodic elementRes in
  ~ alive w self
  /\ is_raise (ElementTypes.__new__ elementType) = false
  /\ cartesian_checks elementRes minCoord maxCoord periodic' = Ok tt
  /\ class_of w' self = Some FeMesh_Cartesian_cls
  /\ attr w' self "_dim" = Some (VInt (Z.of_nat (length (items_of elementRes))))
  /\ (exists d, attr w' self "_specialSets" = Some (VRef d) /\ d <> self
                /\ class_of w' d = Some _SpecialSetsDict_cls
                /\ attr w' d "_femesh" = Some (VWeakref self)
                /\ forall k, item w' d k
                             = Cartesian_rules (length (items_of elementRes) =? 3)%nat !! k)
  /\ (length l <> 2 -> attr w' self "_secondaryMesh" = Some VNone)
  /\ (length l = 2 ->
      exists e1 t m g,
        l !! 1 = Some e1 /\ py_upper e1 = Ok t
        /\ attr w' self "_secondaryMesh" = Some (VRef m)
        /\ m <> self /\ g <> self
        /\ class_of w' m = Some FeMesh_cls
        /\ attr w' m "_elementType" = Some (VStr t)
        /\ attr w' m "_generator" = Some (VRef g)
        /\ secondary_generator w' self g t elementRes minCoord maxCoord periodic').
Proof.
  intros H l periodic'. unfold FeMesh_Cartesian_new in H.
  apply bind_ok in H as (ov & w0 & Hnew & H). apply lift_ok in Hnew as [Hnew ->].
  apply construct_ok in H as (w1 & Hf & He & Hc & Hnone & _ & H).
  unfold FeMesh_Cartesian___init__ in H.
  apply bind_ok in H as (pa & w2 & Hp & H). cbn zeta in H. fold l in H.
  apply bind_ok in H as (e0 & w3 & He0 & H). apply lift_ok in He0 as [He0 ->].
  apply bind_ok in H as ([] & wA & HA & H).
  apply bind_ok in H as ([] & wA' & Hsetup & H).
  apply bind_ok in H as ([] & wB & HB & H).
  assert (Hw2 : w2 = w1).
  { destruct (is_none periodic).
    - apply bind_ok in Hp as (n & w4 & Hn & Hp). apply lift_ok in Hn as [_ ->].
      by apply ret_ok in Hp as [_ ->].
    - by apply ret_ok in Hp as [_ ->]. }
  subst w2.
  apply primary_init_ok in HA as (HuA & Hself1 & HdimA & Hchk).
  assert (Hpa : pa = periodic').
  { unfold periodic', periodic_or_default. destruct (is_none periodic).
    - apply bind_ok in Hp as (n & w4 & Hn & Hp). apply lift_ok in Hn as [Hn ->].
      apply ret_ok in Hp as [-> _].
      assert (Hlt : is_list_or_tuple elementRes = true).
      { unfold cartesian_checks, CartesianChecks.check_elementRes in Hchk.
        by destruct (is_list_or_tuple elementRes). }
      destruct elementRes; try done; by injection Hn as <-.
    - by apply ret_ok in Hp as [-> _]. }
  subst pa. clear Hp.
  apply native_call_heap in Hsetup.
  assert (HuA' : updates self ["_elementType"; "_generator"; "_elementRes"; "_minCoord";
                               "_maxCoord"; "_dim"; "_periodic"] w1 wA').
  { destruct HuA as [Ho (Hcl & Hat & Hit)].
    unfold updates, same_others, same_attrs_except, class_of, attr, item in *.
    rewrite Hsetup. done. }
  assert (HdimA' : attr wA' self "_dim"
                   = Some (VInt (Z.of_nat (length (items_of elementRes))))).
  { unfold attr in *. by rewrite Hsetup. }
  clear HuA HdimA Hsetup.
  assert (HselfA : alive wA' self) by (by eapply attr_alive).
  apply secondary_block_ok in HB as (HoB & (HcB & HatB & HitB) & Hone & Htwo).
  assert (HselfB : alive wB self).
  { unfold alive, class_of in *. destruct HselfA as [oa Hoa]. rewrite Hoa in HcB.
    destruct (heap wB !! self); [eauto|done]. }
  assert (HnoneB : attr wB self "_specialSets" = None).
  { rewrite HatB by (rewrite list_elem_of_singleton; done).
    destruct HuA' as [_ (_ & Hat & _)]. rewrite Hat; [done|].
    rewrite !elem_of_cons, elem_of_nil. intros E. repeat destruct E as [E|E]; done. }
  assert (HdimB : attr wB self "_dim"
                  = Some (VInt (Z.of_nat (length (items_of elementRes))))).
  { rewrite HatB by (rewrite list_elem_of_singleton; done). done. }
  destruct (specialSets_block_ok self wB _ HselfB HnoneB HdimB)
    as (d & w'' & Hrun & Hfd & Hds & HoC & (HcC & HatC & HitC) & Hss & Hcd & Hfm & Hitems).
  rewrite Hrun in H. injection H as <-.
  split; [done|]. split; [by rewrite Hnew|]. split; [done|].
  split; [|split; [|split; [|split]]].
  - rewrite HcC, HcB. destruct HuA' as [_ (Hcl & _)]. by rewrite Hcl.
  - rewrite HatC by (rewrite list_elem_of_singleton; done). done.
  - exists d. rewrite <- py_eq_int_dim. done.
  - intros Hl. rewrite HatC by (rewrite list_elem_of_singleton; done). auto.
  - intros Hl. destruct (Htwo Hl)
      as (e1 & t & m & g & H1 & H2 & H3 & Hms & Hgs & Hfm' & Hfg & H4 & H5 & H6 & H7).
    exists e1, t, m, g.
    assert (Hm : heap w'' !! m = heap wB !! m).
    { apply HoC; [|done]. by eapply class_alive. }
    assert (Hg : heap w'' !! g = heap wB !! g).
    { apply HoC; [|done].
      destruct H7 as [(_ & Hcg & _)|[(_ & Hcg & _)|[(_ & Hcg & _)|(_ & Hcg & _)]]];
        by eapply class_alive. }
    split; [done|]. split; [done|].
    split; [by rewrite HatC by (rewrite list_elem_of_singleton; done)|].
    split; [done|]. split; [done|].
    unfold class_of, attr in *. rewrite Hm.
    split; [done|]. split; [done|]. split; [done|].
    by eapply secondary_generator_heap.
Qed.

End CartesianMeshFacts.

Section AcceptedTypes.

Import ElementTypes.

Lemma new_ok_length (elementType : pyval) :
  is_raise (__new__ elementType) = false ->
  length (elementType_items elementType) = 1
  \/ length (elementType_items elementType) = 2.
Proof.
  unfold __new__.
  destruct (is_str elementType || is_list_or_tuple elementType); [|done].
  cbn [negb raise_if mbind result_bind rbind].
  destruct (Nat.ltb_spec 2 (length (elementType_items elementType))) as [|Hle]; [done|].
  cbn [negb raise_if mbind result_bind rbind].
  destruct (check_elTypes (elementType_items elementType)) as [[]|]; [|done].
  cbn [negb raise_if mbind result_bind rbind].
  destruct (elementType_items elementType) as [|e0 [|e1 [|e2 l]]]; cbn in *;
    [done|by left|by right|lia].
Qed.

End AcceptedTypes.

(** The sub-mesh in terms of the element-type list the constructor works
    with (for a string, what [_strtolist] returns).  After a construction
    that returns the mesh, [subMesh] is [None] when the list has one
    element type.  When it has two it is a [FeMesh] whose element type is
    the second one and whose generator is not the primary mesh: for Q1 a
    [LinearCartesianGenerator] with the resolution, corners and periodicity
    of the primary mesh, for DQ1, DPC1 and DQ0 a [dQ1Generator],
    [LinearInnerGenerator] or [ConstantGenerator] that holds a weak
    reference to the primary mesh. *)
Lemma subMesh_by_element_type_list {N : Type} (extern : ncall -> N -> result unit * N)
    (elementType elementRes minCoord maxCoord periodic : pyval)
    (w w' : world N) (self : addr) :
  FeMesh_Cartesian_new extern elementType elementRes minCoord maxCoord periodic w
  = (Ok self, w') ->
  let l := ElementTypes.elementType_items elementType in
  (length l = 1 \/ length l = 2)
  /\ (length l = 1 -> FeMesh_Cartesian_subMesh self w' = (Ok VNone, w'))
  /\ (length l = 2 ->
      exists e1 t m g,
        l !! 1 = Some e1 /\ py_upper e1 = Ok t
        /\ FeMesh_Cartesian_subMesh self w' = (Ok (VRef m), w')
        /\ class_of w' m = Some FeMesh_cls
        /\ FeMesh_elementType m w' = (Ok (VStr t), w')
        /\ FeMesh_generator m w' = (Ok (VRef g), w')
        /\ m <> self /\ g <> self
        /\ secondary_generator w' self g t elementRes minCoord maxCoord
             (periodic_or_default periodic elementRes)).
Proof.
  intros H l.
  apply FeMesh_Cartesian_new_ok in H
    as (_ & Hnew & _ & _ & _ & _ & Hone & Htwo).
  fold l in Hone, Htwo.
  split; [by apply new_ok_length|]. split.
  - intros Hl. unfold FeMesh_Cartesian_subMesh. apply getattr_run, Hone. lia.
  - intros Hl.
    destruct (Htwo Hl) as (e1 & t & m & g & H1 & H2 & H3 & Hm & Hg & H4 & H5 & H6 & H7).
    exists e1, t, m, g. split; [done|]. split; [done|].
    split; [by apply getattr_run|]. split; [done|].
    split; [by apply getattr_run|]. split; [by apply generator_get_strong|]. done.
Qed.

(** The constructor's default, ["Q1/dQ0"], on a 2 x 2 mesh. *)
Lemma subMesh_by_element_type_list_default :
  let run :=
    FeMesh_Cartesian_new extern_ok (VStr "Q1/dQ0") (VTuple [VInt 2; VInt 2])
      (VTuple [VFloat (Ffin 0 0); VFloat (Ffin 0 0)])
      (VTuple [VFloat (Ffin 1 0); VFloat (Ffin 1 0)]) VNone empty_world in
  let w' := snd run in
  exists e1 t m g,
    ElementTypes.elementType_items (VStr "Q1/dQ0") !! 1 = Some e1 /\ py_upper e1 = Ok t
    /\ FeMesh_Cartesian_subMesh 0 w' = (Ok (VRef m), w')
    /\ class_of w' m = Some FeMesh_cls
    /\ FeMesh_elementType m w' = (Ok (VStr t), w')
    /\ FeMesh_generator m w' = (Ok (VRef g), w')
    /\ m <> 0 /\ g <> 0
    /\ secondary_generator w' 0 g t (VTuple [VInt 2; VInt 2])
         (VTuple [VFloat (Ffin 0 0); VFloat (Ffin 0 0)])
         (VTuple [VFloat (Ffin 1 0); VFloat (Ffin 1 0)])
         (periodic_or_default VNone (VTuple [VInt 2; VInt 2])).
Proof.
  intros run w'.
  refine (proj2 (proj2 (subMesh_by_element_type_list extern_ok (VStr "Q1/dQ0")
                          (VTuple [VInt 2; VInt 2])
                          (VTuple [VFloat (Ffin 0 0); VFloat (Ffin 0 0)])
                          (VTuple [VFloat (Ffin 1 0); VFloat (Ffin 1 0)])
                          VNone empty_world w' 0 _)) _).
  - vm_compute. reflexivity.
  - vm_compute. reflexivity.
Defined.

(** C9 (the code departs from it).  The string ["Q1/dQ1"] asks for a linear
    mesh with a discontinuous-linear sub-mesh, and the construction returns
    a mesh whose [subMesh] is [None]: [_strtolist] removes every "Q1" from
    the string, the one inside "DQ1" too, and hands a single element type
    to the constructor.  The same request written as the pair
    [("Q1", "dQ1")], or as the string ["Q2/dQ1"], builds the DQ1 sub-mesh
    on a [dQ1Generator]. *)
Theorem subMesh_lost_for_Q1_dQ1 :
  let new := fun elementType =>
    FeMesh_Cartesian_new extern_ok elementType (VTuple [VInt 2; VInt 2])
      (VTuple [VFloat (Ffin 0 0); VFloat (Ffin 0 0)])
      (VTuple [VFloat (Ffin 1 0); VFloat (Ffin 1 0)]) VNone empty_world in
  let has_dQ1_subMesh := fun run : result addr * world unit =>
    fst run = Ok 0
    /\ fst (FeMesh_Cartesian_subMesh 0 (snd run)) = Ok (VRef 2)
    /\ fst (FeMesh_elementType 2 (snd run)) = Ok (VStr "DQ1")
    /\ fst (FeMesh_generator 2 (snd run)) = Ok (VRef 1)
    /\ class_of (snd run) 1 = Some dQ1Generator_cls in
  ElementTypes._strtolist "Q1/dQ1" = ["Q1"]
  /\ fst (new (VStr "Q1/dQ1")) = Ok 0
  /\ fst (FeMesh_Cartesian_subMesh 0 (snd (new (VStr "Q1/dQ1")))) = Ok VNone
  /\ has_dQ1_subMesh (new (VTuple [VStr "Q1"; VStr "dQ1"]))
  /\ has_dQ1_subMesh (new (VStr "Q2/dQ1")).
Proof. vm_compute. repeat split. Qed.

(** C7.  Whatever the periodicity flags, a construction that returns the
    mesh leaves the wall sets of the I and J axes (and of the K axis in
    three dimensions) in the registry of the mesh: the constructor
    registers them and removes none. *)
Theorem periodic_walls_stay_registered {N : Type} (extern : ncall -> N -> result unit * N)
    (elementType elementRes minCoord maxCoord periodic : pyval)
    (w w' : world N) (self : addr) :
  FeMesh_Cartesian_new extern elementType elementRes minCoord maxCoord periodic w
  = (Ok self, w') ->
  exists d,
    FeMesh_specialSets self w' = (Ok (VRef d), w')
    /\ item w' d "MinI_VertexSet" = Some (rule "MinI_VertexSet")
    /\ item w' d "MaxI_VertexSet" = Some (rule "MaxI_VertexSet")
    /\ item w' d "MinJ_VertexSet" = Some (rule "MinJ_VertexSet")
    /\ item w' d "MaxJ_VertexSet" = Some (rule "MaxJ_VertexSet")
    /\ (length (items_of elementRes) = 3 ->
        item w' d "MinK_VertexSet" = Some (rule "MinK_VertexSet")
        /\ item w' d "MaxK_VertexSet" = Some (rule "MaxK_VertexSet")).
Proof.
  intros H.
  apply FeMesh_Cartesian_new_ok in H
    as (_ & _ & _ & _ & _ & (d & Hd & _ & _ & _ & Hitems) & _).
  exists d. split; [by apply specialSets_run|].
  rewrite !Hitems.
  split; [by destruct (length (items_of elementRes) =? 3)%nat|].
  split; [by destruct (length (items_of elementRes) =? 3)%nat|].
  split; [by destruct (length (items_of elementRes) =? 3)%nat|].
  split; [by destruct (length (items_of elementRes) =? 3)%nat|].
  intros ->. by split.
Qed.

(** A mesh periodic along its first axis. *)
Lemma periodic_walls_stay_registered_witness :
  let run :=
    FeMesh_Cartesian_new extern_ok (VStr "Q1") (VTuple [VInt 2; VInt 2])
      (VTuple [VFloat (Ffin 0 0); VFloat (Ffin 0 0)])
      (VTuple [VFloat (Ffin 1 0); VFloat (Ffin 1 0)])
      (VList [VBool true; VBool false]) empty_world in
  let w' := snd run in
  exists d,
    FeMesh_specialSets 0 w' = (Ok (VRef d), w')
    /\ item w' d "MinI_VertexSet" = Some (rule "MinI_VertexSet")
    /\ item w' d "MaxI_VertexSet" = Some (rule "MaxI_VertexSet")
    /\ item w' d "MinJ_VertexSet" = Some (rule "MinJ_VertexSet")
    /\ item w' d "MaxJ_VertexSet" = Some (rule "MaxJ_VertexSet")
    /\ (length (items_of (VTuple [VInt 2; VInt 2])) = 3 ->
        item w' d "MinK_VertexSet" = Some (rule "MinK_VertexSet")
        /\ item w' d "MaxK_VertexSet" = Some (rule "MaxK_VertexSet")).
Proof.
  intros run w'.
  apply (periodic_walls_stay_registered extern_ok (VStr "Q1") (VTuple [VInt 2; VInt 2])
           (VTuple [VFloat (Ffin 0 0); VFloat (Ffin 0 0)])
           (VTuple [VFloat (Ffin 1 0); VFloat (Ffin 1 0)])
           (VList [VBool true; VBool false]) empty_world w' 0).
  vm_compute. reflexivity.
Defined.

(** * Further properties of the module *)

(** ** What the Cartesian constructor accepts *)

Section AcceptedConfigs.

Import CartesianChecks.

Lemma check_elementRes_items_ok (l : list pyval) :
  check_elementRes_items l = Ok tt <-> Forall good_entry l.
Proof.
  induction l as [|x l IH]; cbn; [by split|].
  rewrite Forall_cons, <- IH. unfold good_entry.
  destruct (is_int x); cbn; [|split; [done|by intros [[? _] _]]].
  destruct (Z.ltb_spec (int_value x) 1).
  - split; [done|]. intros [[_ ?] _]. lia.
  - split; [|by intros [_ ?]]. intros ?. split; [|done]. split; [done|lia].
Qed.

Lemma check_coord_items_ok (field : string) (l : list pyval) :
  check_coord_items field l = Ok tt <-> Forall (fun v => is_int_or_float v = true) l.
Proof.
  induction l as [|x l IH]; cbn; [by split|].
  rewrite Forall_cons, <- IH.
  destruct (is_int_or_float x); cbn; split; try done; by intros [? ?].
Qed.

Lemma check_periodic_items_ok (l : list pyval) :
  check_periodic_items l = Ok tt <-> Forall (fun v => is_bool v = true) l.
Proof.
  induction l as [|x l IH]; cbn; [by split|].
  rewrite Forall_cons, <- IH.
  destruct (is_bool x); cbn; split; try done; by intros [? ?].
Qed.

Lemma check_min_lt_max_ok (mn mx : list pyval) (n : nat) :
  forall k, k + n <= length mn -> k + n <= length mx ->
    check_min_lt_max mn mx (seq k n) = Ok tt
    <-> forall i a b, k <= i < k + n -> mn !! i = Some a -> mx !! i = Some b ->
          py_ge a b = Ok false.
Proof.
  induction n as [|n IH]; intros k H1 H2; cbn [seq check_min_lt_max].
  { split; [|done]. intros _ i a b Hi. lia. }
  destruct (lookup_lt_is_Some_2 mn k ltac:(lia)) as [a Ha].
  destruct (lookup_lt_is_Some_2 mx k ltac:(lia)) as [b Hb].
  unfold py_index. rewrite Ha, Hb. cbn.
  split.
  - intros Hc i a' b' Hi Ha' Hb'.
    destruct (py_ge a b) as [[]|] eqn:Hge; try done. cbn in Hc.
    destruct (decide (i = k)) as [->|Hne]; [congruence|].
    apply (proj1 (IH (S k) ltac:(lia) ltac:(lia)) Hc i); [lia|done..].
  - intros Hall. rewrite (Hall k a b) by (done || lia). cbn.
    apply IH; [lia..|]. intros i a' b' Hi. apply Hall. lia.
Qed.

Lemma cartesian_checks_valid (elementRes minCoord maxCoord periodic : pyval) :
  cartesian_checks elementRes minCoord maxCoord periodic = Ok tt
  <-> valid_config elementRes minCoord maxCoord periodic.
Proof.
  unfold cartesian_checks, check_elementRes, check_coord, check_periodic. split.
  - destruct (is_list_or_tuple elementRes) eqn:E1; [|done]. cbn.
    destruct (check_elementRes_items _) as [[]|] eqn:E2; [|done]. cbn.
    case_bool_decide as E3; [|done]. cbn.
    destruct (is_list_or_tuple minCoord) eqn:E4; [|done]. cbn.
    destruct (check_coord_items _ (items_of minCoord)) as [[]|] eqn:E5; [|done]. cbn.
    destruct (Nat.eqb_spec (length (items_of minCoord)) (length (items_of elementRes)))
      as [E6|]; [|done]. cbn.
    destruct (is_list_or_tuple maxCoord) eqn:E7; [|done]. cbn.
    destruct (check_coord_items _ (items_of maxCoord)) as [[]|] eqn:E8; [|done]. cbn.
    destruct (Nat.eqb_spec (length (items_of maxCoord)) (length (items_of elementRes)))
      as [E9|]; [|done]. cbn.
    destruct (is_list_or_tuple periodic) eqn:E10; [|done]. cbn.
    destruct (check_periodic_items _) as [[]|] eqn:E11; [|done]. cbn.
    rewrite Nat.eqb_refl. cbn. intros E12.
    assert (H1 : 0 + length (items_of elementRes) <= length (items_of minCoord)) by lia.
    assert (H2 : 0 + length (items_of elementRes) <= length (items_of maxCoord)) by lia.
    pose proof (proj1 (check_min_lt_max_ok _ _ _ 0 H1 H2) E12) as E13.
    split; try done.
    + by apply check_elementRes_items_ok.
    + apply elem_of_cons in E3 as [E3|E3]; [by left|].
      apply list_elem_of_singleton in E3. by right.
    + by eapply check_coord_items_ok.
    + by eapply check_coord_items_ok.
    + by apply check_periodic_items_ok.
    + intros i a b Ha Hb. apply (E13 i); [|done..].
      apply lookup_lt_Some in Ha. lia.
  - intros [].
    rewrite vc_res_seq0. cbn.
    rewrite (proj2 (check_elementRes_items_ok _) vc_res_items0). cbn.
    rewrite bool_decide_eq_true_2; last first.
    { destruct vc_res_len0 as [->| ->]; [by left|by right; left]. }
    cbn. rewrite vc_min_seq0. cbn.
    rewrite (proj2 (check_coord_items_ok _ _) vc_min_items0). cbn.
    rewrite vc_min_len0, Nat.eqb_refl. cbn.
    rewrite vc_max_seq0. cbn.
    rewrite (proj2 (check_coord_items_ok _ _) vc_max_items0). cbn.
    rewrite vc_max_len0, Nat.eqb_refl. cbn.
    rewrite vc_per_seq0. cbn.
    rewrite (proj2 (check_periodic_items_ok _) vc_per_items0). cbn.
    rewrite ?Nat.eqb_refl. cbn.
    assert (H1 : 0 + length (items_of elementRes) <= length (items_of minCoord)) by lia.
    assert (H2 : 0 + length (items_of elementRes) <= length (items_of maxCoord)) by lia.
    apply (proj2 (check_min_lt_max_ok _ _ _ 0 H1 H2)).
    intros i a b _. apply vc_min_lt_max0.
Qed.

End AcceptedConfigs.

(** X1.  The checks of [CartesianMeshGenerator.__init__] pass exactly on the
    valid configurations: lists or tuples, positive integers in an
    [elementRes] of length 2 or 3, numbers in corners of that length,
    booleans in [periodic] (of any length), and [minCoord[i] >= maxCoord[i]]
    false on every axis. *)
Theorem cartesian_checks_accept_exactly_valid
    (elementRes minCoord maxCoord periodic : pyval) :
  cartesian_checks elementRes minCoord maxCoord periodic = Ok tt
  <-> valid_config elementRes minCoord maxCoord periodic.
Proof. apply cartesian_checks_valid. Qed.

Section NaNCorners.

Lemma py_ge_nan_l (b : pyval) :
  is_int_or_float b = true -> py_ge (VFloat Fnan) b = Ok false.
Proof. by destruct b. Qed.

Lemma py_ge_nan_r (a : pyval) :
  is_int_or_float a = true -> py_ge a (VFloat Fnan) = Ok false.
Proof. destruct a as [| | |f| | | | | |]; try done. by destruct f as [|[]|]. Qed.

Lemma valid_config_nan_min (elementRes minCoord maxCoord periodic : pyval) (i : nat) :
  valid_config elementRes minCoord maxCoord periodic ->
  valid_config elementRes (VList (<[i := VFloat Fnan]> (items_of minCoord)))
    maxCoord periodic.
Proof.
  intros []. split; try done; cbn [items_of is_list_or_tuple].
  - destruct (decide (i < length (items_of minCoord))) as [Hi|Hi].
    + by apply Forall_insert.
    + by rewrite list_insert_ge by lia.
  - by rewrite length_insert.
  - intros j a b Ha Hb.
    destruct (decide (i = j)) as [->|Hne].
    + destruct (decide (j < length (items_of minCoord))) as [Hj|Hj].
      * rewrite list_lookup_insert_eq in Ha by done. injection Ha as <-.
        apply py_ge_nan_l.
        by apply (proj1 (Forall_lookup _ _) vc_max_items0 j).
      * rewrite list_insert_ge in Ha by lia. eauto.
    + rewrite list_lookup_insert_ne in Ha by done. eauto.
Qed.

Lemma valid_config_nan_max (elementRes minCoord maxCoord periodic : pyval) (i : nat) :
  valid_config elementRes minCoord maxCoord periodic ->
  valid_config elementRes minCoord
    (VList (<[i := VFloat Fnan]> (items_of maxCoord))) periodic.
Proof.
  intros []. split; try done; cbn [items_of is_list_or_tuple].
  - destruct (decide (i < length (items_of maxCoord))) as [Hi|Hi].
    + by apply Forall_insert.
    + by rewrite list_insert_ge by lia.
  - by rewrite length_insert.
  - intros j a b Ha Hb.
    destruct (decide (i = j)) as [->|Hne].
    + destruct (decide (j < length (items_of maxCoord))) as [Hj|Hj].
      * rewrite list_lookup_insert_eq in Hb by done. injection Hb as <-.
        apply py_ge_nan_r.
        by apply (proj1 (Forall_lookup _ _) vc_min_items0 j).
      * rewrite list_insert_ge in Hb by lia. eauto.
    + rewrite list_lookup_insert_ne in Hb by done. eauto.
Qed.

End NaNCorners.

(** X2.  A NaN corner is never rejected: when a configuration passes the
    checks, it still passes them after any entry of [minCoord], or of
    [maxCoord], is replaced by NaN, since [nan >= x] and [x >= nan] are
    false. *)
Theorem nan_corner_accepted (elementRes minCoord maxCoord periodic : pyval) (i : nat) :
  cartesian_checks elementRes minCoord maxCoord periodic = Ok tt ->
  cartesian_checks elementRes (VList (<[i := VFloat Fnan]> (items_of minCoord)))
    maxCoord periodic = Ok tt
  /\ cartesian_checks elementRes minCoord
       (VList (<[i := VFloat Fnan]> (items_of maxCoord))) periodic = Ok tt.
Proof.
  intros H. apply cartesian_checks_valid in H. split; apply cartesian_checks_valid.
  - by apply valid_config_nan_min.
  - by apply valid_config_nan_max.
Qed.

Lemma nan_corner_accepted_witness :
  cartesian_checks (VTuple [VInt 2; VInt 2])
    (VList (<[0 := VFloat Fnan]> [VFloat (Ffin 0 0); VFloat (Ffin 0 0)]))
    (VTuple [VFloat (Ffin 1 0); VFloat (Ffin 1 0)])
    (VList [VBool false; VBool false]) = Ok tt.
Proof.
  apply (proj1 (nan_corner_accepted (VTuple [VInt 2; VInt 2])
                  (VTuple [VFloat (Ffin 0 0); VFloat (Ffin 0 0)])
                  (VTuple [VFloat (Ffin 1 0); VFloat (Ffin 1 0)])
                  (VList [VBool false; VBool false]) 0 eq_refl)).
Defined.

(** ** What a generator reports once it is built *)

Section BuiltGenerator.

Context {N : Type} (extern : ncall -> N -> result unit * N).

(** A valid configuration and a native library that does its part give a
    generator. *)
Lemma CartesianMeshGenerator_new_run (cls : pyclass)
    (elementRes minCoord maxCoord periodic : pyval) (w : world N) (n1 n2 : N) :
  let self := fresh (dom (heap w)) in
  cartesian_checks elementRes minCoord maxCoord periodic = Ok tt ->
  extern (Stg__new__ cls ∅ self) (native w) = (Ok tt, n1) ->
  extern (Stg__init__ self) n1 = (Ok tt, n2) ->
  CartesianMeshGenerator_new extern cls elementRes minCoord maxCoord periodic w
  = (Ok self,
     World (<[self := PyObj cls
               (<["_periodic" := periodic]>
                 (<["_dim" := VInt (Z.of_nat (length (items_of elementRes)))]>
                   (<["_maxCoord" := maxCoord]>
                     (<["_minCoord" := minCoord]>
                       (<["_elementRes" := elementRes]> ∅)))))
               ∅]> (heap w))
           n2).
Proof.
  intros self Hchk Hn1 Hn2.
  unfold CartesianMeshGenerator_new, construct.
  rewrite bind_run, alloc_run. fold self. cbn beta iota.
  rewrite bind_run. unfold native_call at 1. cbn [native heap]. rewrite Hn1.
  rewrite bind_run. unfold CartesianMeshGenerator___init__.
  rewrite bind_run.
  erewrite body_run_ok; [|cbn; apply lookup_insert_eq|done].
  cbn [ob_class ob_attrs ob_items heap native].
  unfold native_call. cbn [native heap]. rewrite Hn2.
  rewrite ret_run. by rewrite insert_insert_eq.
Qed.

End BuiltGenerator.

(** X3.  With arguments that pass the checks and native calls that succeed,
    the constructor of a Cartesian generator returns a new object and
    leaves the others alone; its [elementRes], [minCoord], [maxCoord] and
    [periodic] properties return the arguments it was given, and its [dim]
    is the length of [elementRes]. *)
Theorem Cartesian_generator_reports_its_arguments {N : Type}
    (extern : ncall -> N -> result unit * N) (cls : pyclass)
    (elementRes minCoord maxCoord periodic : pyval) (w : world N) (n1 n2 : N) :
  let self := fresh (dom (heap w)) in
  cartesian_checks elementRes minCoord maxCoord periodic = Ok tt ->
  extern (Stg__new__ cls ∅ self) (native w) = (Ok tt, n1) ->
  extern (Stg__init__ self) n1 = (Ok tt, n2) ->
  exists w',
    CartesianMeshGenerator_new extern cls elementRes minCoord maxCoord periodic w
    = (Ok self, w')
    /\ ~ alive w self /\ extends w w'
    /\ CartesianMeshGenerator_elementRes self w' = (Ok elementRes, w')
    /\ CartesianMeshGenerator_minCoord self w' = (Ok minCoord, w')
    /\ CartesianMeshGenerator_maxCoord self w' = (Ok maxCoord, w')
    /\ CartesianMeshGenerator_periodic self w' = (Ok periodic, w')
    /\ MeshGenerator_dim self w'
       = (Ok (VInt (Z.of_nat (length (items_of elementRes)))), w').
Proof.
  intros self Hchk Hn1 Hn2. eexists. split.
  { by apply (CartesianMeshGenerator_new_run extern cls _ _ _ _ w n1 n2). }
  assert (Hf : ~ alive w self).
  { intros Hal. apply elem_of_dom in Hal. by apply is_fresh in Hal. }
  split; [done|]. split.
  { intros b Hb. cbn. apply lookup_insert_ne. by intros <-. }
  repeat split; apply getattr_run; rewrite attr_insert_eq; cbn; by simplify_map_eq.
Qed.

Lemma Cartesian_generator_reports_its_arguments_witness :
  exists w',
    CartesianMeshGenerator_new extern_ok QuadraticCartesianGenerator_cls
      (VTuple [VInt 4; VInt 4; VInt 2])
      (VTuple [VInt 0; VInt 0; VInt 0])
      (VTuple [VInt 1; VInt 1; VFloat (Ffin 1 (-1))])
      (VList [VBool true; VBool false; VBool false]) empty_world
    = (Ok 0, w')
    /\ ~ alive empty_world 0 /\ extends empty_world w'
    /\ CartesianMeshGenerator_elementRes 0 w' = (Ok (VTuple [VInt 4; VInt 4; VInt 2]), w')
    /\ CartesianMeshGenerator_minCoord 0 w' = (Ok (VTuple [VInt 0; VInt 0; VInt 0]), w')
    /\ CartesianMeshGenerator_maxCoord 0 w'
       = (Ok (VTuple [VInt 1; VInt 1; VFloat (Ffin 1 (-1))]), w')
    /\ CartesianMeshGenerator_periodic 0 w'
       = (Ok (VList [VBool true; VBool false; VBool false]), w')
    /\ MeshGenerator_dim 0 w' = (Ok (VInt 3), w').
Proof.
  apply (Cartesian_generator_reports_its_arguments extern_ok QuadraticCartesianGenerator_cls
           (VTuple [VInt 4; VInt 4; VInt 2])
           (VTuple [VInt 0; VInt 0; VInt 0])
           (VTuple [VInt 1; VInt 1; VFloat (Ffin 1 (-1))])
           (VList [VBool true; VBool false; VBool false]) empty_world tt tt);
    reflexivity.
Defined.

(** ** More on the element types of [FeMesh_Cartesian] *)

Section NewFacts.

Import ElementTypes ElementTypeGrammar.

Lemma str_in_primary (x : string) :
  str_in x (take 2 _supportedElementTypes) = true -> str_in x _supportedElementTypes = true.
Proof.
  unfold str_in. intros H. apply bool_decide_eq_true in H. apply bool_decide_eq_true.
  cbn in H. rewrite !elem_of_cons in H. unfold _supportedElementTypes.
  rewrite !elem_of_cons. tauto.
Qed.

Lemma str_in_secondary (x : string) :
  str_in x (drop 1 _supportedElementTypes) = true -> str_in x _supportedElementTypes = true.
Proof.
  unfold str_in. intros H. apply bool_decide_eq_true in H. apply bool_decide_eq_true.
  cbn in H. rewrite !elem_of_cons in H. unfold _supportedElementTypes.
  rewrite !elem_of_cons. tauto.
Qed.

Lemma gen_dict_of_first (t0 : string) (rest : list pyval) :
  (let overruleDict : gmap string string := ∅ in
   let overruleDict :=
     if py_eq_str (VStr t0) (default "" (_supportedElementTypes !! 0%nat))
     then <["_gen" := default "" (_meshGenerator !! 0%nat)]> overruleDict
     else overruleDict in
   let overruleDict :=
     if py_eq_str (VStr t0) (default "" (_supportedElementTypes !! 1%nat))
     then <["_gen" := default "" (_meshGenerator !! 1%nat)]> overruleDict
     else overruleDict in
   overruleDict) = gen_dict (VStr t0 :: rest).
Proof.
  unfold gen_dict, gen_entry. cbn.
  destruct (String.eqb_spec t0 "Q2") as [->|]; [done|].
  by destruct (String.eqb_spec t0 "Q1") as [->|].
Qed.

(** [__new__] on a list of element types. *)
Lemma new_of_items (l : list pyval) :
  __new__ (VList l) = if accepted_items l then Ok (gen_dict l) else __new__ (VList l).
Proof.
  destruct (accepted_items l) eqn:Hacc; [|done].
  unfold __new__.
  cbn [is_str is_list_or_tuple orb negb raise_if elementType_items items_of
       mbind result_bind rbind].
  destruct l as [|e0 [|e1 [|e2 l]]]; try done.
  - destruct e0 as [| | | |t0| | | | |]; try done.
    cbn [accepted_items] in Hacc.
    change ["Q2"; "Q1"] with (take 2 _supportedElementTypes) in Hacc.
    cbn [length Nat.ltb Nat.leb raise_if mbind result_bind rbind check_elTypes py_index
         lookup list_lookup py_upper Nat.eqb].
    rewrite (str_in_primary _ Hacc), Hacc.
    cbn [negb raise_if mbind result_bind rbind].
    f_equal. apply gen_dict_of_first.
  - destruct e0 as [| | | |t0| | | | |]; try done.
    destruct e1 as [| | | |t1| | | | |]; try done.
    cbn [accepted_items] in Hacc. apply andb_true_iff in Hacc as [H0 H1].
    change ["Q2"; "Q1"] with (take 2 _supportedElementTypes) in H0.
    change ["Q1"; "DQ1"; "DPC1"; "DQ0"] with (drop 1 _supportedElementTypes) in H1.
    cbn [length Nat.ltb Nat.leb raise_if mbind result_bind rbind check_elTypes py_index
         lookup list_lookup py_upper Nat.eqb].
    rewrite (str_in_primary _ H0), (str_in_secondary _ H1), H0, H1.
    cbn [negb raise_if mbind result_bind rbind].
    f_equal. apply gen_dict_of_first.
  - destruct e0 as [| | | |t0| | | | |]; try done.
    destruct e1 as [| | | |t1| | | | |]; done.
Qed.

Lemma new_of_items_raises (l : list pyval) :
  is_raise (__new__ (VList l)) = negb (accepted_items l).
Proof.
  destruct (accepted_items l) eqn:Hacc.
  { rewrite new_of_items, Hacc. done. }
  unfold __new__.
  cbn [is_str is_list_or_tuple orb negb raise_if elementType_items items_of
       mbind result_bind rbind].
  destruct l as [|e0 [|e1 [|e2 l]]]; try done.
  - destruct e0 as [| | | |t0| | | | |]; try done.
    cbn [accepted_items] in Hacc.
    change ["Q2"; "Q1"] with (take 2 _supportedElementTypes) in Hacc.
    cbn [length Nat.ltb Nat.leb raise_if mbind result_bind rbind check_elTypes py_index
         lookup list_lookup py_upper Nat.eqb].
    destruct (str_in (PyStr.upper t0) _supportedElementTypes); [|done].
    cbn [negb raise_if mbind result_bind rbind]. by rewrite Hacc.
  - destruct e0 as [| | | |t0| | | | |]; try done.
    destruct e1 as [| | | |t1| | | | |];
      try (cbn; by destruct (str_in (PyStr.upper t0) _supportedElementTypes)).
    cbn [accepted_items] in Hacc.
    change ["Q2"; "Q1"] with (take 2 _supportedElementTypes) in Hacc.
    change ["Q1"; "DQ1"; "DPC1"; "DQ0"] with (drop 1 _supportedElementTypes) in Hacc.
    cbn [length Nat.ltb Nat.leb raise_if mbind result_bind rbind check_elTypes py_index
         lookup list_lookup py_upper Nat.eqb].
    destruct (str_in (PyStr.upper t0) _supportedElementTypes); [|done].
    destruct (str_in (PyStr.upper t1) _supportedElementTypes); [|done].
    cbn [negb raise_if mbind result_bind rbind].
    destruct (str_in (PyStr.upper t0) (take 2 _supportedElementTypes)); [|done].
    cbn [negb raise_if mbind result_bind rbind].
    cbn [andb] in Hacc. by rewrite Hacc.
Qed.


Lemma new_str_as_list (s : string) :
  __new__ (VStr s) = __new__ (VList (VStr <$> _strtolist s)).
Proof. done. Qed.

Lemma strtolist_tokens_upper (s : string) :
  Forall (fun t => PyStr.upper t = t) (_strtolist s).
Proof.
  pose proof (strtolist_picks s) as Hp.
  generalize dependent (_strtolist s). intros l Hp.
  unfold _supportedElementTypes in Hp.
  repeat match goal with
         | H : picks (_ :: _) _ |- _ => inversion H; clear H; subst
         | H : picks [] _ |- _ => inversion H; clear H; subst
         end; repeat constructor.
Qed.

Lemma picks_length (types l : list string) : picks types l -> length l <= length types.
Proof. induction 1; cbn; lia. Qed.

Lemma str_in_Q2_Q1 (t : string) :
  str_in t ["Q2"; "Q1"] = true -> t = "Q2" \/ t = "Q1".
Proof.
  unfold str_in. intros H. apply bool_decide_eq_true in H.
  rewrite !elem_of_cons, elem_of_nil in H. tauto.
Qed.

End NewFacts.

(** X4.  For an element-type string that [FeMesh_Cartesian.__new__]
    accepts, the generator handed to the parent's [__new__] is always
    set, by the first token of the parse: ["C2Generator"] for Q2,
    ["CartesianGenerator"] for Q1. *)
Theorem string_types_choose_generator (s : string) (d : gmap string string) :
  ElementTypes.__new__ (VStr s) = Ok d ->
  exists t0, ElementTypes._strtolist s !! 0 = Some t0
             /\ (t0 = "Q2" /\ d = {["_gen" := "C2Generator"]}
                 \/ t0 = "Q1" /\ d = {["_gen" := "CartesianGenerator"]}).
Proof.
  rewrite new_str_as_list. intros H.
  pose proof (new_of_items_raises (VStr <$> ElementTypes._strtolist s)) as Hr.
  rewrite H in Hr. cbn in Hr. symmetry in Hr. apply negb_false_iff in Hr.
  rewrite new_of_items, Hr in H. injection H as <-.
  pose proof (strtolist_tokens_upper s) as Hup.
  destruct (ElementTypes._strtolist s) as [|t0 rest]; [done|].
  exists t0. split; [done|].
  apply Forall_cons in Hup as [Hup _].
  assert (H0 : ElementTypes.str_in t0 ["Q2"; "Q1"] = true).
  { destruct rest as [|t1 [|t2 rest]]; cbn [fmap list_fmap accepted_items] in Hr;
      [by rewrite Hup in Hr| |done].
    rewrite Hup in Hr. by apply andb_true_iff in Hr as [? _]. }
  destruct (str_in_Q2_Q1 _ H0) as [-> | ->]; [left|right]; done.
Qed.

Lemma string_types_choose_generator_witness :
  exists t0, ElementTypes._strtolist "q2/dpc1" !! 0 = Some t0
             /\ (t0 = "Q2" /\ ({["_gen" := "C2Generator"]} : gmap string string)
                              = {["_gen" := "C2Generator"]}
                 \/ t0 = "Q1" /\ ({["_gen" := "C2Generator"]} : gmap string string)
                                 = {["_gen" := "CartesianGenerator"]}).
Proof.
  apply (string_types_choose_generator "q2/dpc1" {["_gen" := "C2Generator"]}).
  vm_compute. reflexivity.
Defined.

(** X5.  Given a list or tuple of element types, [FeMesh_Cartesian.__new__]
    raises unless it holds one or two strings, the first Q2 or Q1 and the
    second one of Q1, DQ1, DPC1, DQ0, compared in upper case.  The
    generator is then chosen by comparing the first item as written: a
    first item that is not in upper case is accepted, and no generator is
    handed to the parent's [__new__]. *)
Theorem listed_types_checked_in_upper_case (v : pyval) (l : list pyval) :
  v = VList l \/ v = VTuple l ->
  is_raise (ElementTypes.__new__ v) = negb (accepted_items l)
  /\ (accepted_items l = true -> ElementTypes.__new__ v = Ok (gen_dict l))
  /\ (forall t0 rest, l = VStr t0 :: rest -> accepted_items l = true ->
        PyStr.upper t0 <> t0 -> ElementTypes.__new__ v = Ok ∅).
Proof.
  intros Hv.
  assert (Hnew : ElementTypes.__new__ v = ElementTypes.__new__ (VList l))
    by (by destruct Hv as [-> | ->]).
  rewrite Hnew. split; [apply new_of_items_raises|]. split.
  - intros Hacc. by rewrite new_of_items, Hacc.
  - intros t0 rest -> Hacc Hup. rewrite new_of_items, Hacc. f_equal.
    unfold gen_dict, gen_entry.
    destruct (String.eqb_spec t0 "Q2") as [->|]; [done|].
    by destruct (String.eqb_spec t0 "Q1") as [->|].
Qed.

Lemma listed_types_checked_in_upper_case_witness :
  ElementTypes.__new__ (VTuple [VStr "q1"; VStr "dq0"]) = Ok ∅.
Proof.
  refine (proj2 (proj2 (listed_types_checked_in_upper_case
                          (VTuple [VStr "q1"; VStr "dq0"]) [VStr "q1"; VStr "dq0"]
                          (or_intror eq_refl)))
            "q1" [VStr "dq0"] eq_refl eq_refl _).
  vm_compute. discriminate.
Defined.

(** X6.  [_strtolist] does not look at the case of the string: a string
    and its upper-case form parse alike, so [__new__] treats them alike.
    The tokens it returns are in upper case and there are at most five of
    them, one for each supported type. *)
Theorem strtolist_ignores_case (s : string) :
  ElementTypes._strtolist (PyStr.upper s) = ElementTypes._strtolist s
  /\ ElementTypes.__new__ (VStr (PyStr.upper s)) = ElementTypes.__new__ (VStr s)
  /\ Forall (fun t => PyStr.upper t = t) (ElementTypes._strtolist s)
  /\ length (ElementTypes._strtolist s) <= 5.
Proof.
  assert (H : ElementTypes._strtolist (PyStr.upper s) = ElementTypes._strtolist s).
  { unfold ElementTypes._strtolist. by rewrite upper_idem. }
  split; [done|]. split; [by rewrite !new_str_as_list, H|].
  split; [apply strtolist_tokens_upper|].
  apply (picks_length ElementTypes._supportedElementTypes), strtolist_picks.
Qed.

(** ** More on the special sets of a mesh *)

Section SpecialSetsMore.

Context {N : Type} (call_function : string -> pyval -> M N pyval).

Lemma weakref_call_dead (a : addr) (w : world N) :
  ~ alive w a -> weakref_call a w = (Ok VNone, w).
Proof.
  intros Hd. unfold weakref_call. destruct (heap w !! a) eqn:E; [|done].
  exfalso. apply Hd. by eexists.
Qed.

Lemma getitem_missing (d : addr) (name : string) (w : world N) :
  alive w d -> item w d name = None ->
  _SpecialSetsDict___getitem__ call_function d name w = (Raise (KeyError name), w).
Proof.
  intros [o Ho] Hi. unfold _SpecialSetsDict___getitem__, dict_getitem, item in *.
  rewrite bind_run, Ho. rewrite Ho in Hi. cbn in Hi. by rewrite Hi.
Qed.

Lemma item_alive (w : world N) (a : addr) (k : string) (v : pyval) :
  item w a k = Some v -> alive w a.
Proof. unfold item, alive. destruct (heap w !! a); [eauto|done]. Qed.

End SpecialSetsMore.

(** X7.  The special-sets dictionary of a mesh is made on the first access
    to the property: a new, empty [_SpecialSetsDict] that refers to the
    mesh by a weak reference.  The access assigns [_specialSets] on the
    mesh and touches nothing else; every later access returns the same
    dictionary and changes nothing. *)
Theorem specialSets_made_once {N : Type} (self : addr) (w : world N) :
  alive w self ->
  attr w self "_specialSets" = None ->
  exists d w1,
    FeMesh_specialSets self w = (Ok (VRef d), w1)
    /\ ~ alive w d
    /\ class_of w1 d = Some _SpecialSetsDict_cls
    /\ attr w1 d "_femesh" = Some (VWeakref self)
    /\ (forall k, item w1 d k = None)
    /\ native w1 = native w
    /\ (forall b, alive w b -> b <> self -> heap w1 !! b = heap w !! b)
    /\ same_attrs_except self ["_specialSets"] w w1
    /\ FeMesh_specialSets self w1 = (Ok (VRef d), w1).
Proof.
  intros [o Ho] Hs. unfold attr in Hs. rewrite Ho in Hs. cbn in Hs.
  set (d := fresh (dom (heap w))).
  assert (Hd : heap w !! d = None).
  { apply not_elem_of_dom. apply is_fresh. }
  assert (Hne : d <> self) by (intros E; rewrite E in Hd; congruence).
  exists d. eexists. split; [by apply (specialSets_run_first _ _ _ Ho Hs)|].
  fold d. split; [by intros [? ?]; congruence|].
  split; [|split; [|split; [|split; [|split; [|split]]]]].
  - unfold class_of. cbn. by rewrite lookup_insert_ne, lookup_insert_eq.
  - unfold attr. cbn. by rewrite lookup_insert_ne, lookup_insert_eq.
  - intros k. unfold item. cbn. by rewrite lookup_insert_ne, lookup_insert_eq.
  - done.
  - intros b [ob Hb] Hbs. cbn. rewrite !lookup_insert_ne; [done|congruence|done].
  - unfold same_attrs_except, class_of, attr, item. cbn.
    rewrite lookup_insert_eq, Ho. cbn.
    split; [done|]. split; [|done].
    intros n Hn. apply lookup_insert_ne. intros <-. apply Hn. by left.
  - apply specialSets_run. unfold attr. cbn. rewrite lookup_insert_eq. cbn.
    apply lookup_insert_eq.
Qed.

Lemma specialSets_made_once_witness :
  let w : world unit := World (<[0 := PyObj FeMesh_cls ∅ ∅]> ∅) tt in
  exists d w1,
    FeMesh_specialSets 0 w = (Ok (VRef d), w1)
    /\ ~ alive w d
    /\ class_of w1 d = Some _SpecialSetsDict_cls
    /\ attr w1 d "_femesh" = Some (VWeakref 0)
    /\ (forall k, item w1 d k = None)
    /\ native w1 = native w
    /\ (forall b, alive w b -> b <> 0 -> heap w1 !! b = heap w !! b)
    /\ same_attrs_except 0 ["_specialSets"] w w1
    /\ FeMesh_specialSets 0 w1 = (Ok (VRef d), w1).
Proof.
  intros w. apply (specialSets_made_once 0 w).
  - exists (PyObj FeMesh_cls ∅ ∅). reflexivity.
  - reflexivity.
Defined.

(** X8.  Looking up a name that was never registered raises [KeyError]
    with that name, and no rule is called.  On a mesh that has its
    dictionary the failed lookup changes nothing; on a mesh that was never
    asked for its special sets the lookup fails alike, and leaves the new,
    empty dictionary behind. *)
Theorem lookup_of_unregistered_name {N : Type}
    (call_function : string -> pyval -> M N pyval)
    (mesh : addr) (name : string) (w : world N) :
  alive w mesh ->
  (forall d, attr w mesh "_specialSets" = Some (VRef d) ->
     alive w d -> item w d name = None ->
     specialSets_lookup call_function mesh name w = (Raise (KeyError name), w))
  /\ (attr w mesh "_specialSets" = None ->
      specialSets_lookup call_function mesh name w
      = (Raise (KeyError name), snd (FeMesh_specialSets mesh w))).
Proof.
  intros [o Ho]. split.
  - intros d Hd Hal Hi. unfold specialSets_lookup.
    rewrite bind_run, (specialSets_run _ _ _ Hd). by apply getitem_missing.
  - intros Hs. unfold attr in Hs. rewrite Ho in Hs. cbn in Hs.
    unfold specialSets_lookup.
    rewrite bind_run, (specialSets_run_first _ _ _ Ho Hs). cbn [snd].
    apply getitem_missing.
    + unfold alive. cbn. rewrite lookup_insert_ne, lookup_insert_eq; [by eexists|].
      intros E. pose proof (is_fresh (dom (heap w))) as Hf. rewrite <- E in Hf.
      apply Hf. apply elem_of_dom. by eexists.
    + unfold item. cbn. rewrite lookup_insert_ne, lookup_insert_eq; [done|].
      intros E. pose proof (is_fresh (dom (heap w))) as Hf. rewrite <- E in Hf.
      apply Hf. apply elem_of_dom. by eexists.
Qed.

Lemma lookup_of_unregistered_name_witness :
  let call_function : string -> pyval -> M unit pyval := fun _ _ w => (Ok VNone, w) in
  let w : world unit :=
    World (<[1 := PyObj _SpecialSetsDict_cls {["_femesh" := VWeakref 0]} {["Walls" := VFunc "walls"]}]>
             (<[0 := PyObj FeMesh_cls {["_specialSets" := VRef 1]} ∅]> ∅)) tt in
  specialSets_lookup call_function 0 "Floor" w = (Raise (KeyError "Floor"), w).
Proof.
  intros call_function w.
  apply (proj1 (lookup_of_unregistered_name call_function 0 "Floor" w
                  (ex_intro _ (PyObj FeMesh_cls {["_specialSets" := VRef 1]} ∅) eq_refl)) 1).
  - reflexivity.
  - eexists. reflexivity.
  - reflexivity.
Defined.

(** X9.  Registering a rule on a mesh that has its dictionary stores the
    value under the name and changes nothing else: the other names keep
    their rules, no attribute and no other object changes, the native
    library is not called.  Any value is taken, callable or not.  A second
    registration under the same name replaces the first: the outcome is
    that of registering the second value alone. *)
Theorem registration_replaces_one_rule {N : Type}
    (mesh d : addr) (name : string) (v : pyval) (w : world N) :
  attr w mesh "_specialSets" = Some (VRef d) ->
  alive w d ->
  exists w1,
    specialSets_register mesh name v w = (Ok tt, w1)
    /\ native w1 = native w
    /\ item w1 d name = Some v
    /\ (forall k, k <> name -> item w1 d k = item w d k)
    /\ (forall b n, attr w1 b n = attr w b n)
    /\ (forall b, class_of w1 b = class_of w b)
    /\ (forall b, b <> d -> heap w1 !! b = heap w !! b)
    /\ (forall v2, specialSets_register mesh name v2 w1
                   = specialSets_register mesh name v2 w).
Proof.
  intros Hs [od Hod].
  eexists. split; [by apply (register_next _ _ _ _ _ _ Hs Hod)|].
  split; [done|]. split; [|split; [|split; [|split; [|split]]]].
  - unfold item. cbn. rewrite lookup_insert_eq. cbn. apply lookup_insert_eq.
  - intros k Hk. unfold item. cbn. rewrite lookup_insert_eq, Hod. cbn.
    by apply lookup_insert_ne.
  - intros b n. destruct w as [h nat]. cbn [heap native] in *.
    by apply (attr_dict_setitem h nat nat _ _ _ _ _ Hod).
  - intros b. unfold class_of. cbn. destruct (decide (d = b)) as [->|Hne].
    + by rewrite lookup_insert_eq, Hod.
    + by rewrite lookup_insert_ne.
  - intros b Hb. cbn. by rewrite lookup_insert_ne.
  - intros v2.
    rewrite (register_next _ _ _ _ _ _ Hs Hod).
    erewrite register_next; last first.
    { cbn. apply lookup_insert_eq. }
    { destruct w as [h nat]. cbn [heap native] in *.
      rewrite (attr_dict_setitem h nat nat _ _ _ _ _ Hod). exact Hs. }
    cbn [heap native ob_class ob_attrs ob_items].
    by rewrite insert_insert_eq, insert_insert_eq.
Qed.

Lemma registration_replaces_one_rule_witness :
  let w : world unit :=
    World (<[1 := PyObj _SpecialSetsDict_cls {["_femesh" := VWeakref 0]} {["Walls" := VFunc "walls"]}]>
             (<[0 := PyObj FeMesh_cls {["_specialSets" := VRef 1]} ∅]> ∅)) tt in
  exists w1,
    specialSets_register 0 "Walls" (VFunc "floor") w = (Ok tt, w1)
    /\ native w1 = native w
    /\ item w1 1 "Walls" = Some (VFunc "floor")
    /\ (forall k, k <> "Walls" -> item w1 1 k = item w 1 k)
    /\ (forall b n, attr w1 b n = attr w b n)
    /\ (forall b, class_of w1 b = class_of w b)
    /\ (forall b, b <> 1 -> heap w1 !! b = heap w !! b)
    /\ (forall v2, specialSets_register 0 "Walls" v2 w1
                   = specialSets_register 0 "Walls" v2 w).
Proof.
  intros w. apply (registration_replaces_one_rule 0 1 "Walls" (VFunc "floor") w).
  - reflexivity.
  - eexists. reflexivity.
Defined.

(** X10.  The dictionary does not keep its mesh alive, and a lookup does
    not check that the mesh is still there: while the mesh is alive the
    rule is called on it, and once it is gone the rule is called on
    [None]. *)
Theorem rule_called_on_None_once_mesh_is_gone {N : Type}
    (call_function : string -> pyval -> M N pyval)
    (mesh d : addr) (name f : string) (w : world N) :
  attr w d "_femesh" = Some (VWeakref mesh) ->
  item w d name = Some (VFunc f) ->
  (alive w mesh ->
   _SpecialSetsDict___getitem__ call_function d name w = call_function f (VRef mesh) w)
  /\ (~ alive w mesh ->
      _SpecialSetsDict___getitem__ call_function d name w = call_function f VNone w).
Proof.
  intros Hm Hf. split.
  - intros Hal. by apply getitem_run.
  - intros Hdead. unfold _SpecialSetsDict___getitem__.
    rewrite bind_run, (dict_getitem_run _ _ _ _ Hf).
    rewrite bind_run, (getattr_run _ _ _ _ Hm).
    by rewrite bind_run, (weakref_call_dead _ _ Hdead).
Qed.

Lemma rule_called_on_None_once_mesh_is_gone_witness :
  let call_function : string -> pyval -> M unit pyval := fun _ arg w => (Ok arg, w) in
  let w : world unit :=
    World (<[1 := PyObj _SpecialSetsDict_cls {["_femesh" := VWeakref 0]}
                    {["Walls" := VFunc "walls"]}]> ∅) tt in
  _SpecialSetsDict___getitem__ call_function 1 "Walls" w = (Ok VNone, w).
Proof.
  intros call_function w.
  apply (proj2 (rule_called_on_None_once_mesh_is_gone call_function 0 1 "Walls" "walls" w
                  eq_refl eq_refl)).
  intros [o Ho]. discriminate Ho.
Defined.

(** ** Assigning the generator twice *)

Section GeneratorMore.

Context {N : Type} (extern : ncall -> N -> result unit * N).

Lemma generator_set_twice (self g1 g2 : addr) (w : world N) (o : pyobj) r1 w1 r2 w2 :
  heap w !! self = Some o ->
  isinstance w (VRef g1) MeshGenerator_cls = true ->
  isinstance w (VRef g2) MeshGenerator_cls = true ->
  FeMesh_generator_set extern self (VRef g1) w = (r1, w1) ->
  FeMesh_generator_set extern self (VRef g2) w1 = (r2, w2) ->
  heap w2 = <[self := PyObj (ob_class o)
                        (<["_generator" := if bool_decide (self = g2)
                                           then VWeakref g2 else VRef g2]> (ob_attrs o))
                        (ob_items o)]> (heap w).
Proof.
  intros Ho H1 H2. rewrite (generator_set_run _ _ _ _ _ H1 Ho). intros [= _ <-].
  erewrite generator_set_run; [| |cbn; apply lookup_insert_eq]; last first.
  { by rewrite (isinstance_setattr _ _ _ _ _ _ _ _ Ho). }
  intros [= _ <-]. cbn [heap native ob_class ob_attrs ob_items].
  by rewrite !insert_insert_eq.
Qed.

End GeneratorMore.

(** X11.  The generator of a mesh can be assigned again: after two
    assignments the property returns the second generator, the heap is the
    one a single assignment of the second generator gives, and over both
    assignments nothing but the [_generator] attribute of the mesh has
    changed in it - whether or not the native calls succeed. *)
Theorem generator_assigned_twice {N : Type} (extern : ncall -> N -> result unit * N)
    (self : addr) (g1 g2 : pyval) (w : world N) r1 w1 r2 w2 :
  alive w self ->
  isinstance w g1 MeshGenerator_cls = true ->
  isinstance w g2 MeshGenerator_cls = true ->
  FeMesh_generator_set extern self g1 w = (r1, w1) ->
  FeMesh_generator_set extern self g2 w1 = (r2, w2) ->
  FeMesh_generator self w2 = (Ok g2, w2)
  /\ updates self ["_generator"] w w2
  /\ heap w2 = heap (snd (FeMesh_generator_set extern self g2 w)).
Proof.
  intros [o Ho] H1 H2 Hs1 Hs2.
  destruct (isinstance_ref _ _ _ H1) as [a1 ->].
  destruct (isinstance_ref _ _ _ H2) as [a2 ->].
  pose proof (generator_set_twice extern _ _ _ _ _ _ _ _ _ Ho H1 H2 Hs1 Hs2) as Hh.
  assert (Ha : attr w2 self "_generator"
               = Some (if bool_decide (self = a2) then VWeakref a2 else VRef a2)).
  { rewrite (attr_of_insert _ _ _ _ _ Hh). cbn. apply lookup_insert_eq. }
  split; [|split].
  - case_bool_decide as Hsg.
    + subst a2. by apply generator_get_weak_self.
    + by apply generator_get_strong.
  - eapply updates_insert; [done..|].
    intros n Hn. apply lookup_insert_ne. intros <-. apply Hn. by left.
  - by rewrite (generator_set_run _ _ _ _ _ H2 Ho).
Qed.

Lemma generator_assigned_twice_witness :
  let w : world unit :=
    World (<[1 := PyObj LinearCartesianGenerator_cls ∅ ∅]>
             (<[0 := PyObj FeMesh_Cartesian_cls ∅ ∅]> ∅)) tt in
  let w1 := snd (FeMesh_generator_set extern_ok 0 (VRef 0) w) in
  let w2 := snd (FeMesh_generator_set extern_ok 0 (VRef 1) w1) in
  FeMesh_generator 0 w2 = (Ok (VRef 1), w2)
  /\ updates 0 ["_generator"] w w2
  /\ heap w2 = heap (snd (FeMesh_generator_set extern_ok 0 (VRef 1) w)).
Proof.
  intros w w1 w2.
  apply (generator_assigned_twice extern_ok 0 (VRef 0) (VRef 1) w (Ok tt) w1 (Ok tt) w2).
  - exists (PyObj FeMesh_Cartesian_cls ∅ ∅). reflexivity.
  - reflexivity.
  - reflexivity.
  - reflexivity.
  - reflexivity.
Defined.

(** ** The initialiser of [FeMesh_IndexSet] *)

Section IndexSetInit.

Context {N : Type}.

Lemma py_eq_int_VInt (z n : Z) : py_eq_int (VInt z) n = (z =? n)%Z.
Proof.
  unfold py_eq_int. cbn. rewrite !Z.mul_1_r.
  destruct (Z.eqb_spec z n) as [->|Hne].
  - by rewrite Z.leb_refl.
  - apply andb_false_iff.
    destruct (Z.leb_spec n z); [|by left]. right. apply Z.leb_gt. lia.
Qed.

Lemma in_0123_VInt (z : Z) : in_0123 (VInt z) = true <-> (0 <= z <= 3)%Z.
Proof.
  unfold in_0123. cbn [existsb]. rewrite !py_eq_int_VInt.
  rewrite !orb_true_iff, !Z.eqb_eq. cbn. lia.
Qed.

Lemma in_0123_VFloat_nan : in_0123 (VFloat Fnan) = false.
Proof. reflexivity. Qed.

End IndexSetInit.

(** X12.  [FeMesh_IndexSet.__init__] looks at the topological index first
    and at the mesh second.  An index that equals none of 0, 1, 2, 3 -
    [None], the default, among them - raises [ValueError], also when the
    object is no mesh; an object that is not a [FeMesh] then raises
    [TypeError]; in both cases nothing is stored and the parent is not
    initialised.  Otherwise the index is stored before the parent's
    initialiser runs, and the property returns it.  An [int] is accepted
    exactly when it lies in 0..3; a [bool] is accepted, since [False == 0]
    and [True == 1]. *)
Theorem IndexSet_init_checks {N : Type} (parent_init : M N unit)
    (self : addr) (object topologicalIndex : pyval) (w : world N) :
  (in_0123 topologicalIndex = false ->
   FeMesh_IndexSet___init__ parent_init self object topologicalIndex w
   = (Raise (ValueError "Topological index must be within [0,3]."), w))
  /\ (in_0123 topologicalIndex = true ->
      isinstance w object FeMesh_cls = false ->
      FeMesh_IndexSet___init__ parent_init self object topologicalIndex w
      = (Raise (TypeError "'object' parameter must be of (sub)type 'FeMesh'."), w))
  /\ (in_0123 topologicalIndex = true ->
      isinstance w object FeMesh_cls = true ->
      alive w self ->
      exists w1,
        updates self ["_toplogicalIndex"] w w1
        /\ native w1 = native w
        /\ FeMesh_IndexSet_topologicalIndex self w1 = (Ok topologicalIndex, w1)
        /\ FeMesh_IndexSet___init__ parent_init self object topologicalIndex w
           = parent_init w1)
  /\ in_0123 VNone = false
  /\ (forall z, in_0123 (VInt z) = true <-> (0 <= z <= 3)%Z)
  /\ (forall b, in_0123 (VBool b) = true).
Proof.
  split; [|split; [|split; [|split; [|split]]]].
  - intros Hi. unfold FeMesh_IndexSet___init__. by rewrite bind_run, Hi, raise_run.
  - intros Hi Ho. unfold FeMesh_IndexSet___init__, isinstanceM.
    rewrite bind_run, Hi, ret_run, bind_run. cbn beta iota.
    by rewrite Ho, bind_run, raise_run.
  - intros Hi Ho [o Hself]. unfold FeMesh_IndexSet___init__, isinstanceM.
    rewrite bind_run, Hi, ret_run, bind_run. cbn beta iota.
    rewrite Ho, bind_run, ret_run, bind_run, (setattr_run _ _ _ _ _ Hself).
    eexists. split; [|split; [|split]]; [| |
      |reflexivity].
    + eapply updates_insert; [done..|].
      intros n Hn. apply lookup_insert_ne. intros <-. apply Hn. by left.
    + done.
    + apply getattr_run. rewrite attr_insert_eq. cbn. apply lookup_insert_eq.
  - reflexivity.
  - apply in_0123_VInt.
  - by intros [].
Qed.

Lemma IndexSet_init_checks_witness :
  let w : world unit :=
    World (<[1 := PyObj FeMesh_Cartesian_cls ∅ ∅]> (<[0 := PyObj FeMesh_cls ∅ ∅]> ∅)) tt in
  let parent_init : M unit unit := mret tt in
  FeMesh_IndexSet___init__ parent_init 0 (VStr "mesh") VNone w
  = (Raise (ValueError "Topological index must be within [0,3]."), w)
  /\ FeMesh_IndexSet___init__ parent_init 0 (VStr "mesh") (VInt 0) w
     = (Raise (TypeError "'object' parameter must be of (sub)type 'FeMesh'."), w)
  /\ exists w1,
       updates 0 ["_toplogicalIndex"] w w1
       /\ native w1 = native w
       /\ FeMesh_IndexSet_topologicalIndex 0 w1 = (Ok (VInt 2), w1)
       /\ FeMesh_IndexSet___init__ parent_init 0 (VRef 1) (VInt 2) w = parent_init w1.
Proof.
  intros w parent_init. split; [|split].
  - apply (proj1 (IndexSet_init_checks parent_init 0 (VStr "mesh") VNone w)). reflexivity.
  - apply (proj1 (proj2 (IndexSet_init_checks parent_init 0 (VStr "mesh") (VInt 0) w)));
      reflexivity.
  - apply (proj1 (proj2 (proj2 (IndexSet_init_checks parent_init 0 (VRef 1) (VInt 2) w))));
      try reflexivity.
    exists (PyObj FeMesh_cls ∅ ∅). reflexivity.
Defined.

(** ** Filling the component dictionary *)

Section StgDictFacts.

Context {N : Type} (component_name : addr -> string -> string).

Lemma subdict_set_run (cd sub : addr) (name key : string) (v : pyval)
    (w : world N) (o : pyobj) :
  item w cd name = Some (VRef sub) ->
  heap w !! sub = Some o ->
  subdict_set cd name key v w
  = (Ok tt, World (<[sub := PyObj (ob_class o) (ob_attrs o) (<[key := v]> (ob_items o))]> (heap w))
                  (native w)).
Proof.
  intros Hi Ho. unfold subdict_set.
  rewrite bind_run, (dict_getitem_run _ _ _ _ Hi).
  by apply dict_setitem_run.
Qed.

Lemma subdict_set_missing (cd : addr) (name key : string) (v : pyval) (w : world N) :
  alive w cd -> item w cd name = None ->
  subdict_set cd name key v w = (Raise (KeyError name), w).
Proof.
  intros [o Ho] Hi. unfold subdict_set, dict_getitem, item in *.
  rewrite bind_run, Ho. rewrite Ho in Hi. cbn in Hi. by rewrite Hi.
Qed.

(** The worlds the method goes through: the inner dictionary [sub] holds
    the items [its], everything else is as in [h]. *)
Lemma stg_world_attr (h : gmap addr pyobj) (n : N) (self sub : addr) (c : pyclass)
    (a its : gmap string pyval) (name : string) :
  sub <> self ->
  attr (World (<[sub := PyObj c a its]> h) n) self name = attr (World h n) self name.
Proof. intros Hne. unfold attr. cbn. by rewrite lookup_insert_ne. Qed.

Lemma stg_world_item (h : gmap addr pyobj) (n : N) (cd sub : addr) (c : pyclass)
    (a its : gmap string pyval) (name : string) :
  sub <> cd ->
  item (World (<[sub := PyObj c a its]> h) n) cd name = item (World h n) cd name.
Proof. intros Hne. unfold item. cbn. by rewrite lookup_insert_ne. Qed.

Lemma stg_getattr (h : gmap addr pyobj) (n : N) (self sub : addr) (c : pyclass)
    (a its : gmap string pyval) (name : string) (v : pyval) :
  sub <> self ->
  attr (World h n) self name = Some v ->
  getattr self name (World (<[sub := PyObj c a its]> h) n)
  = (Ok v, World (<[sub := PyObj c a its]> h) n).
Proof. intros Hs Ha. apply getattr_run. by rewrite stg_world_attr. Qed.

Lemma stg_set (h : gmap addr pyobj) (n : N) (cd sub : addr) (c : pyclass)
    (a its : gmap string pyval) (name key : string) (v : pyval) :
  sub <> cd ->
  item (World h n) cd name = Some (VRef sub) ->
  subdict_set cd name key v (World (<[sub := PyObj c a its]> h) n)
  = (Ok tt, World (<[sub := PyObj c a (<[key := v]> its)]> h) n).
Proof.
  intros Hc Hi.
  erewrite subdict_set_run; [|by rewrite stg_world_item|cbn; apply lookup_insert_eq].
  cbn [heap native ob_class ob_attrs ob_items]. by rewrite insert_insert_eq.
Qed.

Lemma py_getitem_items (p : pyval) (i : nat) :
  is_list_or_tuple p = true -> py_getitem p i = py_index (items_of p) i.
Proof. by destruct p. Qed.

Lemma py_index_short {A} (l : list A) (i : nat) :
  length l <= i -> py_index l i = Raise (IndexError "list index out of range").
Proof. intros H. unfold py_index. by rewrite lookup_ge_None_2. Qed.

Lemma py_index_long {A} (l : list A) (i : nat) :
  i < length l -> exists x, l !! i = Some x /\ py_index l i = Ok x.
Proof.
  intros H. destruct (lookup_lt_is_Some_2 l i H) as [x Hx].
  exists x. split; [done|]. unfold py_index. by rewrite Hx.
Qed.

(** The method of the Cartesian generator, from the world [w0] the
    parent's method leaves. *)
Lemma Cartesian_stg_dict_run (parent : M N unit) (self cd sub : addr)
    (w w0 : world N) (osub : pyobj) (er mn mx dim p : pyval) :
  parent w = (Ok tt, w0) ->
  attr w0 self "_elementRes" = Some er ->
  attr w0 self "_minCoord" = Some mn ->
  attr w0 self "_maxCoord" = Some mx ->
  attr w0 self "_dim" = Some dim ->
  attr w0 self "_periodic" = Some p ->
  item w0 cd (component_name self "_gen") = Some (VRef sub) ->
  heap w0 !! sub = Some osub ->
  sub <> self -> sub <> cd ->
  let W := fun its => World (<[sub := PyObj (ob_class osub) (ob_attrs osub) its]> (heap w0))
                            (native w0) in
  let its4 := <["dim" := dim]> (<["maxCoord" := mx]> (<["minCoord" := mn]>
                (<["size" := er]> (ob_items osub)))) in
  CartesianMeshGenerator__add_to_stg_dict component_name parent self cd w
  = match py_getitem p 0 with
    | Raise e => (Raise e, W its4)
    | Ok x =>
        match py_getitem p 1 with
        | Raise e => (Raise e, W (<["periodic_x" := x]> its4))
        | Ok y =>
            if py_eq_int dim 3 then
              match py_getitem p 2 with
              | Raise e => (Raise e, W (<["periodic_y" := y]> (<["periodic_x" := x]> its4)))
              | Ok z => (Ok tt, W (<["periodic_z" := z]> (<["periodic_y" := y]>
                                     (<["periodic_x" := x]> its4))))
              end
            else (Ok tt, W (<["periodic_y" := y]> (<["periodic_x" := x]> its4)))
        end
    end.
Proof.
  intros Hp H1 H2 H3 H4 H5 Hi Ho Hs Hc W its4.
  unfold CartesianMeshGenerator__add_to_stg_dict.
  rewrite bind_run, Hp. cbn zeta.
  destruct w0 as [h n]. cbn [heap native] in *.
  assert (Hw : World h n = W (ob_items osub)).
  { unfold W. cbn. f_equal. destruct osub. cbn. by rewrite insert_id. }
  rewrite Hw. unfold W. cbn [heap native].
  rewrite bind_run, (stg_getattr h n self sub _ _ _ _ _ Hs H1). cbn beta iota.
  rewrite bind_run, (stg_set h n cd sub _ _ _ _ _ _ Hc Hi). cbn beta iota.
  rewrite bind_run, (stg_getattr h n self sub _ _ _ _ _ Hs H2). cbn beta iota.
  rewrite bind_run, (stg_set h n cd sub _ _ _ _ _ _ Hc Hi). cbn beta iota.
  rewrite bind_run, (stg_getattr h n self sub _ _ _ _ _ Hs H3). cbn beta iota.
  rewrite bind_run, (stg_set h n cd sub _ _ _ _ _ _ Hc Hi). cbn beta iota.
  rewrite bind_run, (stg_getattr h n self sub _ _ _ _ _ Hs H4). cbn beta iota.
  rewrite bind_run, (stg_set h n cd sub _ _ _ _ _ _ Hc Hi). cbn beta iota.
  fold its4.
  rewrite bind_run, (stg_getattr h n self sub _ _ _ _ _ Hs H5). cbn beta iota.
  rewrite bind_run, lift_run.
  destruct (py_getitem p 0) as [x|e]; [|done].
  rewrite bind_run, (stg_set h n cd sub _ _ _ _ _ _ Hc Hi). cbn beta iota.
  rewrite bind_run, (stg_getattr h n self sub _ _ _ _ _ Hs H5). cbn beta iota.
  rewrite bind_run, lift_run.
  destruct (py_getitem p 1) as [y|e]; [|done].
  rewrite bind_run, (stg_set h n cd sub _ _ _ _ _ _ Hc Hi). cbn beta iota.
  rewrite bind_run, (stg_getattr h n self sub _ _ _ _ _ Hs H4). cbn beta iota.
  destruct (py_eq_int dim 3); [|done].
  rewrite bind_run, (stg_getattr h n self sub _ _ _ _ _ Hs H5). cbn beta iota.
  rewrite bind_run, lift_run.
  destruct (py_getitem p 2) as [z|e]; [|done].
  by rewrite (stg_set h n cd sub _ _ _ _ _ _ Hc Hi).
Qed.

(** What the method does, by the number of flags. *)
Lemma Cartesian_stg_dict_outcome (parent : M N unit)
    (self cd sub : addr) (w w0 : world N) (er mn mx dim p : pyval) :
  parent w = (Ok tt, w0) ->
  attr w0 self "_elementRes" = Some er ->
  attr w0 self "_minCoord" = Some mn ->
  attr w0 self "_maxCoord" = Some mx ->
  attr w0 self "_dim" = Some dim ->
  attr w0 self "_periodic" = Some p ->
  is_list_or_tuple p = true ->
  item w0 cd (component_name self "_gen") = Some (VRef sub) ->
  alive w0 sub -> sub <> self -> sub <> cd ->
  let need := if py_eq_int dim 3 then 3 else 2 in
  let run := CartesianMeshGenerator__add_to_stg_dict component_name parent self cd w in
  (length (items_of p) < need ->
   exists w', run = (Raise (IndexError "list index out of range"), w')
              /\ (forall b, b <> sub -> heap w' !! b = heap w0 !! b)
              /\ item w' sub "size" = Some er)
  /\ (need <= length (items_of p) ->
      exists w', run = (Ok tt, w')
                 /\ native w' = native w0
                 /\ (forall b, b <> sub -> heap w' !! b = heap w0 !! b)
                 /\ item w' sub "size" = Some er
                 /\ item w' sub "minCoord" = Some mn
                 /\ item w' sub "maxCoord" = Some mx
                 /\ item w' sub "dim" = Some dim
                 /\ item w' sub "periodic_x" = items_of p !! 0
                 /\ item w' sub "periodic_y" = items_of p !! 1
                 /\ item w' sub "periodic_z"
                    = if py_eq_int dim 3 then items_of p !! 2 else item w0 sub "periodic_z").
Proof.
  intros Hp H1 H2 H3 H4 H5 Hlt Hi [osub Ho] Hs Hc need run.
  subst run.
  rewrite (Cartesian_stg_dict_run parent self cd sub w w0 osub
             er mn mx dim p Hp H1 H2 H3 H4 H5 Hi Ho Hs Hc).
  rewrite !(py_getitem_items _ _ Hlt).
  assert (Hitem : forall (its : gmap string pyval) k,
            item (World (<[sub := PyObj (ob_class osub) (ob_attrs osub) its]> (heap w0))
                        (native w0)) sub k = its !! k).
  { intros its k. unfold item. cbn. by rewrite lookup_insert_eq. }
  assert (Hz : item w0 sub "periodic_z" = ob_items osub !! "periodic_z").
  { unfold item. by rewrite Ho. }
  split.
  - intros Hlen.
    destruct (decide (length (items_of p) = 0)) as [E0|E0].
    { rewrite (py_index_short _ 0) by lia. eexists. split; [done|].
      split; [by intros b Hb; cbn; rewrite lookup_insert_ne|].
      rewrite Hitem. by simplify_map_eq. }
    destruct (py_index_long (items_of p) 0) as (x & _ & ->); [lia|].
    destruct (decide (length (items_of p) = 1)) as [E1|E1].
    { rewrite (py_index_short _ 1) by lia. eexists. split; [done|].
      split; [by intros b Hb; cbn; rewrite lookup_insert_ne|].
      rewrite Hitem. by simplify_map_eq. }
    destruct (py_index_long (items_of p) 1) as (y & _ & ->); [lia|].
    subst need. destruct (py_eq_int dim 3); [|lia].
    rewrite (py_index_short _ 2) by lia. eexists. split; [done|].
    split; [by intros b Hb; cbn; rewrite lookup_insert_ne|].
    rewrite Hitem. by simplify_map_eq.
  - intros Hlen.
    assert (Hlen2 : 2 <= length (items_of p)) by (subst need; destruct (py_eq_int dim 3); lia).
    destruct (py_index_long (items_of p) 0) as (x & Hx & ->); [lia|].
    destruct (py_index_long (items_of p) 1) as (y & Hy & ->); [lia|].
    rewrite Hx, Hy, Hz. subst need. destruct (py_eq_int dim 3).
    + destruct (py_index_long (items_of p) 2) as (z & Hz' & ->); [lia|].
      rewrite Hz'. eexists. split; [done|]. split; [done|].
      split; [by intros b Hb; cbn; rewrite lookup_insert_ne|].
      rewrite !Hitem. repeat split; by simplify_map_eq.
    + eexists. split; [done|]. split; [done|].
      split; [by intros b Hb; cbn; rewrite lookup_insert_ne|].
      rewrite !Hitem. repeat split; by simplify_map_eq.
Qed.

End StgDictFacts.

(** X13.  [CartesianMeshGenerator._add_to_stg_dict] reads one periodicity
    flag for each axis, and the constructor never compared the number of
    flags with the dimension.  On a generator with fewer flags than axes
    (two axes, or three when [dim == 3]) the method raises [IndexError],
    after it has written the entries that come first; with enough flags it
    fills the dictionary of the generator component with the resolution,
    the corners, the dimension and the flags, and touches nothing else. *)
Theorem Cartesian_stg_dict_reads_a_flag_per_axis {N : Type}
    (component_name : addr -> string -> string) (parent : M N unit)
    (self cd sub : addr) (w w0 : world N) (er mn mx dim p : pyval) :
  parent w = (Ok tt, w0) ->
  attr w0 self "_elementRes" = Some er ->
  attr w0 self "_minCoord" = Some mn ->
  attr w0 self "_maxCoord" = Some mx ->
  attr w0 self "_dim" = Some dim ->
  attr w0 self "_periodic" = Some p ->
  is_list_or_tuple p = true ->
  item w0 cd (component_name self "_gen") = Some (VRef sub) ->
  alive w0 sub -> sub <> self -> sub <> cd ->
  let need := if py_eq_int dim 3 then 3 else 2 in
  let run := CartesianMeshGenerator__add_to_stg_dict component_name parent self cd w in
  (length (items_of p) < need ->
   exists w', run = (Raise (IndexError "list index out of range"), w')
              /\ (forall b, b <> sub -> heap w' !! b = heap w0 !! b)
              /\ item w' sub "size" = Some er)
  /\ (need <= length (items_of p) ->
      exists w', run = (Ok tt, w')
                 /\ native w' = native w0
                 /\ (forall b, b <> sub -> heap w' !! b = heap w0 !! b)
                 /\ item w' sub "size" = Some er
                 /\ item w' sub "minCoord" = Some mn
                 /\ item w' sub "maxCoord" = Some mx
                 /\ item w' sub "dim" = Some dim
                 /\ item w' sub "periodic_x" = items_of p !! 0
                 /\ item w' sub "periodic_y" = items_of p !! 1
                 /\ item w' sub "periodic_z"
                    = if py_eq_int dim 3 then items_of p !! 2 else item w0 sub "periodic_z").
Proof. apply Cartesian_stg_dict_outcome. Qed.

(** A linear generator for a 2 x 2 mesh built with a single flag: the
    constructor returns it, and [_add_to_stg_dict] fails on it.  The
    component dictionary is at address 0, the dictionary of the generator
    component at 1, the generator at 2. *)
Lemma Cartesian_stg_dict_reads_a_flag_per_axis_witness :
  let component_name := fun (_ : addr) (_ : string) => "gen" in
  let er := VTuple [VInt 2; VInt 2] in
  let w_init : world unit :=
    World (<[1 := PyObj _SpecialSetsDict_cls ∅ ∅]>
             (<[0 := PyObj _SpecialSetsDict_cls ∅ {["gen" := VRef 1]}]> ∅)) tt in
  let built :=
    CartesianMeshGenerator_new extern_ok LinearCartesianGenerator_cls er
      (VTuple [VFloat (Ffin 0 0); VFloat (Ffin 0 0)])
      (VTuple [VFloat (Ffin 1 0); VFloat (Ffin 1 0)]) (VList [VBool true]) w_init in
  fst built = Ok 2
  /\ exists w',
       CartesianMeshGenerator__add_to_stg_dict component_name (mret tt) 2 0 (snd built)
       = (Raise (IndexError "list index out of range"), w')
       /\ (forall b, b <> 1 -> heap w' !! b = heap (snd built) !! b)
       /\ item w' 1 "size" = Some er.
Proof.
  intros component_name er w_init built. split; [vm_compute; reflexivity|].
  refine (proj1 (Cartesian_stg_dict_reads_a_flag_per_axis component_name (mret tt) 2 0 1
                   (snd built) (snd built) er
                   (VTuple [VFloat (Ffin 0 0); VFloat (Ffin 0 0)])
                   (VTuple [VFloat (Ffin 1 0); VFloat (Ffin 1 0)])
                   (VInt 2) (VList [VBool true])
                   eq_refl _ _ _ _ _ eq_refl _ _ _ _) _);
    try (vm_compute; reflexivity); try discriminate;
    try (eexists; vm_compute; reflexivity); try (vm_compute; lia).
Defined.

(** X14.  A templated generator refers to its geometry mesh by a weak
    reference.  While the mesh is alive the [geometryMesh] property returns
    it and [_add_to_stg_dict] stores the name of its component under
    ["elementMesh"], changing nothing else; once the mesh is gone the
    property returns [None] and [_add_to_stg_dict] raises [AttributeError]
    before it writes anything. *)
Theorem Templated_stg_dict_needs_its_mesh {N : Type}
    (component_name : addr -> string -> string) (parent : M N unit)
    (self cd gm : addr) (w w0 : world N) :
  parent w = (Ok tt, w0) ->
  attr w0 self "_geometryMeshWeakref" = Some (VWeakref gm) ->
  let run := TemplatedMeshGenerator__add_to_stg_dict component_name parent self cd w in
  (~ alive w0 gm ->
   TemplatedMeshGenerator_geometryMesh self w0 = (Ok VNone, w0)
   /\ run = (Raise (AttributeError "_cself"), w0))
  /\ (alive w0 gm ->
      TemplatedMeshGenerator_geometryMesh self w0 = (Ok (VRef gm), w0)
      /\ forall sub,
           item w0 cd (component_name self "_gen") = Some (VRef sub) ->
           alive w0 sub ->
           exists w', run = (Ok tt, w')
                      /\ native w' = native w0
                      /\ (forall b, b <> sub -> heap w' !! b = heap w0 !! b)
                      /\ item w' sub "elementMesh" = Some (VStr (component_name gm "_cself"))
                      /\ (forall k, k <> "elementMesh" -> item w' sub k = item w0 sub k)).
Proof.
  intros Hp Hg run. subst run. unfold TemplatedMeshGenerator__add_to_stg_dict.
  rewrite bind_run, Hp. split.
  - intros Hdead.
    assert (Hgm : TemplatedMeshGenerator_geometryMesh self w0 = (Ok VNone, w0)).
    { unfold TemplatedMeshGenerator_geometryMesh.
      rewrite bind_run, (getattr_run _ _ _ _ Hg). by apply weakref_call_dead. }
    split; [done|]. by rewrite bind_run, Hgm.
  - intros Hal.
    assert (Hgm : TemplatedMeshGenerator_geometryMesh self w0 = (Ok (VRef gm), w0)).
    { unfold TemplatedMeshGenerator_geometryMesh.
      rewrite bind_run, (getattr_run _ _ _ _ Hg). by apply weakref_call_alive. }
    split; [done|]. intros sub Hi [osub Ho].
    rewrite bind_run, Hgm. rewrite (subdict_set_run _ _ _ _ _ _ _ Hi Ho).
    eexists. split; [done|]. split; [done|].
    split; [by intros b Hb; cbn; rewrite lookup_insert_ne|]. split.
    + unfold item. cbn. rewrite lookup_insert_eq. cbn. apply lookup_insert_eq.
    + intros k Hk. unfold item. cbn. rewrite lookup_insert_eq, Ho. cbn.
      by apply lookup_insert_ne.
Qed.

(** A generator at address 2 whose geometry mesh, once at address 5, is
    gone. *)
Lemma Templated_stg_dict_needs_its_mesh_witness :
  let component_name := fun (_ : addr) (_ : string) => "gen" in
  let w : world unit :=
    World (<[2 := PyObj dQ1Generator_cls {["_geometryMeshWeakref" := VWeakref 5]} ∅]>
             (<[1 := PyObj _SpecialSetsDict_cls ∅ ∅]>
                (<[0 := PyObj _SpecialSetsDict_cls ∅ {["gen" := VRef 1]}]> ∅))) tt in
  TemplatedMeshGenerator_geometryMesh 2 w = (Ok VNone, w)
  /\ TemplatedMeshGenerator__add_to_stg_dict component_name (mret tt) 2 0 w
     = (Raise (AttributeError "_cself"), w).
Proof.
  intros component_name w.
  apply (proj1 (Templated_stg_dict_needs_its_mesh component_name (mret tt) 2 0 5 w w
                  eq_refl eq_refl)).
  intros [o Ho]. discriminate Ho.
Defined.

(** X15.  For a Cartesian mesh, which is a [FeMesh] and a Cartesian
    generator at once, [_add_to_stg_dict] is the method of [FeMesh] run on
    top of the method of the generator, as the method resolution order has
    it.  With a periodicity flag for each axis it fills the dictionary of
    the generator component and then stores the element type in the
    dictionary of the mesh component; with too few flags it raises
    [IndexError] and the element type is never stored. *)
Theorem Cartesian_mesh_stg_dict {N : Type}
    (component_name : addr -> string -> string) (parent : M N unit)
    (self cd subg subm : addr) (w w0 : world N) (t er mn mx dim p : pyval) :
  parent w = (Ok tt, w0) ->
  attr w0 self "_elementType" = Some t ->
  attr w0 self "_elementRes" = Some er ->
  attr w0 self "_minCoord" = Some mn ->
  attr w0 self "_maxCoord" = Some mx ->
  attr w0 self "_dim" = Some dim ->
  attr w0 self "_periodic" = Some p ->
  is_list_or_tuple p = true ->
  item w0 cd (component_name self "_gen") = Some (VRef subg) ->
  item w0 cd (component_name self "_femesh") = Some (VRef subm) ->
  alive w0 subg -> alive w0 subm ->
  subg <> self -> subg <> cd -> subg <> subm ->
  let need := if py_eq_int dim 3 then 3 else 2 in
  let run :=
    FeMesh__add_to_stg_dict component_name
      (CartesianMeshGenerator__add_to_stg_dict component_name parent self cd) self cd w in
  (length (items_of p) < need ->
   exists w', run = (Raise (IndexError "list index out of range"), w')
              /\ item w' subm "elementType" = item w0 subm "elementType")
  /\ (need <= length (items_of p) ->
      exists w', run = (Ok tt, w')
                 /\ item w' subm "elementType" = Some t
                 /\ (forall k, k <> "elementType" -> item w' subm k = item w0 subm k)
                 /\ item w' subg "size" = Some er
                 /\ item w' subg "minCoord" = Some mn
                 /\ item w' subg "maxCoord" = Some mx
                 /\ item w' subg "dim" = Some dim
                 /\ item w' subg "periodic_x" = items_of p !! 0
                 /\ item w' subg "periodic_y" = items_of p !! 1).
Proof.
  intros Hp Ht H1 H2 H3 H4 H5 Hlt Hg Hm Hag [osubm Hom] Hs Hc Hgm need run.
  pose proof (Cartesian_stg_dict_outcome component_name parent
                self cd subg w w0 er mn mx dim p Hp H1 H2 H3 H4 H5 Hlt Hg Hag Hs Hc)
    as [Hshort Hlong].
  subst run. unfold FeMesh__add_to_stg_dict. rewrite bind_run. split.
  - intros Hlen. destruct (Hshort Hlen) as (w' & -> & Hoth & _).
    eexists. split; [done|]. unfold item. by rewrite Hoth.
  - intros Hlen.
    destruct (Hlong Hlen) as (w' & -> & _ & Hoth & I1 & I2 & I3 & I4 & I5 & I6 & _).
    assert (Hself : self <> subg) by done.
    assert (Hcd : cd <> subg) by done.
    assert (Hsub : subm <> subg) by done.
    rewrite bind_run. erewrite getattr_run; last first.
    { unfold attr. rewrite (Hoth _ Hself). exact Ht. }
    erewrite subdict_set_run; last first.
    { rewrite (Hoth _ Hsub). exact Hom. }
    { unfold item. rewrite (Hoth _ Hcd). exact Hm. }
    eexists. split; [done|]. split; [|split].
    + unfold item. cbn. rewrite lookup_insert_eq. cbn. apply lookup_insert_eq.
    + intros k Hk. unfold item. cbn. rewrite lookup_insert_eq, Hom. cbn.
      by apply lookup_insert_ne.
    + unfold item in *. cbn. rewrite lookup_insert_ne by done. done.
Qed.

(** A Q1 mesh on 2 x 2 elements, built with the default flags.  The
    component dictionary is at address 0, the dictionaries of the generator
    and mesh components at 1 and 2, the mesh at 3. *)
Lemma Cartesian_mesh_stg_dict_witness :
  let component_name := fun (_ : addr) (n : string) =>
    if String.eqb n "_gen" then "gen" else "mesh" in
  let er := VTuple [VInt 2; VInt 2] in
  let mn := VTuple [VFloat (Ffin 0 0); VFloat (Ffin 0 0)] in
  let mx := VTuple [VFloat (Ffin 1 0); VFloat (Ffin 1 0)] in
  let w_init : world unit :=
    World (<[2 := PyObj _SpecialSetsDict_cls ∅ ∅]>
             (<[1 := PyObj _SpecialSetsDict_cls ∅ ∅]>
                (<[0 := PyObj _SpecialSetsDict_cls ∅
                          (<["mesh" := VRef 2]> {["gen" := VRef 1]})]> ∅))) tt in
  let built := FeMesh_Cartesian_new extern_ok (VStr "Q1") er mn mx VNone w_init in
  fst built = Ok 3
  /\ exists w',
       FeMesh__add_to_stg_dict component_name
         (CartesianMeshGenerator__add_to_stg_dict component_name (mret tt) 3 0) 3 0
         (snd built) = (Ok tt, w')
       /\ item w' 2 "elementType" = Some (VStr "Q1")
       /\ (forall k, k <> "elementType" -> item w' 2 k = item (snd built) 2 k)
       /\ item w' 1 "size" = Some er
       /\ item w' 1 "minCoord" = Some mn
       /\ item w' 1 "maxCoord" = Some mx
       /\ item w' 1 "dim" = Some (VInt 2)
       /\ item w' 1 "periodic_x" = Some (VBool false)
       /\ item w' 1 "periodic_y" = Some (VBool false).
Proof.
  intros component_name er mn mx w_init built. split; [vm_compute; reflexivity|].
  refine (proj2 (Cartesian_mesh_stg_dict component_name (mret tt) 3 0 1 2
                   (snd built) (snd built) (VStr "Q1") er mn mx
                   (VInt 2) (VList [VBool false; VBool false])
                   eq_refl _ _ _ _ _ _ eq_refl _ _ _ _ _ _ _) _);
    try (vm_compute; reflexivity); try discriminate;
    try (eexists; vm_compute; reflexivity); try (vm_compute; lia).
Defined.

(** ** The primary mesh of [FeMesh_Cartesian] *)

Section PrimaryMesh.

Context {N : Type} (extern : ncall -> N -> result unit * N).

(** The attributes the two initialisers of the primary mesh leave. *)
Lemma primary_init_attrs (self : addr) (e0 elementRes minCoord maxCoord periodic : pyval)
    (w w' : world N) :
  FeMesh___init__ extern
    (CartesianMeshGenerator___init__ extern self elementRes minCoord maxCoord periodic)
    self e0 VNone w = (Ok tt, w') ->
  exists s, e0 = VStr s
    /\ attr w' self "_elementType" = Some (VStr (PyStr.upper s))
    /\ attr w' self "_generator" = Some (VWeakref self)
    /\ attr w' self "_elementRes" = Some elementRes
    /\ attr w' self "_minCoord" = Some minCoord
    /\ attr w' self "_maxCoord" = Some maxCoord
    /\ attr w' self "_periodic" = Some periodic.
Proof.
  unfold FeMesh___init__. intros H.
  apply bind_ok in H as ([] & w1 & Hb & H).
  apply FeMesh_body_ok in Hb as (s & g & -> & _ & Hor & _ & _ & Het & Hgen).
  destruct Hor as [?|[_ ->]]; [done|].
  rewrite bool_decide_eq_true_2 in Hgen by done.
  apply CartesianMeshGenerator_init_ok in H as (Hu & H1 & H2 & H3 & H4 & _ & _).
  destruct Hu as [_ (_ & Hat & _)].
  exists s. split; [done|].
  split; [rewrite Hat; [done|]; rewrite !elem_of_cons, elem_of_nil;
          intros E; repeat destruct E as [E|E]; done|].
  split; [rewrite Hat; [done|]; rewrite !elem_of_cons, elem_of_nil;
          intros E; repeat destruct E as [E|E]; done|].
  done.
Qed.

(** The attributes of the primary mesh after a construction that returns. *)
Lemma FeMesh_Cartesian_new_attrs
    (elementType elementRes minCoord maxCoord periodic : pyval)
    (w w' : world N) (self : addr) :
  FeMesh_Cartesian_new extern elementType elementRes minCoord maxCoord periodic w
  = (Ok self, w') ->
  exists s, ElementTypes.elementType_items elementType !! 0 = Some (VStr s)
    /\ attr w' self "_elementType" = Some (VStr (PyStr.upper s))
    /\ attr w' self "_generator" = Some (VWeakref self)
    /\ attr w' self "_elementRes" = Some elementRes
    /\ attr w' self "_minCoord" = Some minCoord
    /\ attr w' self "_maxCoord" = Some maxCoord
    /\ attr w' self "_periodic" = Some (periodic_or_default periodic elementRes)
    /\ attr w' self "_dim" = Some (VInt (Z.of_nat (length (items_of elementRes)))).
Proof.
  intros H. unfold FeMesh_Cartesian_new in H.
  apply bind_ok in H as (ov & w0 & Hnew & H). apply lift_ok in Hnew as [Hnew ->].
  apply construct_ok in H as (w1 & Hf & He & Hc & Hnone & _ & H).
  unfold FeMesh_Cartesian___init__ in H.
  apply bind_ok in H as (pa & w2 & Hp & H). cbn zeta in H.
  apply bind_ok in H as (e0 & w3 & He0 & H). apply lift_ok in He0 as [He0 ->].
  apply bind_ok in H as ([] & wA & HA & H).
  apply bind_ok in H as ([] & wA' & Hsetup & H).
  apply bind_ok in H as ([] & wB & HB & H).
  assert (Hw2 : w2 = w1).
  { destruct (is_none periodic).
    - apply bind_ok in Hp as (n & w4 & Hn & Hp). apply lift_ok in Hn as [_ ->].
      by apply ret_ok in Hp as [_ ->].
    - by apply ret_ok in Hp as [_ ->]. }
  subst w2.
  pose proof (primary_init_attrs _ _ _ _ _ _ _ _ HA)
    as (s & -> & At & Ag & Ar & Amin & Amax & Aper).
  apply primary_init_ok in HA as (HuA & Hself1 & HdimA & Hchk).
  assert (Hpa : pa = periodic_or_default periodic elementRes).
  { unfold periodic_or_default. destruct (is_none periodic).
    - apply bind_ok in Hp as (n & w4 & Hn & Hp). apply lift_ok in Hn as [Hn ->].
      apply ret_ok in Hp as [-> _].
      assert (Hlt : is_list_or_tuple elementRes = true).
      { unfold cartesian_checks, CartesianChecks.check_elementRes in Hchk.
        by destruct (is_list_or_tuple elementRes). }
      destruct elementRes; try done; by injection Hn as <-.
    - by apply ret_ok in Hp as [-> _]. }
  subst pa. clear Hp.
  apply native_call_heap in Hsetup.
  assert (Hsame : forall n, attr wA' self n = attr wA self n).
  { intros n. unfold attr. by rewrite Hsetup. }
  assert (HselfA : alive wA' self).
  { apply (attr_alive _ _ "_dim" (VInt (Z.of_nat (length (items_of elementRes))))).
    by rewrite Hsame. }
  apply secondary_block_ok in HB as (HoB & (HcB & HatB & HitB) & _ & _).
  assert (HselfB : alive wB self).
  { unfold alive, class_of in *. destruct HselfA as [oa Hoa]. rewrite Hoa in HcB.
    destruct (heap wB !! self); [eauto|done]. }
  assert (HnoneB : attr wB self "_specialSets" = None).
  { rewrite HatB by (rewrite list_elem_of_singleton; done). rewrite Hsame.
    destruct HuA as [_ (_ & Hat & _)]. rewrite Hat; [done|].
    rewrite !elem_of_cons, elem_of_nil. intros E. repeat destruct E as [E|E]; done. }
  assert (HdimB : attr wB self "_dim"
                  = Some (VInt (Z.of_nat (length (items_of elementRes))))).
  { rewrite HatB by (rewrite list_elem_of_singleton; done). by rewrite Hsame. }
  destruct (specialSets_block_ok self wB _ HselfB HnoneB HdimB)
    as (d & w'' & Hrun & _ & _ & _ & (_ & HatC & _) & _).
  rewrite Hrun in H. injection H as <-.
  assert (Hkeep : forall n, n <> "_secondaryMesh" -> n <> "_specialSets" ->
                            attr w'' self n = attr wA self n).
  { intros n Hn1 Hn2.
    rewrite HatC by (rewrite list_elem_of_singleton; done).
    rewrite HatB by (rewrite list_elem_of_singleton; done). apply Hsame. }
  exists s. split; [by apply py_index_lookup|].
  rewrite !Hkeep by done. done.
Qed.

End PrimaryMesh.

(** X16.  A Cartesian mesh that the constructor returns is its own
    generator: its [generator] property returns the mesh itself, held by a
    weak reference.  Its element type is the first of the element types, in
    upper case, and the properties [elementRes], [minCoord], [maxCoord],
    [periodic] and [dim] return the arguments of the construction - for
    [periodic] left at [None], a list of [False], one for each axis. *)
Theorem Cartesian_mesh_is_its_own_generator {N : Type}
    (extern : ncall -> N -> result unit * N)
    (elementType elementRes minCoord maxCoord periodic : pyval)
    (w w' : world N) (self : addr) :
  FeMesh_Cartesian_new extern elementType elementRes minCoord maxCoord periodic w
  = (Ok self, w') ->
  FeMesh_generator self w' = (Ok (VRef self), w')
  /\ attr w' self "_generator" = Some (VWeakref self)
  /\ (exists s, ElementTypes.elementType_items elementType !! 0 = Some (VStr s)
                /\ FeMesh_elementType self w' = (Ok (VStr (PyStr.upper s)), w'))
  /\ CartesianMeshGenerator_elementRes self w' = (Ok elementRes, w')
  /\ CartesianMeshGenerator_minCoord self w' = (Ok minCoord, w')
  /\ CartesianMeshGenerator_maxCoord self w' = (Ok maxCoord, w')
  /\ CartesianMeshGenerator_periodic self w'
     = (Ok (if is_none periodic
            then VList (replicate (length (items_of elementRes)) (VBool false))
            else periodic), w')
  /\ MeshGenerator_dim self w'
     = (Ok (VInt (Z.of_nat (length (items_of elementRes)))), w').
Proof.
  intros H.
  pose proof (FeMesh_Cartesian_new_attrs extern _ _ _ _ _ _ _ _ H)
    as (s & Hs & At & Ag & Ar & Amin & Amax & Aper & Adim).
  apply FeMesh_Cartesian_new_ok in H as (_ & _ & Hchk & _).
  split; [by apply generator_get_weak_self|]. split; [done|].
  split; [exists s; split; [done|by apply getattr_run]|].
  split; [by apply getattr_run|]. split; [by apply getattr_run|].
  split; [by apply getattr_run|]. split; [|by apply getattr_run].
  apply getattr_run. rewrite Aper. f_equal.
  unfold periodic_or_default. destruct (is_none periodic); [|done].
  assert (Hlen : length (items_of elementRes) = 2 \/ length (items_of elementRes) = 3).
  { exact (vc_res_len _ _ _ _ (proj1 (cartesian_checks_valid _ _ _ _) Hchk)). }
  destruct Hlen as [-> | ->]; done.
Qed.

Lemma Cartesian_mesh_is_its_own_generator_witness :
  let er := VTuple [VInt 2; VInt 2; VInt 2] in
  let mn := VTuple [VFloat (Ffin 0 0); VFloat (Ffin 0 0); VInt 0] in
  let mx := VTuple [VFloat (Ffin 1 0); VFloat (Ffin 1 0); VInt 1] in
  let built := FeMesh_Cartesian_new extern_ok (VStr "q2/dpc1") er mn mx VNone empty_world in
  let w' := snd built in
  fst built = Ok 0
  /\ FeMesh_generator 0 w' = (Ok (VRef 0), w')
  /\ attr w' 0 "_generator" = Some (VWeakref 0)
  /\ (exists s, ElementTypes.elementType_items (VStr "q2/dpc1") !! 0 = Some (VStr s)
                /\ FeMesh_elementType 0 w' = (Ok (VStr (PyStr.upper s)), w'))
  /\ CartesianMeshGenerator_elementRes 0 w' = (Ok er, w')
  /\ CartesianMeshGenerator_minCoord 0 w' = (Ok mn, w')
  /\ CartesianMeshGenerator_maxCoord 0 w' = (Ok mx, w')
  /\ CartesianMeshGenerator_periodic 0 w'
     = (Ok (VList [VBool false; VBool false; VBool false]), w')
  /\ MeshGenerator_dim 0 w' = (Ok (VInt 3), w').
Proof.
  intros er mn mx built w'. split; [vm_compute; reflexivity|].
  apply (Cartesian_mesh_is_its_own_generator extern_ok (VStr "q2/dpc1") er mn mx VNone
           empty_world w' 0).
  vm_compute. reflexivity.
Defined.

(** ** Constructions that succeed *)

Section Success.

Context {N : Type} (extern : ncall -> N -> result unit * N).

(** The native library raises nothing. *)
Hypothesis extern_total : forall c n, fst (extern c n) = Ok tt.

Lemma native_call_succeeds (c : ncall) (w : world N) :
  exists w', native_call extern c w = (Ok tt, w') /\ heap w' = heap w.
Proof.
  unfold native_call. pose proof (extern_total c (native w)) as H.
  destruct (extern c (native w)) as [r n]. cbn in H. subst r. eauto.
Qed.

Lemma isinstance_extends (w w1 : world N) (v : pyval) (cls : pyclass) :
  extends w w1 -> isinstance w v cls = true -> isinstance w1 v cls = true.
Proof.
  intros He Hi. destruct (isinstance_ref _ _ _ Hi) as [a ->].
  pose proof (isinstance_alive _ _ _ Hi) as Hal.
  unfold isinstance in *. by rewrite (He _ Hal).
Qed.


Lemma construct_succeeds (cls : pyclass) (ov : gmap string string)
    (init : addr -> M N unit) (w : world N) :
  (forall a w1, ~ alive w a -> extends w w1 -> class_of w1 a = Some cls ->
                (forall n, attr w1 a n = None) ->
                exists w', init a w1 = (Ok tt, w')) ->
  exists a w', construct extern cls ov init w = (Ok a, w').
Proof.
  intros Hinit. unfold construct.
  destruct (alloc cls w) as [r w1] eqn:Hal.
  assert (Hr : exists a, r = Ok a) by (unfold alloc in Hal; injection Hal as <- _; eauto).
  destruct Hr as [a ->].
  pose proof (alloc_ok _ _ _ _ Hal) as (Hf & He & Hc & Hn & _).
  destruct (native_call_succeeds (Stg__new__ cls ov a) w1) as (w2 & Hnat & Hh).
  destruct (Hinit a w2) as (w3 & Hi).
  - done.
  - intros b Hb. rewrite Hh. by apply He.
  - unfold class_of in *. by rewrite Hh.
  - intros n. unfold attr in *. rewrite Hh. apply Hn.
  - exists a, w3. by rewrite bind_run, Hal, bind_run, Hnat, bind_run, Hi, ret_run.
Qed.

Lemma generator_set_succeeds (self g : addr) (w : world N) :
  alive w self ->
  isinstance w (VRef g) MeshGenerator_cls = true ->
  exists w', FeMesh_generator_set extern self (VRef g) w = (Ok tt, w').
Proof.
  intros [o Ho] Hi. rewrite (generator_set_run _ _ _ _ _ Hi Ho).
  rewrite extern_total. eauto.
Qed.

Lemma FeMesh_body_succeeds (self : addr) (s : string) (generator : pyval) (w : world N) :
  alive w self ->
  ElementTypes.str_in (PyStr.upper s) ElementTypes._supportedElementTypes = true ->
  (generator = VNone /\ isinstance w (VRef self) MeshGenerator_cls = true
   \/ exists g, generator = VRef g /\ isinstance w (VRef g) MeshGenerator_cls = true) ->
  exists w', FeMesh_body extern self (VStr s) generator w = (Ok tt, w').
Proof.
  intros [o Ho] Hs Hg.
  rewrite (FeMesh_body_supported _ _ _ _ _ _ Hs Ho).
  destruct Hg as [[-> Hi]|(g & -> & Hi)]; cbn [is_none].
  - rewrite !bind_run. unfold isinstanceM at 1. cbn beta iota.
    rewrite (isinstance_setattr _ _ _ _ _ _ _ _ Ho), Hi, ret_run.
    apply generator_set_succeeds.
    + eexists. cbn. apply lookup_insert_eq.
    + by rewrite (isinstance_setattr _ _ _ _ _ _ _ _ Ho).
  - rewrite bind_run, ret_run.
    apply generator_set_succeeds.
    + eexists. cbn. apply lookup_insert_eq.
    + by rewrite (isinstance_setattr _ _ _ _ _ _ _ _ Ho).
Qed.



Lemma TemplatedMeshGenerator_init_succeeds (self gm : addr) (w : world N) (d : pyval) :
  alive w self -> self <> gm ->
  isinstance w (VRef gm) FeMesh_cls = true ->
  isinstance w (VRef gm) MeshGenerator_cls = true ->
  attr w gm "_dim" = Some d ->
  exists w', TemplatedMeshGenerator___init__ extern self (VRef gm) w = (Ok tt, w').
Proof.
  intros [o Ho] Hne Hfe Hmg Hd. unfold TemplatedMeshGenerator___init__, isinstanceM.
  rewrite bind_run. cbn beta iota. rewrite Hfe, bind_run, ret_run.
  rewrite bind_run, (setattr_run _ _ _ _ _ Ho). cbn beta iota.
  rewrite bind_run. unfold TemplatedMeshGenerator_geometryMesh.
  rewrite bind_run. erewrite getattr_run; last first.
  { rewrite attr_insert_eq. cbn. apply lookup_insert_eq. }
  cbn beta iota. rewrite weakref_call_alive; last first.
  { destruct (attr_alive _ _ _ _ Hd) as [ogm Hogm]. exists ogm. cbn.
    by rewrite lookup_insert_ne. }
  cbn beta iota. unfold get_dim, isinstanceM. rewrite bind_run, bind_run. cbn beta iota.
  rewrite (isinstance_setattr _ _ _ _ _ _ _ _ Ho), Hmg.
  unfold MeshGenerator_dim. erewrite getattr_run; last first.
  { unfold attr in *. cbn. rewrite lookup_insert_ne by done. exact Hd. }
  cbn beta iota. rewrite bind_run. erewrite setattr_run by (cbn; apply lookup_insert_eq).
  cbn beta iota.
  match goal with
  | |- exists w', native_call extern ?c ?w0 = _ =>
      destruct (native_call_succeeds c w0) as (w' & -> & _); eauto
  end.
Qed.

Lemma checked_init_is_init (self : addr) (geometryMesh : pyval) (w : world N) :
  isinstance w geometryMesh FeMesh_cls = true ->
  checked_TemplatedMeshGenerator___init__ extern self geometryMesh w
  = TemplatedMeshGenerator___init__ extern self geometryMesh w.
Proof.
  intros Hi. unfold checked_TemplatedMeshGenerator___init__, isinstanceM.
  rewrite bind_run. cbn beta iota. by rewrite Hi, bind_run, ret_run.
Qed.

Lemma templated_construct_succeeds (cls : pyclass) (init : addr -> pyval -> M N unit)
    (gm : addr) (w : world N) (d : pyval) :
  (forall a w1, isinstance w1 (VRef gm) FeMesh_cls = true ->
     init a (VRef gm) w1 = TemplatedMeshGenerator___init__ extern a (VRef gm) w1) ->
  isinstance w (VRef gm) FeMesh_cls = true ->
  isinstance w (VRef gm) MeshGenerator_cls = true ->
  attr w gm "_dim" = Some d ->
  exists g w', construct extern cls ∅ (fun self => init self (VRef gm)) w = (Ok g, w').
Proof.
  intros Hinit Hfe Hmg Hd. apply construct_succeeds. intros a w1 Hf He Hc _.
  pose proof (attr_alive _ _ _ _ Hd) as Hgm.
  rewrite Hinit by (by eapply isinstance_extends).
  apply (TemplatedMeshGenerator_init_succeeds a gm w1 d).
  - by eapply class_alive.
  - by intros ->.
  - by eapply isinstance_extends.
  - by eapply isinstance_extends.
  - by rewrite (extends_attr _ _ _ _ He Hgm).
Qed.

Lemma FeMesh_new_succeeds (s : string) (g : addr) (w : world N) :
  ElementTypes.str_in (PyStr.upper s) ElementTypes._supportedElementTypes = true ->
  isinstance w (VRef g) MeshGenerator_cls = true ->
  exists m w', FeMesh_new extern (VStr s) (VRef g) w = (Ok m, w').
Proof.
  intros Hs Hi. apply construct_succeeds. intros a w1 Hf He Hc _.
  unfold FeMesh___init__. rewrite bind_run.
  destruct (FeMesh_body_succeeds a s (VRef g) w1) as (w2 & ->).
  - by eapply class_alive.
  - done.
  - right. exists g. split; [done|]. by eapply isinstance_extends.
  - destruct (native_call_succeeds (Stg__init__ a) w2) as (w3 & -> & _). eauto.
Qed.







End Success.



(** ** The constructors of [FeMesh] and of the templated generators *)

Section PlainConstructors.

Context {N : Type} (extern : ncall -> N -> result unit * N).

Lemma isinstance_after_alloc (cls c : pyclass) (w w2 : world N) (v : pyval) :
  heap w2 = <[fresh (dom (heap w)) := PyObj cls ∅ ∅]> (heap w) ->
  issubclass cls c = false ->
  isinstance w2 v c = isinstance w v c.
Proof.
  intros Hh Hsub. destruct v as [| | | | | | |b| |]; try done.
  unfold isinstance. rewrite Hh.
  destruct (decide (b = fresh (dom (heap w)))) as [->|Hne].
  - rewrite lookup_insert_eq. cbn. rewrite Hsub.
    assert (Hd : heap w !! fresh (dom (heap w)) = None).
    { apply not_elem_of_dom. apply is_fresh. }
    by rewrite Hd.
  - by rewrite lookup_insert_ne.
Qed.

(** The state a construction is in when the initialiser starts. *)
Lemma construct_run (cls : pyclass) (ov : gmap string string) (init : addr -> M N unit)
    (w : world N) :
  exists w2,
    heap w2 = <[fresh (dom (heap w)) := PyObj cls ∅ ∅]> (heap w)
    /\ (fst (extern (Stg__new__ cls ov (fresh (dom (heap w)))) (native w)) = Ok tt ->
        construct extern cls ov init w
        = ((init (fresh (dom (heap w))) ;; mret (fresh (dom (heap w)))) w2)).
Proof.
  unfold construct. rewrite bind_run, alloc_run. cbn beta iota.
  rewrite bind_run. unfold native_call at 1. cbn [heap native].
  destruct (extern (Stg__new__ cls ov (fresh (dom (heap w)))) (native w)) as [r n].
  eexists. split; [|intros Hr; cbn in Hr; subst r; reflexivity]. done.
Qed.

Lemma FeMesh_new_needs (elementType generator : pyval) (w w' : world N) (m : addr) :
  FeMesh_new extern elementType generator w = (Ok m, w') ->
  (exists s, elementType = VStr s
             /\ ElementTypes.str_in (PyStr.upper s) ElementTypes._supportedElementTypes = true)
  /\ isinstance w generator MeshGenerator_cls = true.
Proof.
  unfold FeMesh_new, construct. intros H.
  apply bind_ok in H as (a & w1 & Hal & H).
  unfold alloc in Hal. injection Hal as <- <-.
  apply bind_ok in H as ([] & w2 & Hn & H). apply native_call_heap in Hn. cbn [heap] in Hn.
  apply bind_ok in H as ([] & w3 & Hi & _).
  unfold FeMesh___init__ in Hi. apply bind_ok in Hi as ([] & w4 & Hb & _).
  apply FeMesh_body_ok in Hb as (s & g & -> & Hs & Hor & Hi & _).
  split; [eauto|].
  rewrite (isinstance_after_alloc FeMesh_cls MeshGenerator_cls w w2 _ Hn eq_refl) in Hi.
  destruct Hor as [->|[-> ->]]; [done|].
  exfalso. unfold isinstance in Hi.
  assert (Hd : heap w !! fresh (dom (heap w)) = None).
  { apply not_elem_of_dom. apply is_fresh. }
  by rewrite Hd in Hi.
Qed.

Lemma Templated_init_not_mesh (self : addr) (geometryMesh : pyval) (w : world N) :
  isinstance w geometryMesh FeMesh_cls = false ->
  TemplatedMeshGenerator___init__ extern self geometryMesh w
  = (Raise (TypeError "'geometryMesh' object passed in must be of type 'FeMesh'"), w)
  /\ checked_TemplatedMeshGenerator___init__ extern self geometryMesh w
     = (Raise (TypeError "'geometryMesh' object passed in must be of type 'FeMesh'"), w).
Proof.
  intros Hi. split.
  - unfold TemplatedMeshGenerator___init__, isinstanceM. rewrite bind_run. cbn beta iota.
    rewrite Hi. destruct geometryMesh; try by rewrite raise_run.
    by rewrite bind_run, raise_run.
  - unfold checked_TemplatedMeshGenerator___init__, isinstanceM. rewrite bind_run.
    cbn beta iota. by rewrite Hi, bind_run, raise_run.
Qed.

End PlainConstructors.

(** X18.  With a native library that raises nothing, [FeMesh(elementType,
    generator)] returns a mesh exactly when the element type is a string
    whose upper-case form is supported and the generator is a
    [MeshGenerator]; a plain [FeMesh] is no generator, so leaving the
    generator out fails.  The mesh it returns is a new object, the objects
    of before are as they were, its element type is the upper-case form
    and its [generator] property returns the generator passed in. *)
Theorem FeMesh_constructed_exactly_when_valid {N : Type}
    (extern : ncall -> N -> result unit * N)
    (elementType generator : pyval) (w : world N) :
  (forall c n, fst (extern c n) = Ok tt) ->
  ((exists m w', FeMesh_new extern elementType generator w = (Ok m, w'))
   <-> ((exists s, elementType = VStr s
                   /\ ElementTypes.str_in (PyStr.upper s) ElementTypes._supportedElementTypes
                      = true)
        /\ isinstance w generator MeshGenerator_cls = true))
  /\ (forall m w', FeMesh_new extern elementType generator w = (Ok m, w') ->
        ~ alive w m /\ extends w w'
        /\ class_of w' m = Some FeMesh_cls
        /\ (exists s, elementType = VStr s
                      /\ FeMesh_elementType m w' = (Ok (VStr (PyStr.upper s)), w'))
        /\ FeMesh_generator m w' = (Ok generator, w')).
Proof.
  intros Hext. split; [split|].
  - intros (m & w' & H). by apply FeMesh_new_needs in H.
  - intros [(s & -> & Hs) Hi]. destruct (isinstance_ref _ _ _ Hi) as [g ->].
    by apply FeMesh_new_succeeds.
  - intros m w' H.
    pose proof (FeMesh_new_needs _ _ _ _ _ _ H) as [(s & -> & Hs) Hi].
    destruct (isinstance_ref _ _ _ Hi) as [g ->].
    apply FeMesh_new_ok in H as (Hf & He & Hc & Ht & Hg & _);
      [|by eapply isinstance_alive].
    split; [done|]. split; [done|]. split; [done|].
    split; [exists s; split; [done|by apply getattr_run]|].
    by apply generator_get_strong.
Qed.

(** A linear generator at address 0; the mesh is made at address 1. *)
Lemma FeMesh_constructed_exactly_when_valid_witness :
  let w : world unit := World (<[0 := PyObj LinearCartesianGenerator_cls ∅ ∅]> ∅) tt in
  exists m w', FeMesh_new extern_ok (VStr "dq0") (VRef 0) w = (Ok m, w').
Proof.
  intros w.
  apply (proj2 (proj1 (FeMesh_constructed_exactly_when_valid extern_ok (VStr "dq0") (VRef 0) w
                         (fun _ _ => eq_refl)))).
  split; [exists "dq0"; split; reflexivity|reflexivity].
Defined.

(** X19.  The three generators templated on a mesh - [dQ1Generator],
    [LinearInnerGenerator], [ConstantGenerator] - are built alike.  A
    geometry mesh that is not a [FeMesh] raises [TypeError].  On a mesh
    that is also a generator with a dimension (a Cartesian mesh), and with
    a native library that raises nothing, the constructor returns a new
    generator of the class asked for, which takes its [dim] from the mesh
    and whose [geometryMesh] is the mesh; the objects of before are as
    they were. *)
Theorem templated_generator_on_a_mesh {N : Type}
    (extern : ncall -> N -> result unit * N)
    (cls : pyclass) (new : pyval -> M N addr) (w : world N) :
  (forall c n, fst (extern c n) = Ok tt) ->
  In (cls, new) [(dQ1Generator_cls, dQ1Generator_new extern);
                 (LinearInnerGenerator_cls, LinearInnerGenerator_new extern);
                 (ConstantGenerator_cls, ConstantGenerator_new extern)] ->
  (forall geometryMesh, isinstance w geometryMesh FeMesh_cls = false ->
     exists w', new geometryMesh w
                = (Raise (TypeError "'geometryMesh' object passed in must be of type 'FeMesh'"),
                   w'))
  /\ (forall gm d,
        isinstance w (VRef gm) FeMesh_cls = true ->
        isinstance w (VRef gm) MeshGenerator_cls = true ->
        attr w gm "_dim" = Some d ->
        exists g w',
          new (VRef gm) w = (Ok g, w')
          /\ ~ alive w g /\ extends w w'
          /\ class_of w' g = Some cls
          /\ MeshGenerator_dim g w' = (Ok d, w')
          /\ TemplatedMeshGenerator_geometryMesh g w' = (Ok (VRef gm), w')).
Proof.
  intros Hext Hin.
  assert (Hcases : exists init : addr -> pyval -> M N unit,
            new = (fun gmv => construct extern cls ∅ (fun self => init self gmv))
            /\ issubclass cls FeMesh_cls = false
            /\ (forall a gmv w1, isinstance w1 gmv FeMesh_cls = false ->
                  init a gmv w1
                  = (Raise (TypeError "'geometryMesh' object passed in must be of type 'FeMesh'"),
                     w1))
            /\ (forall gm a w1, isinstance w1 (VRef gm) FeMesh_cls = true ->
                  init a (VRef gm) w1
                  = TemplatedMeshGenerator___init__ extern a (VRef gm) w1)
            /\ (forall gm a w1 w2, init a (VRef gm) w1 = (Ok tt, w2) ->
                  TemplatedMeshGenerator___init__ extern a (VRef gm) w1 = (Ok tt, w2))).
  { cbn in Hin. destruct Hin as [[= <- <-]|[[= <- <-]|[[= <- <-]|[]]]].
    - exists (checked_TemplatedMeshGenerator___init__ extern).
      split; [done|]. split; [done|].
      split; [by intros; apply Templated_init_not_mesh|].
      split; [by intros; apply checked_init_is_init|].
      intros. by apply checked_TemplatedMeshGenerator_init_ok.
    - exists (checked_TemplatedMeshGenerator___init__ extern).
      split; [done|]. split; [done|].
      split; [by intros; apply Templated_init_not_mesh|].
      split; [by intros; apply checked_init_is_init|].
      intros. by apply checked_TemplatedMeshGenerator_init_ok.
    - exists (TemplatedMeshGenerator___init__ extern).
      split; [done|]. split; [done|].
      split; [by intros; apply Templated_init_not_mesh|].
      split; done. }
  destruct Hcases as (init & -> & Hsub & Hbad & Hgood & Hinv). split.
  - intros gmv Hi.
    destruct (construct_run extern cls ∅ (fun self => init self gmv) w) as (w2 & Hh & Hrun).
    rewrite Hrun by apply Hext.
    rewrite bind_run, Hbad; [eauto|].
    by rewrite (isinstance_after_alloc cls FeMesh_cls w w2 _ Hh Hsub).
  - intros gm d Hfe Hmg Hd.
    destruct (templated_construct_succeeds extern Hext cls init gm w d) as (g & w' & Hg);
      [by intros; apply Hgood|done..|].
    exists g, w'. split; [done|].
    pose proof (attr_alive _ _ _ _ Hd) as Hal.
    destruct (templated_new_ok extern cls init gm w w' g (Hinv gm) Hal Hg)
      as (Hf & He & Hc & Hw & (d' & Hd1 & Hd2)).
    split; [done|]. split; [done|]. split; [done|].
    rewrite Hd in Hd1. injection Hd1 as <-.
    split; [by apply getattr_run|].
    unfold TemplatedMeshGenerator_geometryMesh.
    rewrite bind_run, (getattr_run _ _ _ _ Hw).
    apply weakref_call_alive. by eapply extends_alive.
Qed.

(** A Cartesian mesh of dimension 3 at address 0; the generator is made at
    address 1. *)
Lemma templated_generator_on_a_mesh_witness :
  let w : world unit := World (<[0 := PyObj FeMesh_Cartesian_cls {["_dim" := VInt 3]} ∅]> ∅) tt in
  exists g w',
    ConstantGenerator_new extern_ok (VRef 0) w = (Ok g, w')
    /\ ~ alive w g /\ extends w w'
    /\ class_of w' g = Some ConstantGenerator_cls
    /\ MeshGenerator_dim g w' = (Ok (VInt 3), w')
    /\ TemplatedMeshGenerator_geometryMesh g w' = (Ok (VRef 0), w').
Proof.
  intros w.
  apply (proj2 (templated_generator_on_a_mesh extern_ok ConstantGenerator_cls
                  (ConstantGenerator_new extern_ok) w (fun _ _ => eq_refl)
                  (or_intror (or_intror (or_introl eq_refl)))) 0 (VInt 3));
    reflexivity.
Defined.
